(** * EV charger locator: proximity search over a station table

    A shallow embedding of the two Streamlit applications of the repository,

    - [app.py]: the spreadsheet-backed locator ([load_data], the sidebar
      filters and the search button), and
    - [ev_charger_locator.py]: the API-backed locator
      ([fetch_ev_data_from_api] and its search button),

    together with the [haversine_np] function both files define with the
    same body.  The pages around the two search buttons are embedded as
    runs of a script ([AppPage], [LocatorPage]): the location block, the
    address lookups, the session's first values, the reset button, the
    map and the table; so is the lookup page of [kepco_api_app.py]
    ([Kepco]).  Floating-point numbers are kept behind an interface
    ([NumPy]) with two instances: IEEE binary64 ([Float64], on Rocq's
    primitive floats) and exact real arithmetic extended with a
    not-a-number value ([Ideal]). *)

From Stdlib Require Import List String Ascii Bool Arith ZArith Lia.
From Stdlib Require Import Permutation Sorted.
From Stdlib Require Import Reals Lra.
From Stdlib Require Import Floats.
From Stdlib Require Uint63.
From Stdlib Require DecimalString.
Import ListNotations.

Set Implicit Arguments.

(* ================================================================= *)
(** ** The numeric interface: what the code asks of numpy *)

(** [F] is the type of a float64 cell.  The operations are the ones the
    source applies: arithmetic, [**], the ufuncs [np.radians], [np.sin],
    [np.cos], [np.arcsin], [np.sqrt], the comparisons [<=], [<], [==]
    (pandas' [!=] is the negation of [==]) and pandas' [isna]. *)
Class NumPy (F : Type) : Type := {
  of_int : Z -> F;
  fadd : F -> F -> F;
  fsub : F -> F -> F;
  fmul : F -> F -> F;
  fdiv : F -> F -> F;
  fpow : F -> nat -> F;
  np_radians : F -> F;
  np_sin : F -> F;
  np_cos : F -> F;
  np_arcsin : F -> F;
  np_sqrt : F -> F;
  fleb : F -> F -> bool;
  fltb : F -> F -> bool;
  feqb : F -> F -> bool;
  isna : F -> bool
}.

Declare Scope np_scope.
Delimit Scope np_scope with np.
Infix "+" := fadd : np_scope.
Infix "-" := fsub : np_scope.
Infix "*" := fmul : np_scope.
Infix "/" := fdiv : np_scope.
Infix "**" := fpow (at level 30, right associativity) : np_scope.
Infix "<=?" := fleb : np_scope.
Infix "<?" := fltb : np_scope.
Infix "==?" := feqb (at level 70) : np_scope.

(** [x != y] on a float column. *)
Definition fneqb {F} `{NumPy F} (x y : F) : bool := negb (x ==? y)%np.

(** The facts on comparisons the theorems on filtering and sorting use.
    They hold of IEEE comparisons: [<=] is transitive, reflexive and
    total away from NaN, every [<=] with NaN is false, [==] is reflexive
    away from NaN, and zero is a number. *)
Class NumPyOrder (F : Type) `{NumPy F} : Prop := {
  fleb_refl : forall x, isna x = false -> (x <=? x)%np = true;
  fleb_trans : forall x y z, (x <=? y)%np = true -> (y <=? z)%np = true ->
      (x <=? z)%np = true;
  fleb_total : forall x y, isna x = false -> isna y = false ->
      (x <=? y)%np = true \/ (y <=? x)%np = true;
  fleb_nan_l : forall x y, isna x = true -> (x <=? y)%np = false;
  fleb_nan_r : forall x y, isna y = true -> (x <=? y)%np = false;
  feqb_refl : forall x, isna x = false -> (x ==? x)%np = true;
  zero_notna : isna (of_int 0) = false
}.
Arguments NumPyOrder F {_}.

(* ================================================================= *)
(** ** [haversine_np] (app.py:35-40, ev_charger_locator.py:14-25) *)

Section Haversine.
Context {F : Type} `{NumPy F}.

(** [R = 6371], a Python [int]. *)
Definition R_earth : Z := 6371.

(** The value [a] of the source, after the four [np.radians]. *)
Definition haversine_a (lon1 lat1 lon2 lat2 : F) : F :=
  let lon1 := np_radians lon1 in
  let lat1 := np_radians lat1 in
  let lon2 := np_radians lon2 in
  let lat2 := np_radians lat2 in
  let dlon := (lon2 - lon1)%np in
  let dlat := (lat2 - lat1)%np in
  (np_sin (dlat / of_int 2) ** 2
   + np_cos lat1 * np_cos lat2 * np_sin (dlon / of_int 2) ** 2)%np.

(** [return 2 * R * np.arcsin(np.sqrt(a))]: [2 * R] is a product of two
    Python ints, then scaled into the float result. *)
Definition haversine_np (lon1 lat1 lon2 lat2 : F) : F :=
  let a := haversine_a lon1 lat1 lon2 lat2 in
  (of_int (2 * R_earth) * np_arcsin (np_sqrt a))%np.

(** The formula as the specification words it, for a record at
    [(lat1, lon1)] and a reference point at [(lat2, lon2)]:
    convert the four coordinates to radians, take the differences,
    form [a], return [2 R asin (sqrt a)] with [R = 6371]. *)
Definition spec_haversine (lat1 lon1 lat2 lon2 : F) : F :=
  let phi1 := np_radians lat1 in
  let lam1 := np_radians lon1 in
  let phi2 := np_radians lat2 in
  let lam2 := np_radians lon2 in
  let dlat := (phi2 - phi1)%np in
  let dlon := (lam2 - lam1)%np in
  let sq x := (x ** 2)%np in
  let a := (sq (np_sin (dlat / of_int 2))
            + np_cos phi1 * np_cos phi2 * sq (np_sin (dlon / of_int 2)))%np in
  (of_int (2 * 6371) * np_arcsin (np_sqrt a))%np.

(** The same expression with the argument of [sqrt] clamped to [0, 1],
    as the specification asks ([np.clip]). *)
Definition clip01 (x : F) : F :=
  if (x <? of_int 0)%np then of_int 0
  else if (of_int 1 <? x)%np then of_int 1 else x.

Definition spec_haversine_clamped (lat1 lon1 lat2 lon2 : F) : F :=
  let a := haversine_a lon1 lat1 lon2 lat2 in
  (of_int (2 * 6371) * np_arcsin (np_sqrt (clip01 a)))%np.
End Haversine.

(* ================================================================= *)
(** ** pandas: object columns, masks and [sort_values] *)

(** A cell of an object (string) column; [None] is the null cell. *)
Definition cell := option string.

(** [Series.isin(values)] for a list of strings: a null cell is in no
    such list. *)
Definition isin (v : cell) (values : list string) : bool :=
  match v with
  | Some s => existsb (String.eqb s) values
  | None => false
  end.

(** [Series.dropna()] on an object column. *)
Definition dropna (col : list cell) : list string :=
  flat_map (fun c => match c with Some s => [s] | None => [] end) col.

(** [Series.unique()]: the distinct values in order of first appearance. *)
Fixpoint unique (l : list string) : list string :=
  match l with
  | [] => []
  | x :: t => x :: filter (fun y => negb (String.eqb x y)) (unique t)
  end.

(** [DataFrame.sort_values(by)] with the default [kind]: the rows in some
    order, by the key column.  The function is an interface, since the
    source leaves the algorithm to the library: the default kind,
    quicksort, is documented as not stable, and which order it gives to
    rows with equal keys depends on the library's build. *)
Class Pandas (F : Type) : Type := {
  sort_values : forall A : Type, (A -> F) -> list A -> list A
}.

(** What the library documents of it: the result holds the same rows,
    and the keys ascend when none of them is null. *)
Class PandasSpec (F : Type) `{NumPy F} `{Pandas F} : Prop := {
  sort_values_perm : forall (A : Type) (key : A -> F) (l : list A),
      Permutation (sort_values key l) l;
  sort_values_sorted : forall (A : Type) (key : A -> F) (l : list A),
      Forall (fun x => isna (key x) = false) l ->
      Sorted (fun x y => (key x <=? key y)%np = true) (sort_values key l)
}.
Arguments PandasSpec F {_ _}.

(* ================================================================= *)
(** ** The interpreter's store and Streamlit's session state *)

(** Exceptions.  [InvalidParameter] is the error kind of the
    specification; no statement of the source raises it. *)
Inductive exn : Type :=
| KeyError
| ValueError
| NameError
| InvalidParameter.

Section Store.
Variables (F Row : Type).

(** A DataFrame object: the station columns, with or without the
    computed column [거리_km]. *)
Inductive frame : Type :=
| Plain (rows : list Row)
| WithDist (rows : list (Row * F)).

(** The station columns of a frame. *)
Definition stations (f : frame) : list Row :=
  match f with
  | Plain rows => rows
  | WithDist rows => map fst rows
  end.

(** Objects are named by their address in the store. *)
Definition ref := nat.

(** [st.session_state], with the keys the search buttons write:
    [searched], [results] (app.py) or [nearby] (ev_charger_locator.py),
    [center_lat]/[user_lat], [center_lon]/[user_lng], [radius]. *)
Record session_state : Type := {
  searched : bool;
  results : option ref;
  center_lat : option F;
  center_lon : option F;
  radius : option F
}.

Record world : Type := {
  heap : list frame;
  session : session_state
}.

Inductive outcome (A : Type) : Type :=
| Returned (a : A) (w : world)
| Raised (e : exn).
Arguments Raised {A} e.

Definition M (A : Type) : Type := world -> outcome A.

Definition ret {A} (a : A) : M A := fun w => Returned a w.

Definition bind {A B} (m : M A) (k : A -> M B) : M B :=
  fun w => match m w with
           | Returned a w' => k a w'
           | Raised e => Raised e
           end.

Definition raise {A} (e : exn) : M A := fun _ => Raised e.

(** Reading the object behind a reference. *)
Definition deref (r : ref) : M frame :=
  fun w => match nth_error (heap w) r with
           | Some f => Returned f w
           | None => Raised NameError
           end.

(** A new object, at the next free address. *)
Definition alloc (f : frame) : M ref :=
  fun w => Returned (List.length (heap w))
                    {| heap := heap w ++ [f]; session := session w |}.

Fixpoint set_nth {A} (n : nat) (x : A) (l : list A) : list A :=
  match l, n with
  | [], _ => []
  | _ :: t, O => x :: t
  | y :: t, S n' => y :: set_nth n' x t
  end.

(** Mutating the object behind a reference, in place. *)
Definition assign (r : ref) (f : frame) : M unit :=
  fun w => match nth_error (heap w) r with
           | Some _ => Returned tt {| heap := set_nth r f (heap w);
                                      session := session w |}
           | None => Raised NameError
           end.

(** [df.copy()]: a new object with the same cells. *)
Definition DataFrame_copy (r : ref) : M ref :=
  bind (deref r) alloc.

(** [df["거리_km"] = col]: adds or replaces the column in the object
    [df] names. *)
Definition setitem_distance (r : ref) (col : list Row -> list F) : M unit :=
  bind (deref r) (fun f =>
    let rows := stations f in
    assign r (WithDist (combine rows (col rows)))).

(** Reading rows together with [df["거리_km"]]: a [KeyError] when the
    frame has no such column. *)
Definition with_distance (r : ref) : M (list (Row * F)) :=
  bind (deref r) (fun f =>
    match f with
    | WithDist rows => ret rows
    | Plain _ => raise KeyError
    end).

(** [df[mask]]: a new frame with the rows the mask keeps. *)
Definition getitem_mask (r : ref) (mask : Row * F -> bool) : M ref :=
  bind (with_distance r) (fun rows => alloc (WithDist (filter mask rows))).

(** [df.sort_values("거리_km")]: a new frame. *)
Definition sort_values_distance `{Pandas F} (r : ref) : M ref :=
  bind (with_distance r) (fun rows =>
    alloc (WithDist (sort_values (@snd Row F) rows))).

(** [st.session_state.update(searched=True, results=df, center_lat=lat,
    center_lon=lon, radius=radius)]. *)
Definition session_update (df : ref) (lat lon rad : F) : M unit :=
  fun w => Returned tt
    {| heap := heap w;
       session := {| searched := true; results := Some df;
                     center_lat := Some lat; center_lon := Some lon;
                     radius := Some rad |} |}.

(** The frame [st.session_state] holds as the search result, if any, as
    (station, distance) pairs. *)
Definition result_rows (w : world) : option (list (Row * F)) :=
  match results (session w) with
  | Some r => match nth_error (heap w) r with
              | Some (WithDist rows) => Some rows
              | _ => None
              end
  | None => None
  end.

(** The world a search leaves behind: three new objects (the annotated
    copy, the masked frame, the sorted frame) after the old ones, and the
    session pointing at the last. *)
Definition after_search `{Pandas F} (w : world) (rows : list Row)
    (dist : Row -> F) (mask : Row * F -> bool) (lat lon rad : F)
    : world :=
  let annotated := map (fun r => (r, dist r)) rows in
  let masked := filter mask annotated in
  {| heap := heap w ++ [WithDist annotated] ++ [WithDist masked]
                  ++ [WithDist (sort_values snd masked)];
     session := {| searched := true;
                   results := Some (List.length (heap w) + 2);
                   center_lat := Some lat; center_lon := Some lon;
                   radius := Some rad |} |}.

(** The search result a run leaves in the session; nothing when the run
    raised. *)
Definition result_of {A} (o : outcome A) : option (list (Row * F)) :=
  match o with
  | Returned _ w => result_rows w
  | Raised _ => None
  end.
End Store.

Arguments Plain {F Row} rows.
Arguments WithDist {F Row} rows.
Arguments Raised {F Row A} e.
Arguments Returned {F Row A} a w.
Arguments ret {F Row A} a.
Arguments result_of {F Row A} o.
Arguments raise {F Row A} e.

Notation "x <- m ;; k" := (bind m (fun x => k))
  (at level 61, m at next level, right associativity).
Notation "m ;;; k" := (bind m (fun _ => k))
  (at level 61, right associativity).

(* ================================================================= *)
(** ** app.py: the spreadsheet-backed locator *)

Module App.
Section App.
Context {F : Type} `{NumPy F} `{Pandas F}.

(** A row of the spreadsheet as [pd.read_excel] yields it, under the
    source's column names: 충전소명, 주소, 위도, 경도, 위도경도, 충전기타입,
    운영기관(대), 이용자제한, 시설구분(소), 충전속도.  An empty numeric cell is
    NaN, an empty text cell is null. *)
Record SheetRow : Type := {
  s_name : cell;
  s_address : cell;
  s_lat : F;
  s_lon : F;
  s_latlon : cell;
  s_connector : cell;
  s_operator_large : cell;
  s_user_restriction : cell;
  s_facility_small : cell;
  s_speed : cell
}.

(** The sheet: its rows, and whether it has the combined column 위도경도. *)
Record Sheet : Type := {
  has_latlon : bool;
  sheet_rows : list SheetRow
}.

(** A row of the frame [load_data] returns, after the selection and the
    renaming: 충전소명, 주소, 위도, 경도, 충전기타입, 운영기관, 이용가능여부,
    장소유형, 충전속도. *)
Record Station : Type := {
  name : cell;
  address : cell;
  latitude : F;
  longitude : F;
  connector_type : cell;
  operator : cell;
  access : cell;
  place_type : cell;
  charge_speed : cell
}.

(** [df["위도경도"].str.split(",", expand=True).astype(float)]: the two
    float columns, or nothing when pandas raises (an unreadable number, a
    cell that does not split in two). *)
Variable split_latlon : list cell -> option (list (F * F)).

Definition set_coordinates (r : SheetRow) (c : F * F) : SheetRow :=
  {| s_name := s_name r; s_address := s_address r;
     s_lat := fst c; s_lon := snd c; s_latlon := s_latlon r;
     s_connector := s_connector r; s_operator_large := s_operator_large r;
     s_user_restriction := s_user_restriction r;
     s_facility_small := s_facility_small r; s_speed := s_speed r |}.

(** The column selection and [rename]. *)
Definition select_rename (r : SheetRow) : Station :=
  {| name := s_name r; address := s_address r;
     latitude := s_lat r; longitude := s_lon r;
     connector_type := s_connector r;
     operator := s_operator_large r;
     access := s_user_restriction r;
     place_type := s_facility_small r;
     charge_speed := s_speed r |}.

(** [.dropna(subset=["위도", "경도"])]. *)
Definition has_coordinates (r : Station) : bool :=
  negb (isna (latitude r)) && negb (isna (longitude r)).

(** [load_data] (app.py:16-32); [None] when pandas raises (the split
    fails, or its columns do not have the frame's length). *)
Definition load_data (sheet : Sheet) : option (list Station) :=
  let split :=
    if has_latlon sheet then
      match split_latlon (map s_latlon (sheet_rows sheet)) with
      | Some cs =>
        if List.length cs =? List.length (sheet_rows sheet) then
          Some (map (fun rc => set_coordinates (fst rc) (snd rc))
                    (combine (sheet_rows sheet) cs))
        else None
      | None => None
      end
    else Some (sheet_rows sheet) in
  option_map (fun rows => filter has_coordinates (map select_rename rows))
             split.

(** *** The sidebar (app.py:57-77) *)

(** The "select all" entry of every multiselect. *)
Definition ALL : string := "전체".

(** The five lists the sidebar leaves in [selected_connectors],
    [selected_operators], [selected_places], [selected_access] and
    [selected_speeds]. *)
Record Selections : Type := {
  selected_connectors : list string;
  selected_operators : list string;
  selected_places : list string;
  selected_access : list string;
  selected_speeds : list string
}.

(** [if "전체" in selected: selected = df_raw[col].dropna().unique()]. *)
Definition expand (picked : list string) (col : list cell) : list string :=
  if existsb (String.eqb ALL) picked then unique (dropna col) else picked.

(** The sidebar, from what the user picked in each multiselect. *)
Definition sidebar (df_raw : list Station) (picked : Selections) : Selections :=
  {| selected_connectors :=
       expand (selected_connectors picked) (map connector_type df_raw);
     selected_operators :=
       expand (selected_operators picked) (map operator df_raw);
     selected_places :=
       expand (selected_places picked) (map place_type df_raw);
     selected_access :=
       expand (selected_access picked) (map access df_raw);
     selected_speeds :=
       expand (selected_speeds picked) (map charge_speed df_raw) |}.

(** *** The search button (app.py:107-125) *)

(** [haversine_np(df["경도"], df["위도"], lon, lat)], row by row. *)
Definition distance_to (lat lon : F) (r : Station) : F :=
  haversine_np (longitude r) (latitude r) lon lat.

(** The five [isin] tests of the mask. *)
Definition categorical_mask (sel : Selections) (r : Station) : bool :=
  isin (operator r) (selected_operators sel)
  && isin (place_type r) (selected_places sel)
  && isin (access r) (selected_access sel)
  && isin (connector_type r) (selected_connectors sel)
  && isin (charge_speed r) (selected_speeds sel).

(** The whole mask: the five tests and [df["거리_km"] <= radius_km]. *)
Definition mask (sel : Selections) (radius_km : F) (r : Station * F) : bool :=
  categorical_mask sel (fst r) && (snd r <=? radius_km)%np.

Definition search_button (df_raw : ref) (sel : Selections)
    (lat lon radius_km : F) : M F Station unit :=
  df <- DataFrame_copy df_raw ;;
  setitem_distance df (map (distance_to lat lon)) ;;;
  df <- getitem_mask df (mask sel radius_km) ;;
  df <- sort_values_distance df ;;
  session_update df lat lon radius_km.

(** One run of the script with the search button pressed: the sidebar
    reads [df_raw], then the button's block runs. *)
Definition script (df_raw : ref) (picked : Selections)
    (lat lon radius_km : F) : M F Station unit :=
  f <- deref df_raw ;;
  search_button df_raw (sidebar (stations f) picked) lat lon radius_km.

(** The result as a function of the repository's rows and the
    parameters. *)
Definition query (rows : list Station) (sel : Selections)
    (lat lon radius_km : F) : list (Station * F) :=
  sort_values snd
    (filter (mask sel radius_km)
            (map (fun r => (r, distance_to lat lon r)) rows)).

(** The five fields the mask constrains, each with its column and its
    accepted values. *)
Inductive field : Type := Connector | Operator | Place | Access | Speed.

Definition field_value (fld : field) (r : Station) : cell :=
  match fld with
  | Connector => connector_type r
  | Operator => operator r
  | Place => place_type r
  | Access => access r
  | Speed => charge_speed r
  end.

Definition accepted (fld : field) (sel : Selections) : list string :=
  match fld with
  | Connector => selected_connectors sel
  | Operator => selected_operators sel
  | Place => selected_places sel
  | Access => selected_access sel
  | Speed => selected_speeds sel
  end.

(** The identity of a station in the result: its name and address. *)
Definition station_key (r : Station) : cell * cell := (name r, address r).

End App.
End App.

(* ================================================================= *)
(** ** ev_charger_locator.py: the API-backed locator *)

Module Locator.
Section Locator.
Context {F : Type} `{NumPy F} `{Pandas F}.

(** An [<item>] of the response: the text of each child element the code
    reads, [None] when the element is absent. *)
Record Item : Type := {
  csNm : option string;
  addr : option string;
  lat : option string;
  longi : option string;
  useTime : option string;
  busiNm : option string;
  cpTp : option string;
  cpStat : option string
}.

(** A row of the frame: 충전소명, 주소, 위도, 경도, 이용가능여부, 운영기관,
    충전기타입, 충전기상태. *)
Record Charger : Type := {
  name : string;
  address : string;
  latitude : F;
  longitude : F;
  access : string;
  operator : string;
  connector_type : string;
  status : string
}.

(** Python's [float] on a string; [None] is a [ValueError]. *)
Variable py_float : string -> option F.

(** [item.findtext(tag, default)]. *)
Definition findtext (t : option string) (default : string) : string :=
  match t with Some s => s | None => default end.

(** [float(item.findtext(tag) or 0)]: an absent element and an empty
    text both give [0.0]. *)
Definition coordinate (t : option string) : option F :=
  match t with
  | None => Some (of_int 0)
  | Some EmptyString => Some (of_int 0)
  | Some s => py_float s
  end.

(** The coordinate text of an item is missing: no element, or an empty
    one. *)
Definition no_text (t : option string) : Prop :=
  t = None \/ t = Some EmptyString.

Definition NO_INFO : string := "정보없음".

(** The body of the loop (ev_charger_locator.py:74-90): the row of an
    item, or nothing when [float] raises and the item is skipped. *)
Definition parse_item (it : Item) : option Charger :=
  match coordinate (lat it) with
  | None => None
  | Some la =>
    match coordinate (longi it) with
    | None => None
    | Some lo =>
      Some {| name := findtext (csNm it) "";
              address := findtext (addr it) "";
              latitude := la;
              longitude := lo;
              access := findtext (useTime it) NO_INFO;
              operator := findtext (busiNm it) NO_INFO;
              connector_type := findtext (cpTp it) NO_INFO;
              status := findtext (cpStat it) NO_INFO |}
    end
  end.

Definition parse_items (items : list Item) : list Charger :=
  flat_map (fun it => match parse_item it with
                      | Some c => [c]
                      | None => []
                      end) items.

(** [df[(df['위도'] != 0) | (df['경도'] != 0)]]. *)
Definition has_position (c : Charger) : bool :=
  fneqb (latitude c) (of_int 0) || fneqb (longitude c) (of_int 0).

(** What the request produced: an exception on the way (network, HTTP
    status, malformed XML, anything else), or a document with its
    [resultCode] and, if present, the items under [body/items]. *)
Inductive response : Type :=
| Failure
| Document (result_code : string) (items : option (list Item)).

(** [fetch_ev_data_from_api] (ev_charger_locator.py:31-112), from the
    response on; every failing path returns the empty frame. *)
Definition fetch_ev_data_from_api (resp : response) : list Charger :=
  match resp with
  | Failure => []
  | Document result_code items =>
    if String.eqb result_code "00" then
      match items with
      | None => []
      | Some its => filter has_position (parse_items its)
      end
    else []
  end.

(** *** The search button (ev_charger_locator.py:195-229) *)

(** Where the user is: an address with what [get_coordinates] returned
    for it, or the two number inputs. *)
Inductive user_location : Type :=
| AddressInput (geocoded : option (F * F))
| DirectInput (lat_in lng_in : F).

(** [user_lat, user_lng] as the button's block has them, when it has
    them. *)
Definition located (loc : user_location) : option (F * F) :=
  match loc with
  | AddressInput geocoded => geocoded
  | DirectInput lat_in lng_in => Some (lat_in, lng_in)
  end.

Definition distance_to (user_lat user_lng : F) (r : Charger) : F :=
  haversine_np (longitude r) (latitude r) user_lng user_lat.

(** [st.session_state['searched'] = False] before [st.stop()]. *)
Definition clear_searched : M F Charger unit :=
  fun w => Returned tt
    {| heap := heap w;
       session := {| searched := false;
                     results := results (session w);
                     center_lat := center_lat (session w);
                     center_lon := center_lon (session w);
                     radius := radius (session w) |} |}.

Definition search (df : ref) (user_lat user_lng radius : F)
    : M F Charger unit :=
  df_copy <- DataFrame_copy df ;;
  setitem_distance df_copy (map (distance_to user_lat user_lng)) ;;;
  nearby <- getitem_mask df_copy (fun r => (snd r <=? radius)%np) ;;
  nearby <- sort_values_distance nearby ;;
  session_update nearby user_lat user_lng radius.

Definition search_button (df : ref) (loc : user_location) (radius : F)
    : M F Charger unit :=
  match loc with
  | AddressInput None => clear_searched
  | AddressInput (Some (user_lat, user_lng)) =>
      search df user_lat user_lng radius
  | DirectInput lat_in lng_in => search df lat_in lng_in radius
  end.

(** The result as a function of the repository's rows and the
    parameters. *)
Definition query (rows : list Charger) (user_lat user_lng radius : F)
    : list (Charger * F) :=
  sort_values snd
    (filter (fun r => (snd r <=? radius)%np)
            (map (fun r => (r, distance_to user_lat user_lng r)) rows)).

Definition station_key (r : Charger) : string * string :=
  (name r, address r).

End Locator.
End Locator.

Arguments App.Station F : clear implicits.
Arguments App.SheetRow F : clear implicits.
Arguments App.Sheet F : clear implicits.
Arguments Locator.Charger F : clear implicits.
Arguments Locator.user_location F : clear implicits.

(* ================================================================= *)
(** ** A run of a Streamlit script *)

Section SessionKeys.
Variables (F Row : Type).

(** Reading [st.session_state]. *)
Definition session_get : M F Row (session_state F) :=
  fun w => Returned (session w) w.

(** [st.session_state["center_lat"] = lat] and
    [st.session_state["center_lon"] = lon]. *)
Definition set_center (lat lon : option F) : M F Row unit :=
  fun w => Returned tt
    {| heap := heap w;
       session := {| searched := searched (session w);
                     results := results (session w);
                     center_lat := lat; center_lon := lon;
                     radius := radius (session w) |} |}.

(** [df.empty]. *)
Definition empty (f : frame F Row) : bool :=
  match stations f with [] => true | _ :: _ => false end.
End SessionKeys.

Arguments session_get {F Row}.
Arguments set_center {F Row} lat lon.

(** A script runs from its first line to its last, unless [st.stop()]
    or [st.rerun()] ends the run, or an exception escapes.  On the way
    it changes the state [S] that outlives the run and writes elements
    [O] to the page.  Of a run that an exception ends only the
    exception is kept. *)
Section Page.
Variables (S O : Type).

Inductive ending (A : Type) : Type :=
| Continues (a : A) (s : S) (out : list O)
| Stops (s : S) (out : list O)
| Reruns (s : S) (out : list O)
| Crashes (e : exn).
Arguments Continues {A} a s out.
Arguments Stops {A} s out.
Arguments Reruns {A} s out.
Arguments Crashes {A} e.

Definition Page (A : Type) : Type := S -> list O -> ending A.

Definition page_ret {A} (a : A) : Page A := fun s out => Continues a s out.

Definition page_bind {A B} (m : Page A) (k : A -> Page B) : Page B :=
  fun s out => match m s out with
               | Continues a s' out' => k a s' out'
               | Stops s' out' => Stops s' out'
               | Reruns s' out' => Reruns s' out'
               | Crashes e => Crashes e
               end.

Definition page_raise {A} (e : exn) : Page A := fun _ _ => Crashes e.

(** [st.stop()] and [st.rerun()]. *)
Definition st_stop {A} : Page A := fun s out => Stops s out.
Definition st_rerun {A} : Page A := fun s out => Reruns s out.

(** An element call: [st.success], [st.error], [st_folium], ... *)
Definition emit (o : O) : Page unit :=
  fun s out => Continues tt s (out ++ [o]).

(** The state a run leaves behind, and what it wrote. *)
Definition state_after {A} (e : ending A) : option S :=
  match e with
  | Continues _ s _ | Stops s _ | Reruns s _ => Some s
  | Crashes _ => None
  end.

(** A step keeps a relation between the state before and the state
    after, however it ends. *)
Definition preserves {A} (R : S -> S -> Prop) (m : Page A) : Prop :=
  forall s out s', state_after (m s out) = Some s' -> R s s'.

End Page.

Arguments Continues {S O A} a s out.
Arguments Stops {S O A} s out.
Arguments Reruns {S O A} s out.
Arguments Crashes {S O A} e.
Arguments page_ret {S O A} a.
Arguments page_raise {S O A} e.
Arguments st_stop {S O A}.
Arguments st_rerun {S O A}.
Arguments emit {S O} o.

Declare Scope page_scope.
Notation "x <- m ;; k" := (page_bind m (fun x => k))
  (at level 61, m at next level, right associativity) : page_scope.
Notation "m ;;; k" := (page_bind m (fun _ => k))
  (at level 61, right associativity) : page_scope.

(** An f-string: its parts in a row. *)
Definition fstring (parts : list string) : string :=
  String.concat EmptyString parts.

(** A cell in an f-string; pandas holds an empty cell as NaN. *)
Definition format_cell (c : cell) : string :=
  match c with Some s => s | None => "nan" end.

(** [folium.Marker]: where it stands, its tooltip, the HTML of its
    popup, the colour and the glyph of its icon. *)
Record Marker (F : Type) : Type := {
  location : F * F;
  tooltip : cell;
  popup : option string;
  icon_color : string;
  icon : string
}.

(** [folium]'s check of the location of a map, a marker or a circle: a
    [ValueError] when a coordinate is NaN. *)
Definition validate_location {F : Type} `{NumPy F} {S O : Type}
    (location : F * F) : Page S O unit :=
  if isna (fst location) || isna (snd location)
  then page_raise ValueError else page_ret tt.

(* ================================================================= *)
(** ** app.py: a run of the page *)

Module AppPage.
Section AppPage.
Context {F : Type} `{NumPy F} `{Pandas F}.
Local Open Scope page_scope.

(** [DEFAULT_LAT] and [DEFAULT_LNG] (app.py:11-12), 37.5665 and
    126.9780, as numbers of [F]. *)
Variables (default_lat default_lng : F).

(** Nominatim's answer for an address: a location with its latitude and
    longitude, or nothing. *)
Variable geocode : string -> option (F * F).

(** A number in an f-string: plain, and under [:.2f] and [:.6f]. *)
Variables (py_str format_2f format_6f : F -> string).

(** [address_to_coords] (app.py:43-47). *)
Definition address_to_coords (address : string) : option F * option F :=
  match geocode address with
  | Some loc => (Some (fst loc), Some (snd loc))
  | None => (None, None)
  end.

(** What outlives a run: the objects and [st.session_state], whose key
    [last_clicked] only this page writes. *)
Record app_state : Type := {
  app_world : world F (App.Station F);
  last_clicked : option (F * F)
}.

Record FoliumMap : Type := {
  map_location : F * F;
  zoom_start : nat;
  cluster : list (Marker F);
  own_position : Marker F
}.

(** What a run writes on the page: headings, messages and the map.  The
    widgets are the run's inputs. *)
Inductive element : Type :=
| st_title (body : string)
| st_header (body : string)
| st_subheader (body : string)
| st_success (body : string)
| st_error (body : string)
| st_folium (m : FoliumMap).

(** The title (app.py:50), the heading of the sidebar (app.py:58) and
    the heading of the left column (app.py:83). *)
Definition headings : list element :=
  [ st_title "🔌 전기차 충전소 위치 탐색기 (CSV 기반)";
    st_header "🔍 필터";
    st_subheader "📍 위치 및 반경 설정" ].

(** The two choices of [st.radio("위치 입력 방식", ...)]. *)
Inductive location_mode : Type := AddressEntry | CoordinateEntry.

(** What the widgets return in a run: the five multiselects, the radio,
    the text input, the button "주소 검색", the two number inputs, the
    slider, the button "충전소 검색", and [map_data["last_clicked"]] as
    (lat, lng). *)
Record Widgets : Type := {
  picked : App.Selections;
  mode : location_mode;
  address_in : string;
  address_search : bool;
  lat_input : F;
  lon_input : F;
  radius_km : F;
  station_search : bool;
  clicked : option (F * F)
}.

(** A step on the objects and the session's search keys. *)
Definition lift {A} (m : M F (App.Station F) A) : Page app_state element A :=
  fun s out => match m (app_world s) with
               | Returned a w =>
                   Continues a {| app_world := w;
                                  last_clicked := last_clicked s |} out
               | Raised e => Crashes e
               end.

(** [st.session_state["last_clicked"] = map_data["last_clicked"]]. *)
Definition set_last_clicked (c : F * F) : Page app_state element unit :=
  fun s out => Continues tt {| app_world := app_world s;
                               last_clicked := Some c |} out.

(** [st.session_state.get("center_lat", DEFAULT_LAT)] and
    [st.session_state.get("center_lon", DEFAULT_LNG)]. *)
Definition get_center (s : session_state F) : F * F :=
  (match center_lat s with Some lat => lat | None => default_lat end,
   match center_lon s with Some lon => lon | None => default_lng end).

(** The location block (app.py:84-103): [lat] and [lon]. *)
Definition location_setting (wd : Widgets) : Page app_state element (F * F) :=
  match mode wd with
  | AddressEntry =>
      (if address_search wd then
         match address_to_coords (address_in wd) with
         | (Some lat, lon) =>
             lift (set_center (Some lat) lon) ;;;
             emit (st_success "주소를 기준으로 내 위치가 갱신되었습니다.") ;;;
             st_rerun
         | (None, _) => emit (st_error "주소를 찾을 수 없습니다.")
         end
       else page_ret tt) ;;;
      s <- lift session_get ;;
      page_ret (get_center s)
  | CoordinateEntry =>
      lift (set_center (Some (lat_input wd)) (Some (lon_input wd))) ;;;
      page_ret (lat_input wd, lon_input wd)
  end.

(** The colour of a station's icon (app.py:136). *)
Definition marker_color (access : cell) : string :=
  match access with
  | Some s => if String.eqb s "이용가능" then "green"
              else if String.eqb s "이용자제한" then "orange"
              else "red"
  | None => "red"
  end.

Definition kakao_link (r : App.Station F) : string :=
  fstring [ "https://map.kakao.com/link/to/"; format_cell (App.name r); ",";
            py_str (App.latitude r); ","; py_str (App.longitude r) ]%string.

Definition naver_link (lat lon : F) (r : App.Station F) : string :=
  fstring [ "https://map.naver.com/v5/directions/"; py_str lat; ",";
            py_str lon; "/"; py_str (App.latitude r); ",";
            py_str (App.longitude r) ]%string.

(** The popup of a station (app.py:139-149). *)
Definition html (lat lon : F) (r : App.Station F * F) : string :=
  fstring [ "<b>"; format_cell (App.name (fst r)); "</b><br>";
            format_cell (App.address (fst r)); "<br>";
            "⚡ 타입: "; format_cell (App.connector_type (fst r)); "<br>";
            "⚡ 속도: "; format_cell (App.charge_speed (fst r)); "<br>";
            "🏢 운영기관: "; format_cell (App.operator (fst r)); "<br>";
            "🗺 장소유형: "; format_cell (App.place_type (fst r)); "<br>";
            "📍 거리: "; format_2f (snd r); " km<br>";
            "✅ 상태: "; format_cell (App.access (fst r)); "<br><br>";
            "<a href='"; kakao_link (fst r);
            "' target='_blank'>🧭 카카오 길찾기</a><br>";
            "<a href='"; naver_link lat lon (fst r);
            "' target='_blank'>🧭 네이버 길찾기</a>" ]%string.

(** The marker of a row of the results (app.py:135-155). *)
Definition station_marker (lat lon : F) (r : App.Station F * F) : Marker F :=
  {| location := (App.latitude (fst r), App.longitude (fst r));
     tooltip := App.name (fst r);
     popup := Some (html lat lon r);
     icon_color := marker_color (App.access (fst r));
     icon := "bolt" |}.

(** The marker of the user's position (app.py:158-162). *)
Definition own_marker (lat lon : F) : Marker F :=
  {| location := (lat, lon); tooltip := Some "내 위치"%string;
     popup := None; icon_color := "blue"; icon := "star" |}.

(** [st.session_state.get("results", pd.DataFrame())]. *)
Definition results_frame
    : M F (App.Station F) (frame F (App.Station F)) :=
  bind session_get (fun s =>
    match results s with
    | None => ret (Plain [])
    | Some df => deref df
    end).

(** The rows the loop [for _, r in df.iterrows()] reads, each with its
    [거리_km]: a [KeyError] at the first row of a frame without that
    column. *)
Definition iterrows (f : frame F (App.Station F))
    : M F (App.Station F) (list (App.Station F * F)) :=
  match f with
  | WithDist rows => ret rows
  | Plain [] => ret []
  | Plain (_ :: _) => raise KeyError
  end.

(** The rows of the stored results. *)
Definition results_rows : M F (App.Station F) (list (App.Station F * F)) :=
  bind results_frame iterrows.

(** The map with its markers (app.py:132-162). *)
Definition folium_map (lat lon : F) (df : list (App.Station F * F))
    : FoliumMap :=
  {| map_location := (lat, lon); zoom_start := 13;
     cluster := map (station_marker lat lon) df;
     own_position := own_marker lat lon |}.

(** A click on the map (app.py:165-169). *)
Definition map_click (wd : Widgets) : Page app_state element unit :=
  match clicked wd with
  | Some c =>
      set_last_clicked c ;;;
      lift (set_center (Some (fst c)) (Some (snd c))) ;;;
      emit (st_success
        (fstring [ "📍 지도 클릭으로 위치 이동됨: 위도 "; format_6f (fst c);
                   ", 경도 "; format_6f (snd c) ]%string))
  | None => page_ret tt
  end.

(** The markers of the loop (app.py:135-155), in the order of the
    rows; [folium.Marker] checks the location of each. *)
Fixpoint add_markers (lat lon : F) (df : list (App.Station F * F))
    : Page app_state element (list (Marker F)) :=
  match df with
  | [] => page_ret []
  | r :: rest =>
      validate_location (App.latitude (fst r), App.longitude (fst r)) ;;;
      cluster <- add_markers lat lon rest ;;
      page_ret (station_marker lat lon r :: cluster)
  end.

(** What [folium] accepts: a centre and rows without a NaN
    coordinate. *)
Definition drawable (lat lon : F) (df : list (App.Station F * F)) : bool :=
  negb (isna lat || isna lon)
  && forallb (fun r => App.has_coordinates (fst r)) df.

(** The right column (app.py:127-169): [folium.Map] and the two kinds
    of [folium.Marker] check their locations. *)
Definition column2 (wd : Widgets) : Page app_state element unit :=
  s <- lift session_get ;;
  let (lat, lon) := get_center s in
  f <- lift results_frame ;;
  validate_location (lat, lon) ;;;
  df <- lift (iterrows f) ;;
  cluster <- add_markers lat lon df ;;
  validate_location (lat, lon) ;;;
  emit (st_folium {| map_location := (lat, lon); zoom_start := 13;
                     cluster := cluster;
                     own_position := own_marker lat lon |}) ;;;
  map_click wd.

(** The page (app.py:50-169); [df_raw] names the frame [load_data]
    returned. *)
Definition script (df_raw : ref) (wd : Widgets) : Page app_state element unit :=
  emit (st_title "🔌 전기차 충전소 위치 탐색기 (CSV 기반)") ;;;
  f <- lift (deref df_raw) ;;
  emit (st_header "🔍 필터") ;;;
  let sel := App.sidebar (stations f) (picked wd) in
  emit (st_subheader "📍 위치 및 반경 설정") ;;;
  p <- location_setting wd ;;
  (if station_search wd then
     lift (App.search_button df_raw sel (fst p) (snd p) (radius_km wd))
   else page_ret tt) ;;;
  column2 wd.

(** A run starts with an empty page. *)
Definition run (df_raw : ref) (wd : Widgets) (s : app_state)
    : ending app_state element unit :=
  script df_raw wd s [].

(** Two states with the same objects and the same stored search; the
    centre and the last click may differ. *)
Definition same_search (s s' : app_state) : Prop :=
  heap (app_world s') = heap (app_world s)
  /\ searched (session (app_world s')) = searched (session (app_world s))
  /\ results (session (app_world s')) = results (session (app_world s))
  /\ radius (session (app_world s')) = radius (session (app_world s)).

(** The maps a run drew. *)
Definition maps (out : list element) : list FoliumMap :=
  flat_map (fun o => match o with st_folium m => [m] | _ => [] end) out.

End AppPage.
End AppPage.

(* ================================================================= *)
(** ** ev_charger_locator.py: a run of the page *)

Module LocatorPage.
Section LocatorPage.
Context {F : Type} `{NumPy F} `{Pandas F}.
Local Open Scope page_scope.

Variable py_float : string -> option F.

(** The text of the [ValueError] that [float] raises on a string. *)
Variable float_error : string -> string.

(** [text[:1000]]: the first thousand characters. *)
Variable first_1000 : string -> string.

(** The literals 37.5665, 126.9780 and 1.0 of the session's first
    values (ev_charger_locator.py:171-173), as numbers of [F]. *)
Variables (default_lat default_lng default_radius : F).

(** A number in an f-string: plain, and under [:.1f] and [:.2f]. *)
Variables (py_str format_1f format_2f : F -> string).

(** What [geocode(address, timeout=10)] does: a location, nothing, or
    an exception with its text. *)
Inductive geocoded : Type :=
| Location (latitude longitude : F)
| NoLocation
| GeocodeError (e : string).

Variable geocode : string -> geocoded.

(** What outlives a run: the objects, and [st.session_state] with its
    five keys, or without any. *)
Record locator_state : Type := {
  objects : list (frame F (Locator.Charger F));
  keys : option (session_state F)
}.

Record Circle : Type := {
  circle_location : F * F;
  circle_radius : F;
  circle_tooltip : string
}.

Record FoliumMap : Type := {
  map_location : F * F;
  zoom_start : nat;
  own_position : Marker F;
  circle : Circle;
  markers : list (Marker F)
}.

(** A row of [display_df]: 충전소명, 주소, 거리(km), 이용가능여부, 운영기관,
    충전기타입, 충전기상태. *)
Record DisplayRow : Type := {
  d_name : string;
  d_address : string;
  d_distance : F;
  d_access : string;
  d_operator : string;
  d_connector_type : string;
  d_status : string
}.

(** What a run writes on the page, in the order of the calls: texts,
    messages, the spinner that shows while the frame is loaded, the map
    and the table.  [st.write] keeps its arguments.  The widgets are
    the run's inputs. *)
Inductive element : Type :=
| st_title (body : string)
| st_markdown (body : string)
| st_spinner (text : string)
| st_write (args : list string)
| st_code (body : string)
| st_success (body : string)
| st_error (body : string)
| st_warning (body : string)
| st_info (body : string)
| st_subheader (body : string)
| st_folium (m : FoliumMap)
| st_dataframe (rows : list DisplayRow).

(** [.streamlit/secrets.toml]: missing, without the key, or with it. *)
Inductive secrets : Type :=
| NoSecretsFile
| NoSuchKey
| Secret (kepco_api_key : string).

(** What the body of [fetch_ev_data_from_api] meets
    (ev_charger_locator.py:46-112).  [requests.get] or
    [raise_for_status] raises a [RequestException] with text [e]; the
    response is bound, with its URL and text, in the second case only.
    [ET.fromstring] raises a [ParseError].  Something else is raised
    (a document without [header], say).  Or the document is read: the
    text of the response, [resultCode] and [resultMsg] with their
    default ["N/A"], and the items under [body/items], if that element
    is there. *)
Inductive call : Type :=
| RequestException (e : string) (response : option (string * string))
| ParseError (e : string) (text : string)
| OtherException (e : string)
| Parsed (text result_code result_msg : string)
         (items : option (list Locator.Item)).

(** The same, as far as the returned frame depends on it. *)
Definition response_of (c : call) : Locator.response :=
  match c with
  | Parsed _ result_code _ items => Locator.Document result_code items
  | _ => Locator.Failure
  end.

(** The two choices of the radio [location_option]. *)
Inductive location_option : Type := AddressEntry | CoordinateEntry.

(** What a run reads from outside: the secrets, what the call of
    [fetch_ev_data_from_api] of this run meets (a call that
    [st.cache_data] answers from its cache is the earlier call once
    more), and the widgets by their keys. *)
Record Inputs : Type := {
  st_secrets : secrets;
  api_call : call;
  option_radio : location_option;
  address_input : string;
  lat_input : F;
  lng_input : F;
  radius_slider : F;
  search_pressed : bool;
  clear_cache_pressed : bool
}.

Local Abbreviation page := (Page locator_state element).

(** A step on the objects and the session's keys: a [KeyError] when
    the session has none. *)
Definition lift {A} (m : M F (Locator.Charger F) A) : page A :=
  fun s out =>
    match keys s with
    | Some k =>
        match m {| heap := objects s; session := k |} with
        | Returned a w =>
            Continues a {| objects := heap w; keys := Some (session w) |} out
        | Raised e => Crashes e
        end
    | None => Crashes KeyError
    end.

(** A new DataFrame object. *)
Definition new_frame (f : frame F (Locator.Charger F)) : page ref :=
  fun s out => Continues (List.length (objects s))
                         {| objects := objects s ++ [f]; keys := keys s |} out.

(** [len(df)] in an f-string. *)
Definition format_len (n : nat) : string :=
  DecimalString.NilEmpty.string_of_uint (Nat.to_uint n).

(** *** fetch_ev_data_from_api (ev_charger_locator.py:30-112) *)

(** A function under [st.cache_data] is given by the elements it writes
    and the value it returns: a call writes them, and a call answered
    from the cache writes them again. *)
Definition st_cache_data {A} (f : list element * A) : page A :=
  fun s out => Continues (snd f) s (out ++ fst f).

Definition base_url : string :=
  "http://openapi.kepco.co.kr/service/EvInfoServiceV2/getEvSearchList".

(** The text on which [float] raised in an item: the latitude is
    converted first. *)
Definition unreadable (it : Locator.Item) : string :=
  match Locator.coordinate py_float (Locator.lat it) with
  | None => Locator.findtext (Locator.lat it) ""
  | Some _ => Locator.findtext (Locator.longi it) ""
  end.

(** The body of the loop with its handler (ev_charger_locator.py:
    74-90): the row of an item, or a warning when [float] raises. *)
Definition item_row (it : Locator.Item)
    : list element * option (Locator.Charger F) :=
  match Locator.parse_item py_float it with
  | Some row => ([], Some row)
  | None =>
      ([ st_warning
           (fstring [ "데이터 파싱 중 오류 발생: "; float_error (unreadable it);
                      " - 일부 충전소 데이터가 누락될 수 있습니다." ]%string) ],
       None)
  end.

(** The loop over the items (ev_charger_locator.py:73-90): the warnings
    and [data]. *)
Fixpoint for_each_item (items : list Locator.Item)
    : list element * list (Locator.Charger F) :=
  match items with
  | [] => ([], [])
  | it :: rest =>
      let (warning, row) := item_row it in
      let (warnings, data) := for_each_item rest in
      (warning ++ warnings,
       match row with Some r => r :: data | None => data end)
  end.

(** What the function writes, and the rows of the frame it returns.
    With no row in [data] the frame [pd.DataFrame(data)] has no column
    위도: [df['위도']] raises the [KeyError] that the last handler
    reports. *)
Definition fetch_ev_data_from_api (c : call)
    : list element * list (Locator.Charger F) :=
  let loading :=
    st_write ["📡 한국전력공사 전기차 충전소 데이터를 불러오는 중..."%string] in
  match c with
  | Parsed text result_code result_msg items =>
      if negb (String.eqb result_code "00") then
        ([ loading;
           st_error (fstring [ "❌ API 응답 오류 (코드: "; result_code; "): ";
                               result_msg ]%string);
           st_code (first_1000 text) ], [])
      else
        match items with
        | None =>
            ([ loading;
               st_warning "⚠️ API 응답에 유효한 <items> 태그가 없습니다. (데이터 없음 또는 응답 구조 변화 가능성)";
               st_code (first_1000 text) ], [])
        | Some items =>
            let (warnings, data) := for_each_item items in
            match data with
            | [] =>
                (loading :: warnings
                 ++ [ st_error (fstring [ "❌ 예상치 못한 오류 발생: ";
                                          "'위도'" ]%string) ], [])
            | _ :: _ =>
                let df := filter Locator.has_position data in
                (loading :: warnings
                 ++ [ st_success
                        (fstring [ "✅ 총 "; format_len (List.length df);
                                   "개의 충전소 데이터를 성공적으로 불러왔습니다." ]%string) ],
                 df)
            end
        end
  | RequestException e response =>
      ([ loading;
         st_error (fstring [ "❌ API 호출 중 네트워크 또는 HTTP 오류 발생: ";
                             e ]%string);
         st_write [ "API 요청 URL:"%string;
                    match response with
                    | Some (url, _) => url
                    | None => base_url
                    end ];
         st_code match response with
                 | Some (_, text) => text
                 | None => "응답 없음"%string
                 end ], [])
  | ParseError e text =>
      ([ loading;
         st_error (fstring [ "❌ XML 파싱 실패: "; e;
                             ". API 응답이 올바른 XML 형식이 아닐 수 있습니다." ]%string);
         st_code text ], [])
  | OtherException e =>
      ([ loading;
         st_error (fstring [ "❌ 예상치 못한 오류 발생: "; e ]%string) ], [])
  end.

(** *** The page *)

(** [get_coordinates] (ev_charger_locator.py:115-134).  The function
    is under [st.cache_data] too; with the geocoder a function of the
    address, a call answered from the cache returns and writes what a
    new call would. *)
Definition get_coordinates (address : string) : page (option (F * F)) :=
  match geocode address with
  | Location latitude longitude =>
      emit (st_success
        (fstring [ "✅ '"; address; "'에 대한 좌표: 위도 "; py_str latitude;
                   ", 경도 "; py_str longitude ]%string)) ;;;
      page_ret (Some (latitude, longitude))
  | NoLocation =>
      emit (st_error
        (fstring [ "❌ '"; address;
                   "'에 대한 좌표를 찾을 수 없습니다. 주소를 다시 확인해주세요." ]%string)) ;;;
      page_ret None
  | GeocodeError e =>
      emit (st_error
        (fstring [ "❌ 주소-좌표 변환 중 오류 발생: "; e;
                   ". 주소가 정확한지 확인하거나 네트워크 연결을 확인하세요." ]%string)) ;;;
      page_ret None
  end.

(** Reading the API key (ev_charger_locator.py:145-155). *)
Definition service_key (s : secrets) : page string :=
  match s with
  | Secret EmptyString =>
      emit (st_error "⚠️ Streamlit secrets에 'kepco_api_key'가 설정되지 않았습니다. `.streamlit/secrets.toml` 파일을 확인해주세요.") ;;;
      st_stop
  | Secret k => page_ret k
  | NoSecretsFile =>
      emit (st_error "⚠️ `.streamlit/secrets.toml` 파일을 찾을 수 없습니다. API 키를 설정해주세요.") ;;;
      st_stop
  | NoSuchKey =>
      emit (st_error "⚠️ `.streamlit/secrets.toml` 파일에 `kepco_api_key`가 정의되지 않았습니다. 올바른 키를 추가해주세요.") ;;;
      st_stop
  end.

(** The session's first values (ev_charger_locator.py:168-173). *)
Definition initialise : page unit :=
  fun s out =>
    match keys s with
    | Some _ => Continues tt s out
    | None =>
        Continues tt
          {| objects := objects s ++ [Plain []];
             keys := Some {| searched := false;
                             results := Some (List.length (objects s));
                             center_lat := Some default_lat;
                             center_lon := Some default_lng;
                             radius := Some default_radius |} |} out
    end.

(** [st.session_state.clear()]. *)
Definition session_clear : page unit :=
  fun s out => Continues tt {| objects := objects s; keys := None |} out.

Definition SETTINGS_HEADING : string := "📍 위치 및 반경 설정".

Definition RESET_DONE : string :=
  "✅ 캐시 및 상태 초기화 완료. 앱을 새로고침합니다.".

(** The left column (ev_charger_locator.py:178-236); [df] names the
    frame of this run.  [st.cache_data.clear()] empties the caches,
    which the state here does not hold: what the next call of a cached
    function meets is the next run's input. *)
Definition column1 (df : ref) (inp : Inputs) : page unit :=
  emit (st_subheader SETTINGS_HEADING) ;;;
  (if search_pressed inp then
     loc <- match option_radio inp with
            | AddressEntry =>
                c <- get_coordinates (address_input inp) ;;
                page_ret (Locator.AddressInput c)
            | CoordinateEntry =>
                page_ret (Locator.DirectInput (lat_input inp) (lng_input inp))
            end ;;
     lift (Locator.search_button df loc (radius_slider inp)) ;;;
     match Locator.located loc with
     | None => st_stop
     | Some _ => st_rerun
     end
   else page_ret tt) ;;;
  if clear_cache_pressed inp then
    session_clear ;;;
    emit (st_success RESET_DONE) ;;;
    st_rerun
  else page_ret tt.

(** [st.session_state.get('searched')]. *)
Definition get_searched : page bool :=
  fun s out => Continues (match keys s with
                          | Some k => searched k
                          | None => false
                          end) s out.

(** [st.session_state[key]]. *)
Definition getitem {A} (v : option A) : page A :=
  match v with
  | Some a => page_ret a
  | None => page_raise KeyError
  end.

Definition popup_html (row : Locator.Charger F * F) : string :=
  fstring [ "<b>"; Locator.name (fst row); "</b><br>";
            Locator.address (fst row); "<br>";
            "⚡ 타입: "; Locator.connector_type (fst row); "<br>";
            "🏢 운영기관: "; Locator.operator (fst row); "<br>";
            "🕒 이용시간: "; Locator.access (fst row); "<br>";
            "🔌 상태: "; Locator.status (fst row); "<br>";
            "📍 거리: "; format_2f (snd row); " km" ]%string.

Definition charger_marker (row : Locator.Charger F * F) : Marker F :=
  {| location := (Locator.latitude (fst row), Locator.longitude (fst row));
     tooltip := Some (Locator.name (fst row));
     popup := Some (popup_html row);
     icon_color := "green"; icon := "bolt" |}.

Definition own_marker (user_lat user_lng : F) : Marker F :=
  {| location := (user_lat, user_lng); tooltip := Some "내 위치"%string;
     popup := None; icon_color := "blue"; icon := "user" |}.

(** The column selection and the renaming of [display_df]. *)
Definition display_row (row : Locator.Charger F * F) : DisplayRow :=
  {| d_name := Locator.name (fst row);
     d_address := Locator.address (fst row);
     d_distance := snd row;
     d_access := Locator.access (fst row);
     d_operator := Locator.operator (fst row);
     d_connector_type := Locator.connector_type (fst row);
     d_status := Locator.status (fst row) |}.

(** The rows the loop [for idx, row in nearby.iterrows()] reads, each
    with its [거리_km]: a [KeyError] for a frame without that column
    (the frame is not empty here). *)
Definition iterrows (nearby : frame F (Locator.Charger F))
    : page (list (Locator.Charger F * F)) :=
  match nearby with
  | WithDist rows => page_ret rows
  | Plain _ => page_raise KeyError
  end.

(** The markers of the loop (ev_charger_locator.py:271-286), in the
    order of the rows; [folium.Marker] checks the location of each. *)
Fixpoint add_markers (rows : list (Locator.Charger F * F))
    : page (list (Marker F)) :=
  match rows with
  | [] => page_ret []
  | row :: rest =>
      validate_location (Locator.latitude (fst row),
                         Locator.longitude (fst row)) ;;;
      ms <- add_markers rest ;;
      page_ret (charger_marker row :: ms)
  end.

(** The heading of the results (ev_charger_locator.py:246). *)
Definition results_heading (radius : F) (n : nat) : string :=
  fstring [ "🔍 반경 "; format_1f radius; "km 내 "; format_len n;
            "개 충전소" ]%string.

(** The map of the results (ev_charger_locator.py:249-286): the user's
    position, the circle of the radius in metres, and one marker for
    each row. *)
Definition results_map (user_lat user_lng radius : F)
    (rows : list (Locator.Charger F * F)) : FoliumMap :=
  {| map_location := (user_lat, user_lng); zoom_start := 13;
     own_position := own_marker user_lat user_lng;
     circle := {| circle_location := (user_lat, user_lng);
                  circle_radius := (radius * of_int 1000)%np;
                  circle_tooltip :=
                    fstring [ format_1f radius; " km 반경" ]%string |};
     markers := map charger_marker rows |}.

Definition LIST_HEADING : string := "📋 충전소 목록".

(** What [folium] accepts: a position and rows without a NaN
    coordinate. *)
Definition drawable (user_lat user_lng : F)
    (rows : list (Locator.Charger F * F)) : bool :=
  negb (isna user_lat || isna user_lng)
  && forallb (fun row => negb (isna (Locator.latitude (fst row))
                               || isna (Locator.longitude (fst row)))) rows.

(** The map and the table of a search with results
    (ev_charger_locator.py:241-294); [folium.Map], [folium.Marker] and
    [folium.Circle] check their locations. *)
Definition show_results (nearby : frame F (Locator.Charger F)) : page unit :=
  k <- lift session_get ;;
  user_lat <- getitem (center_lat k) ;;
  user_lng <- getitem (center_lon k) ;;
  radius <- getitem (radius k) ;;
  emit (st_subheader
          (results_heading radius (List.length (stations nearby)))) ;;;
  validate_location (user_lat, user_lng) ;;;
  validate_location (user_lat, user_lng) ;;;
  validate_location (user_lat, user_lng) ;;;
  rows <- iterrows nearby ;;
  ms <- add_markers rows ;;
  emit (st_folium
    {| map_location := (user_lat, user_lng); zoom_start := 13;
       own_position := own_marker user_lat user_lng;
       circle := {| circle_location := (user_lat, user_lng);
                    circle_radius := (radius * of_int 1000)%np;
                    circle_tooltip :=
                      fstring [ format_1f radius; " km 반경" ]%string |};
       markers := ms |}) ;;;
  emit (st_subheader LIST_HEADING) ;;;
  emit (st_dataframe (map display_row rows)).

Definition NOTHING_NEARBY : string :=
  "해당 반경 내 충전소가 없습니다. 검색 반경을 늘려보세요.".

Definition HOW_TO_SEARCH : string :=
  "왼쪽 패널에서 위치를 설정하고 '충전소 검색' 버튼을 눌러 주변 충전소를 찾아보세요.".

(** The right column (ev_charger_locator.py:238-300). *)
Definition column2 : page unit :=
  searched <- get_searched ;;
  if searched then
    k <- lift session_get ;;
    r <- getitem (results k) ;;
    nearby <- lift (deref r) ;;
    if negb (empty nearby) then show_results nearby
    else emit (st_warning NOTHING_NEARBY)
  else emit (st_info HOW_TO_SEARCH).

Definition NO_DATA : string :=
  "⚠️ API에서 데이터를 불러올 수 없습니다. 인증키 또는 서비스 상태를 확인하세요. (위의 오류 메시지를 참조하세요)".

(** The title and the line under it (ev_charger_locator.py:140-141). *)
Definition headings : list element :=
  [ st_title "🔌 한국전력 전기차 충전소 위치 탐색기";
    st_markdown "내 위치 주변의 한국전력 전기차 충전소를 찾아보세요!" ].

Definition LOADING : string :=
  "충전소 데이터 불러오는 중... 잠시만 기다려 주세요.".

(** The page (ev_charger_locator.py:140-300). *)
Definition script (inp : Inputs) : page unit :=
  emit (st_title "🔌 한국전력 전기차 충전소 위치 탐색기") ;;;
  emit (st_markdown "내 위치 주변의 한국전력 전기차 충전소를 찾아보세요!") ;;;
  service_key (st_secrets inp) ;;;
  emit (st_spinner LOADING) ;;;
  rows <- st_cache_data (fetch_ev_data_from_api (api_call inp)) ;;
  let fetched : frame F (Locator.Charger F) := Plain rows in
  df <- new_frame fetched ;;
  (if empty fetched then emit (st_warning NO_DATA) ;;; st_stop
   else page_ret tt) ;;;
  initialise ;;;
  column1 df inp ;;;
  column2.

(** What a run has written when the frame is loaded: the headings, the
    spinner and what [fetch_ev_data_from_api] wrote. *)
Definition loaded (inp : Inputs) : list element :=
  headings ++ st_spinner LOADING
  :: fst (fetch_ev_data_from_api (api_call inp)).

(** What a run has written when it comes to the widgets of the left
    column: the same and the heading of the column. *)
Definition opening (inp : Inputs) : list element :=
  loaded inp ++ [st_subheader SETTINGS_HEADING].

(** What the right column shows of a search with results. *)
Definition shown (user_lat user_lng radius : F)
    (rows : list (Locator.Charger F * F)) : list element :=
  [ st_subheader (results_heading radius (List.length rows));
    st_folium (results_map user_lat user_lng radius rows);
    st_subheader LIST_HEADING;
    st_dataframe (map display_row rows) ].

(** What [get_coordinates] writes in a search for an address that is
    found; a search by coordinates does not call it. *)
Definition found_note (inp : Inputs) (latitude longitude : F)
    : list element :=
  match option_radio inp with
  | AddressEntry =>
      [ st_success
          (fstring [ "✅ '"; address_input inp; "'에 대한 좌표: 위도 ";
                     py_str latitude; ", 경도 "; py_str longitude ]%string) ]
  | CoordinateEntry => []
  end.

(** The state in which the columns run: the fetched frame is a new
    object, and the session has its keys. *)
Definition opened (df : list (Locator.Charger F)) (s : locator_state)
    : locator_state :=
  match keys s with
  | Some k => {| objects := objects s ++ [Plain df]; keys := Some k |}
  | None =>
      {| objects := (objects s ++ [Plain df]) ++ [Plain []];
         keys := Some {| searched := false;
                         results := Some (List.length (objects s ++ [Plain df]));
                         center_lat := Some default_lat;
                         center_lon := Some default_lng;
                         radius := Some default_radius |} |}
  end.

Definition run (inp : Inputs) (s : locator_state)
    : ending locator_state element unit :=
  script inp s [].

(** The same widgets in the run that follows: no button is pressed. *)
Definition released (inp : Inputs) : Inputs :=
  {| st_secrets := st_secrets inp; api_call := api_call inp;
     option_radio := option_radio inp; address_input := address_input inp;
     lat_input := lat_input inp; lng_input := lng_input inp;
     radius_slider := radius_slider inp;
     search_pressed := false; clear_cache_pressed := false |}.

End LocatorPage.
End LocatorPage.

(* ================================================================= *)
(** ** kepco_api_app.py: the lookup page *)

Module Kepco.
Local Open Scope page_scope.

Inductive element : Type :=
| st_subheader (body : string)
| st_write (body : string)
| st_warning (body : string)
| st_error (body : string)
| st_code (body : string).

(** A child element of an [<item>], as [item.find(tag)] gives it:
    nothing, or an element with its text, which is [None] when the
    element is empty. *)
Definition found : Type := option (option string).

Record Item : Type := {
  cpName : found;
  addr : found;
  cpStat : found;
  chargeTp : found
}.

(** [ET.fromstring(response.text)]: a [ParseError], or a tree with the
    [<item>]s under [body/items] when it has that element. *)
Inductive parsed : Type :=
| ParseError (e : string)
| Root (items : option (list Item)).

(** What the request does: [requests.get] raises, and no response is
    bound; [raise_for_status] raises on the response; or the response
    passes both. *)
Inductive request : Type :=
| GetRaises (e : string)
| StatusRaises (e : string) (text : string)
| Response (text : string) (xml : parsed).

(** [item.find(tag).text if item.find(tag) is not None else 'N/A'] in
    an f-string. *)
Definition show (e : found) : string :=
  match e with
  | Some (Some text) => text
  | Some None => "None"
  | None => "N/A"
  end.

Local Abbreviation page := (Page unit element).

Definition write_item (item : Item) : page unit :=
  emit (st_write "---") ;;;
  emit (st_write (fstring [ "**충전소명:** "; show (cpName item) ]%string)) ;;;
  emit (st_write (fstring [ "**주소:** "; show (addr item) ]%string)) ;;;
  emit (st_write (fstring [ "**충전기 상태:** "; show (cpStat item) ]%string)) ;;;
  emit (st_write (fstring [ "**충전 방식:** "; show (chargeTp item) ]%string)).

Fixpoint for_each (items : list Item) : page unit :=
  match items with
  | [] => page_ret tt
  | item :: rest => write_item item ;;; for_each rest
  end.

(** The block of the button (kepco_api_app.py:16-60). *)
Definition lookup (r : request) : page unit :=
  match r with
  | GetRaises e =>
      emit (st_error (fstring [ "API 호출 중 오류 발생: "; e ]%string)) ;;;
      (* [if response is not None]: the name is not bound *)
      page_raise NameError
  | StatusRaises e text =>
      emit (st_error (fstring [ "API 호출 중 오류 발생: "; e ]%string)) ;;;
      emit (st_error (fstring [ "Error Response Body: "; text ]%string))
  | Response text (ParseError e) =>
      emit (st_subheader "API 호출 결과:") ;;;
      emit (st_error
        (fstring [ "XML 파싱 오류: "; e;
                   ". 응답이 유효한 XML이 아닐 수 있습니다." ]%string))
  | Response text (Root items) =>
      emit (st_subheader "API 호출 결과:") ;;;
      match items with
      | Some (item :: rest) => for_each (item :: rest)
      | Some [] => emit (st_warning "조회된 충전소 정보가 없습니다.")
      | None =>
          emit (st_warning "응답에서 'items' 섹션을 찾을 수 없습니다.")
      end ;;;
      emit (st_code text)
  end.

(** A run of the page: the button, and what the request does when it is
    pressed. *)
Definition run (pressed : bool) (r : request) : ending unit element unit :=
  (if pressed then lookup r else page_ret tt) tt [].

End Kepco.

(* ================================================================= *)
(** ** Instance: exact real arithmetic with a not-a-number value *)

(** A real number, or [None] for NaN.  There are no infinities: an
    operation outside its domain yields NaN. *)
Definition ideal : Type := option R.

Definition lift1 (f : R -> R) (x : ideal) : ideal := option_map f x.

Definition lift2 (f : R -> R -> R) (x y : ideal) : ideal :=
  match x, y with
  | Some a, Some b => Some (f a b)
  | _, _ => None
  end.

Definition ideal_div (x y : ideal) : ideal :=
  match x, y with
  | Some a, Some b => if Req_dec_T b 0 then None else Some (a / b)%R
  | _, _ => None
  end.

Definition ideal_arcsin (x : ideal) : ideal :=
  match x with
  | Some a => if Rle_dec (-1) a then
                if Rle_dec a 1 then Some (asin a) else None
              else None
  | None => None
  end.

Definition ideal_sqrt (x : ideal) : ideal :=
  match x with
  | Some a => if Rle_dec 0 a then Some (R_sqrt.sqrt a) else None
  | None => None
  end.

Definition ideal_leb (x y : ideal) : bool :=
  match x, y with
  | Some a, Some b => if Rle_dec a b then true else false
  | _, _ => false
  end.

Definition ideal_ltb (x y : ideal) : bool :=
  match x, y with
  | Some a, Some b => if Rlt_dec a b then true else false
  | _, _ => false
  end.

Definition ideal_eqb (x y : ideal) : bool :=
  match x, y with
  | Some a, Some b => if Req_dec_T a b then true else false
  | _, _ => false
  end.

#[export] Instance Ideal : NumPy ideal := {
  of_int z := Some (IZR z);
  fadd := lift2 Rplus;
  fsub := lift2 Rminus;
  fmul := lift2 Rmult;
  fdiv := ideal_div;
  fpow x n := lift1 (fun a => a ^ n)%R x;
  np_radians := lift1 (fun a => a * (PI / 180))%R;
  np_sin := lift1 sin;
  np_cos := lift1 cos;
  np_arcsin := ideal_arcsin;
  np_sqrt := ideal_sqrt;
  fleb := ideal_leb;
  fltb := ideal_ltb;
  feqb := ideal_eqb;
  isna x := match x with Some _ => false | None => true end
}.

(** The value [a] over the reals, for a record at [(lat1, lon1)] and a
    reference point at [(lat2, lon2)], in degrees. *)
Definition real_a (lon1 lat1 lon2 lat2 : R) : R :=
  (let phi1 := lat1 * (PI / 180) in
  let phi2 := lat2 * (PI / 180) in
  let lam1 := lon1 * (PI / 180) in
  let lam2 := lon2 * (PI / 180) in
  sin ((phi2 - phi1) / 2) ^ 2
  + cos phi1 * cos phi2 * sin ((lam2 - lam1) / 2) ^ 2)%R.

(* ================================================================= *)
(** ** Instance: IEEE binary64 *)

(** The C library's [sin], [cos] and [asin] are outside IEEE 754; the
    instance takes them as a record. *)
Record Libm : Type := {
  libm_sin : float -> float;
  libm_cos : float -> float;
  libm_asin : float -> float
}.

(** A Python int as a double (exact below 2^53). *)
Definition float_of_Z (z : Z) : float :=
  match z with
  | Z0 => PrimFloat.zero
  | Zpos _ => PrimFloat.of_uint63 (Uint63.of_Z z)
  | Zneg p => PrimFloat.opp (PrimFloat.of_uint63 (Uint63.of_Z (Zpos p)))
  end.

(** [x ** n] by repeated multiplication; for [n = 2] this is [x * x],
    as numpy computes a square. *)
Fixpoint float_pow (x : float) (n : nat) : float :=
  match n with
  | O => PrimFloat.one
  | S O => x
  | S n' => PrimFloat.mul (float_pow x n') x
  end.

(** [M_PI] and numpy's [deg2rad]: [x * (M_PI / 180.0)]. *)
Definition M_PI : float := 0x1.921fb54442d18p+1%float.

Definition deg2rad (x : float) : float :=
  PrimFloat.mul x (PrimFloat.div M_PI (float_of_Z 180)).

Definition Float64 (libm : Libm) : NumPy float := {|
  of_int := float_of_Z;
  fadd := PrimFloat.add;
  fsub := PrimFloat.sub;
  fmul := PrimFloat.mul;
  fdiv := PrimFloat.div;
  fpow := float_pow;
  np_radians := deg2rad;
  np_sin := libm_sin libm;
  np_cos := libm_cos libm;
  np_arcsin := libm_asin libm;
  np_sqrt := PrimFloat.sqrt;
  fleb := PrimFloat.leb;
  fltb := PrimFloat.ltb;
  feqb := PrimFloat.eqb;
  isna := PrimFloat.is_nan
|}.

(** A function given by finitely many of its values; NaN elsewhere. *)
Fixpoint tabulated (t : list (float * float)) (x : float) : float :=
  match t with
  | [] => PrimFloat.nan
  | (k, y) :: t' => if PrimFloat.eqb k x then y else tabulated t' x
  end.

(** [sin], [cos] and [asin] at the arguments the examples below reach,
    each value correctly rounded to binary64. *)
Definition libm_table : Libm := {|
  libm_sin := tabulated
    [ (0x0p+0, 0x0p+0);
      (0x1.921fb54442d18p+0, 0x1p+0);
      (-0x1.1df46a2529d39p-3, -0x1.1d06c968d9e19p-3);
      (0x1.99f1d94bd0000p-17, 0x1.99f1d94ba432fp-17);
      (-0x1.a4ece5f944000p-14, -0x1.a4ece5ed69619p-14) ]%float;
  libm_cos := tabulated
    [ (0x1.1df46a2529d39p-3, 0x1.fb046a930947ap-1);
      (-0x1.1df46a2529d39p-3, 0x1.fb046a930947ap-1);
      (0x1.4faf593f7d8ddp-1, 0x1.95d7ae963d330p-1);
      (0x1.4fb28d2330257p-1, 0x1.95d5bab91e9aep-1) ]%float;
  libm_asin := tabulated
    [ (0x0p+0, 0x0p+0);
      (0x1p+0, 0x1.921fb54442d18p+0);
      (0x1.518f68cbf89c6p-14, 0x1.518f68d215b65p-14) ]%float
|}.

Definition Float64_table : NumPy float := Float64 libm_table.

(** The same for a record at 89.9N 180E and a reference point at
    90.1N 0E. *)
Definition libm_polar : Libm := {|
  libm_sin := tabulated
    [ (0x1.c987103b76000p-10, 0x1.c98701025e92ap-10);
      (-0x1.921fb54442d18p+0, -0x1p+0) ]%float;
  libm_cos := tabulated
    [ (0x1.91ad538033f40p+0, 0x1.c98701025ea45p-10);
      (0x1.9292170851af0p+0, -0x1.c98701025e810p-10) ]%float;
  libm_asin := tabulated [ (0x0p+0, 0x0p+0) ]%float
|}.

Definition Float64_polar : NumPy float := Float64 libm_polar.

(* ================================================================= *)
(** ** Two sorts within what pandas documents of [sort_values] *)

Section Sorting.
Context {F : Type} `{NumPy F}.

(** Rows with a null key go last ([na_position="last"]). *)
Definition notna_rows {A} (key : A -> F) (l : list A) : list A :=
  filter (fun x => negb (isna (key x))) l.

Definition na_rows {A} (key : A -> F) (l : list A) : list A :=
  filter (fun x => isna (key x)) l.

(** *** A stable sort (what [kind="stable"] would select) *)

Fixpoint insert_by {A} (key : A -> F) (x : A) (l : list A) : list A :=
  match l with
  | [] => [x]
  | y :: t => if (key x <=? key y)%np then x :: l
              else y :: insert_by key x t
  end.

Fixpoint insertion_sort {A} (key : A -> F) (l : list A) : list A :=
  match l with
  | [] => []
  | x :: t => insert_by key x (insertion_sort key t)
  end.

Definition stable_sort_values (A : Type) (key : A -> F) (l : list A)
    : list A :=
  insertion_sort key (notna_rows key l) ++ na_rows key l.

(** *** A sort that returns equal keys last-first

    [sort_values] is called without [kind], and pandas documents the
    default, quicksort, as not stable: which of two rows with equal
    keys comes first is the library's choice.  This sort makes the
    choice opposite to the stable one. *)


End Sorting.

Definition StableSort {F} `{NumPy F} : Pandas F :=
  {| sort_values := stable_sort_values |}.


(* ================================================================= *)
(** * Concrete runs in binary64 *)

Set Warnings "-inexact-float".

(** [DEFAULT_LAT] and [DEFAULT_LNG] (app.py:11-12): Seoul City Hall. *)
Definition DEFAULT_LAT : float := 37.5665%float.
Definition DEFAULT_LNG : float := 126.9780%float.

(** pandas over a stable sort, and over the sort that returns equal
    keys last-first. *)
Definition StableSort64 : Pandas float := @StableSort float Float64_table.

Definition fresh_session : session_state float :=
  {| searched := false; results := None;
     center_lat := None; center_lon := None; radius := None |}.

(** *** A spreadsheet repository: two chargers of one station at the
    reference point, a station without place type, and the station of
    the specification's scenario. *)

Definition plaza (connector speed : string) : App.Station float :=
  {| App.name := Some "Seoul Plaza"%string;
     App.address := Some "110 Sejong-daero"%string;
     App.latitude := DEFAULT_LAT;
     App.longitude := DEFAULT_LNG;
     App.connector_type := Some connector;
     App.operator := Some "ME"%string;
     App.access := Some "open"%string;
     App.place_type := Some "public"%string;
     App.charge_speed := Some speed |}.

Definition city_hall_charger : App.Station float :=
  {| App.name := Some "CityHallCharger"%string;
     App.address := Some "40 Eulji-ro"%string;
     App.latitude := 37.5651%float;
     App.longitude := 126.9895%float;
     App.connector_type := Some "DC combo"%string;
     App.operator := Some "ME"%string;
     App.access := Some "open"%string;
     App.place_type := Some "public"%string;
     App.charge_speed := Some "fast"%string |}.

(** A station at the reference point whose place type is empty. *)
Definition unlabelled_station : App.Station float :=
  {| App.name := Some "Deoksugung"%string;
     App.address := Some "99 Sejong-daero"%string;
     App.latitude := DEFAULT_LAT;
     App.longitude := DEFAULT_LNG;
     App.connector_type := Some "AC"%string;
     App.operator := Some "ME"%string;
     App.access := Some "open"%string;
     App.place_type := None;
     App.charge_speed := Some "slow"%string |}.

Definition sheet_stations : list (App.Station float) :=
  [ plaza "DC combo" "fast"; unlabelled_station; plaza "AC" "slow";
    city_hall_charger ].

Definition sheet_world : world float (App.Station float) :=
  {| heap := [Plain sheet_stations]; session := fresh_session |}.

(** "전체" in every multiselect. *)
Definition pick_all : App.Selections :=
  {| App.selected_connectors := [App.ALL];
     App.selected_operators := [App.ALL];
     App.selected_places := [App.ALL];
     App.selected_access := [App.ALL];
     App.selected_speeds := [App.ALL] |}.

(** *** An API repository: eighteen chargers at the reference point. *)

Definition charger_at_city_hall (n : string) : Locator.Charger float :=
  {| Locator.name := n;
     Locator.address := "110 Sejong-daero"%string;
     Locator.latitude := DEFAULT_LAT;
     Locator.longitude := DEFAULT_LNG;
     Locator.access := Locator.NO_INFO;
     Locator.operator := Locator.NO_INFO;
     Locator.connector_type := Locator.NO_INFO;
     Locator.status := Locator.NO_INFO |}.

Definition eighteen_names : list string :=
  [ "S01"; "S02"; "S03"; "S04"; "S05"; "S06"; "S07"; "S08"; "S09";
    "S10"; "S11"; "S12"; "S13"; "S14"; "S15"; "S16"; "S17"; "S18" ]%string.

Definition api_chargers : list (Locator.Charger float) :=
  map charger_at_city_hall eighteen_names.

Definition api_world : world float (Locator.Charger float) :=
  {| heap := [Plain api_chargers]; session := fresh_session |}.

(** *** An API repository with the farther charger first: one at the
    position of the specification's scenario, two at the reference
    point. *)




(** An item whose coordinate elements are absent or empty, and one with
    both. *)
Definition item_without_position : Locator.Item :=
  {| Locator.csNm := Some "S00"%string; Locator.addr := None;
     Locator.lat := None; Locator.longi := Some ""%string;
     Locator.useTime := None; Locator.busiNm := None;
     Locator.cpTp := None; Locator.cpStat := None |}.

Definition item_with_position : Locator.Item :=
  {| Locator.csNm := Some "S01"%string; Locator.addr := None;
     Locator.lat := Some "37.5665"%string;
     Locator.longi := Some "126.9780"%string;
     Locator.useTime := None; Locator.busiNm := None;
     Locator.cpTp := None; Locator.cpStat := None |}.

(** An item with a latitude and without the element [<longi>]. *)
Definition item_without_longitude : Locator.Item :=
  {| Locator.csNm := Some "S04"%string; Locator.addr := None;
     Locator.lat := Some "37.5665"%string; Locator.longi := None;
     Locator.useTime := None; Locator.busiNm := None;
     Locator.cpTp := None; Locator.cpStat := None |}.

(** [float] on the two texts above; a [ValueError] elsewhere. *)
Definition float_of_text (s : string) : option float :=
  if String.eqb s "37.5665" then Some DEFAULT_LAT
  else if String.eqb s "126.9780" then Some DEFAULT_LNG
  else None.



(** *** The pages *)

(** The address the text inputs start with, and a geocoder that knows
    it and no other. *)
Definition city_hall_address : string := "서울 중구 세종대로 110".

Definition geocode_city_hall (address : string) : option (float * float) :=
  if String.eqb address city_hall_address
  then Some (DEFAULT_LAT, DEFAULT_LNG) else None.

(** The runs below do not look into the text of a number. *)
Definition number_text (x : float) : string := "#".

Definition app_run :=
  @AppPage.run float Float64_table StableSort64 DEFAULT_LAT DEFAULT_LNG
    geocode_city_hall number_text number_text number_text.

(** The first visit of app.py's page over the spreadsheet repository. *)
Definition sheet_page : AppPage.app_state :=
  {| AppPage.app_world := sheet_world; AppPage.last_clicked := None |}.

(** The widgets of app.py as the page first shows them, with the
    buttons and the map as given. *)
Definition app_widgets (mode : AppPage.location_mode)
    (address_search station_search : bool)
    (clicked : option (float * float)) : AppPage.Widgets :=
  {| AppPage.picked := pick_all;
     AppPage.mode := mode;
     AppPage.address_in := city_hall_address;
     AppPage.address_search := address_search;
     AppPage.lat_input := DEFAULT_LAT;
     AppPage.lon_input := DEFAULT_LNG;
     AppPage.radius_km := 2%float;
     AppPage.station_search := station_search;
     AppPage.clicked := clicked |}.

(** A search by coordinates with a click on the station of the
    scenario in the same run. *)
Definition searched_and_clicked : ending AppPage.app_state AppPage.element unit :=
  app_run 0 (app_widgets AppPage.CoordinateEntry false true
                         (Some (37.5651%float, 126.9895%float)))
          sheet_page.

Definition after_search_and_click : AppPage.app_state :=
  match state_after searched_and_clicked with
  | Some s => s
  | None => sheet_page
  end.

(** "전체" everywhere but for the place type, where nothing is picked. *)
Definition pick_no_place : App.Selections :=
  {| App.selected_connectors := [App.ALL];
     App.selected_operators := [App.ALL];
     App.selected_places := [];
     App.selected_access := [App.ALL];
     App.selected_speeds := [App.ALL] |}.

(** An item whose latitude is not a number, and one without latitude. *)
Definition item_unreadable : Locator.Item :=
  {| Locator.csNm := Some "S02"%string; Locator.addr := None;
     Locator.lat := Some "n/a"%string;
     Locator.longi := Some "126.9780"%string;
     Locator.useTime := None; Locator.busiNm := None;
     Locator.cpTp := None; Locator.cpStat := None |}.

Definition item_half_located : Locator.Item :=
  {| Locator.csNm := Some "S03"%string; Locator.addr := None;
     Locator.lat := None;
     Locator.longi := Some "126.9780"%string;
     Locator.useTime := None; Locator.busiNm := None;
     Locator.cpTp := None; Locator.cpStat := None |}.

(** The locator's page: one charger from the API, no geocoder. *)
Definition nowhere (address : string) : LocatorPage.geocoded (F := float) :=
  LocatorPage.NoLocation.

(** [float]'s complaint, and texts short enough to be shown whole. *)
Definition float_complaint (s : string) : string :=
  fstring [ "could not convert string to float: '"; s; "'" ]%string.

Definition locator_run :=
  @LocatorPage.run float Float64_table StableSort64 float_of_text
    float_complaint (fun text => text)
    DEFAULT_LAT DEFAULT_LNG 1%float number_text number_text number_text
    nowhere.

Definition locator_inputs (secrets : LocatorPage.secrets)
    (option_radio : LocatorPage.location_option)
    (search_pressed clear_cache_pressed : bool) : LocatorPage.Inputs :=
  {| LocatorPage.st_secrets := secrets;
     LocatorPage.api_call :=
       LocatorPage.Parsed "<response/>" "00" "NORMAL SERVICE."
         (Some [item_unreadable; item_with_position]);
     LocatorPage.option_radio := option_radio;
     LocatorPage.address_input := city_hall_address;
     LocatorPage.lat_input := DEFAULT_LAT;
     LocatorPage.lng_input := DEFAULT_LNG;
     LocatorPage.radius_slider := 1%float;
     LocatorPage.search_pressed := search_pressed;
     LocatorPage.clear_cache_pressed := clear_cache_pressed |}.

(** A search by coordinates, a search by address, the reset button, a
    run without a button, and a run whose request times out. *)
Definition coordinate_search : LocatorPage.Inputs :=
  locator_inputs (LocatorPage.Secret "key") LocatorPage.CoordinateEntry
                 true false.

Definition address_search : LocatorPage.Inputs :=
  locator_inputs (LocatorPage.Secret "key") LocatorPage.AddressEntry
                 true false.

Definition reset_pressed : LocatorPage.Inputs :=
  locator_inputs (LocatorPage.Secret "key") LocatorPage.CoordinateEntry
                 false true.

Definition no_button : LocatorPage.Inputs :=
  locator_inputs (LocatorPage.Secret "key") LocatorPage.AddressEntry
                 false false.

Definition timed_out : LocatorPage.Inputs :=
  {| LocatorPage.st_secrets := LocatorPage.Secret "key";
     LocatorPage.api_call := LocatorPage.RequestException "timed out" None;
     LocatorPage.option_radio := LocatorPage.CoordinateEntry;
     LocatorPage.address_input := city_hall_address;
     LocatorPage.lat_input := DEFAULT_LAT;
     LocatorPage.lng_input := DEFAULT_LNG;
     LocatorPage.radius_slider := 1%float;
     LocatorPage.search_pressed := true;
     LocatorPage.clear_cache_pressed := false |}.

(** What every run of these inputs writes down to the widgets. *)
Definition locator_opening (inp : LocatorPage.Inputs) :=
  @LocatorPage.opening float Float64_table float_of_text float_complaint
    (fun text => text) inp.

(** The chargers within 1 km of the City Hall in the frame of these
    inputs. *)
Definition near_city_hall : list (Locator.Charger float * float) :=
  @Locator.query float Float64_table StableSort64
    (@Locator.fetch_ev_data_from_api float Float64_table float_of_text
       (LocatorPage.response_of (LocatorPage.api_call coordinate_search)))
    DEFAULT_LAT DEFAULT_LNG 1%float.

Definition first_visit : LocatorPage.locator_state (F := float) :=
  {| LocatorPage.objects := []; LocatorPage.keys := None |}.

(** A charger in exact coordinates. *)
Definition exact_charger : Locator.Charger ideal :=
  {| Locator.name := "S01"; Locator.address := "110 Sejong-daero";
     Locator.latitude := Some 37%R; Locator.longitude := Some 127%R;
     Locator.access := Locator.NO_INFO; Locator.operator := Locator.NO_INFO;
     Locator.connector_type := Locator.NO_INFO;
     Locator.status := Locator.NO_INFO |}.

(** A charger whose latitude the API gave as [nan], and the frame of
    the two in exact arithmetic. *)
Definition nan_charger : Locator.Charger ideal :=
  {| Locator.name := "S02"; Locator.address := "110 Sejong-daero";
     Locator.latitude := None; Locator.longitude := Some 127%R;
     Locator.access := Locator.NO_INFO; Locator.operator := Locator.NO_INFO;
     Locator.connector_type := Locator.NO_INFO;
     Locator.status := Locator.NO_INFO |}.

Definition exact_world : world ideal (Locator.Charger ideal) :=
  {| heap := [Plain [nan_charger; exact_charger]];
     session := {| searched := false; results := None;
                   center_lat := None; center_lon := None;
                   radius := None |} |}.

(* ================================================================= *)
(** * Properties *)

(** ** Lists *)

Lemma combine_map_self (A B : Type) (f : A -> B) (l : list A) :
  combine l (map f l) = map (fun x => (x, f x)) l.
Proof.
  induction l as [|x l IH]; simpl; [reflexivity|].
  now rewrite IH.
Qed.

Lemma nth_error_app_new (A : Type) (l : list A) (x : A) :
  nth_error (l ++ [x]) (List.length l) = Some x.
Proof.
  rewrite nth_error_app2 by lia.
  now rewrite Nat.sub_diag.
Qed.

Lemma set_nth_last (A : Type) (l : list A) (x y : A) :
  set_nth (List.length l) y (l ++ [x]) = l ++ [y].
Proof.
  induction l as [|z l IH]; simpl; [reflexivity|].
  now rewrite IH.
Qed.

(** ** Running a search button *)

Section Run.
Context {F Row : Type} `{Pandas F}.

Lemma run_search_steps (w : world F Row) (df_raw : ref) (f : frame F Row)
    (dist : Row -> F) (mask : Row * F -> bool) (lat lon rad : F) :
  nth_error (heap w) df_raw = Some f ->
  (df <- DataFrame_copy df_raw ;;
   setitem_distance df (map dist) ;;;
   df <- getitem_mask df mask ;;
   df <- sort_values_distance df ;;
   session_update df lat lon rad) w
  = Returned tt (after_search w (stations f) dist mask lat lon rad).
Proof.
  intros Hf.
  unfold bind at 1. unfold DataFrame_copy, bind at 1, deref. rewrite Hf.
  unfold alloc. cbn [heap session].
  unfold bind at 1. unfold setitem_distance, bind at 1, deref.
  cbn [heap session]. rewrite nth_error_app_new.
  unfold assign. cbn [heap session]. rewrite nth_error_app_new.
  rewrite set_nth_last. cbn [stations].
  unfold bind at 1. unfold getitem_mask, bind at 1, with_distance, bind at 1,
    deref. cbn [heap session]. rewrite nth_error_app_new.
  unfold ret, alloc. cbn [heap session].
  unfold bind at 1. unfold sort_values_distance, bind at 1, with_distance,
    bind at 1, deref. cbn [heap session].
  rewrite combine_map_self.
  rewrite nth_error_app_new.
  unfold ret, alloc, session_update. cbn [heap session].
  unfold after_search.
  rewrite !length_app. cbn [List.length].
  replace (List.length (heap w) + 1 + 1) with (List.length (heap w) + 2) by lia.
  now rewrite <- !app_assoc.
Qed.

Lemma after_search_result (w : world F Row) (rows : list Row)
    (dist : Row -> F) (mask : Row * F -> bool) (lat lon rad : F) :
  result_rows (after_search w rows dist mask lat lon rad)
  = Some (sort_values snd (filter mask (map (fun r => (r, dist r)) rows))).
Proof.
  unfold result_rows, after_search. cbn [session results heap].
  rewrite nth_error_app2 by lia.
  replace (List.length (heap w) + 2 - List.length (heap w)) with 2 by lia.
  reflexivity.
Qed.

Lemma after_search_frame (w : world F Row) (rows : list Row)
    (dist : Row -> F) (mask : Row * F -> bool) (lat lon rad : F) (r : ref) :
  r < List.length (heap w) ->
  nth_error (heap (after_search w rows dist mask lat lon rad)) r
  = nth_error (heap w) r.
Proof.
  intros Hr. unfold after_search. cbn [heap].
  now apply nth_error_app1.
Qed.

End Run.

(** ** The result of a search, as a list *)

Section Query.
Context {F Row : Type} `{NumPy F} `{Pandas F}.
Context {order : NumPyOrder F} {pandas_spec : PandasSpec F}.
Variables (dist : Row -> F) (mask : Row * F -> bool) (rows : list Row).

Local Abbreviation searched_rows :=
  (sort_values snd (filter mask (map (fun r => (r, dist r)) rows))).

Lemma searched_rows_perm :
  Permutation searched_rows (filter mask (map (fun r => (r, dist r)) rows)).
Proof. apply sort_values_perm. Qed.

Lemma searched_rows_In (r : Row) (d : F) :
  In (r, d) searched_rows <->
  In r rows /\ d = dist r /\ mask (r, d) = true.
Proof.
  split.
  - intros Hin.
    apply (Permutation_in _ searched_rows_perm) in Hin.
    apply filter_In in Hin. destruct Hin as [Hin Hm].
    apply in_map_iff in Hin. destruct Hin as [r' [Heq Hr']].
    inversion Heq; subst. auto.
  - intros [Hin [Hd Hm]]. subst d.
    apply (Permutation_in _ (Permutation_sym searched_rows_perm)).
    apply filter_In. split; [|assumption].
    apply in_map_iff. now exists r.
Qed.

Lemma searched_rows_stations :
  Permutation (map fst searched_rows)
              (filter (fun r => mask (r, dist r)) rows).
Proof.
  eapply Permutation_trans.
  - apply Permutation_map, searched_rows_perm.
  - clear. induction rows as [|r l IH]; simpl; [constructor|].
    destruct (mask (r, dist r)); simpl; auto.
Qed.



End Query.

(** ** The stable sort meets the contract of [sort_values] *)

Section StableSortSpec.
Context {F : Type} `{NumPy F} {order : NumPyOrder F}.
Context {A : Type} (key : A -> F).

Let R (x y : A) : Prop := (key x <=? key y)%np = true.

Lemma insert_by_perm (x : A) (l : list A) :
  Permutation (insert_by key x l) (x :: l).
Proof.
  induction l as [|y l IH]; simpl; [reflexivity|].
  destruct (key x <=? key y)%np; [reflexivity|].
  rewrite IH. apply perm_swap.
Qed.

Lemma insertion_sort_perm (l : list A) :
  Permutation (insertion_sort key l) l.
Proof.
  induction l as [|x l IH]; simpl; [reflexivity|].
  rewrite insert_by_perm. now constructor.
Qed.

Lemma insert_by_HdRel (a x : A) (l : list A) :
  R a x -> HdRel R a l -> HdRel R a (insert_by key x l).
Proof.
  intros Hax Hal. destruct l as [|y l]; simpl.
  - now constructor.
  - destruct (key x <=? key y)%np; constructor; auto.
    now inversion Hal.
Qed.

Lemma insert_by_sorted (x : A) (l : list A) :
  isna (key x) = false ->
  Forall (fun y => isna (key y) = false) l ->
  Sorted R l -> Sorted R (insert_by key x l).
Proof.
  intros Hx Hl Hs. induction Hs as [|y l Hs IH Hd]; simpl.
  - repeat constructor.
  - inversion Hl as [|? ? Hy Hl']; subst.
    destruct (key x <=? key y)%np eqn:Hxy.
    + constructor; [now constructor|]. now constructor.
    + constructor; [now apply IH|].
      apply insert_by_HdRel; [|assumption].
      destruct (fleb_total (key x) (key y) Hx Hy) as [Hc|Hc];
        [congruence|exact Hc].
Qed.

Lemma insertion_sort_sorted (l : list A) :
  Forall (fun y => isna (key y) = false) l ->
  Sorted R (insertion_sort key l).
Proof.
  induction l as [|x l IH]; intros Hl; simpl; [constructor|].
  inversion Hl as [|? ? Hx Hl']; subst.
  apply insert_by_sorted; auto.
  eapply Permutation_Forall; [|exact Hl'].
  apply Permutation_sym, insertion_sort_perm.
Qed.

Lemma notna_na_perm (l : list A) :
  Permutation (notna_rows key l ++ na_rows key l) l.
Proof.
  unfold notna_rows, na_rows.
  induction l as [|x l IH]; simpl; [constructor|].
  destruct (isna (key x)); simpl.
  - apply Permutation_sym, Permutation_cons_app, Permutation_sym, IH.
  - now constructor.
Qed.

Lemma notna_rows_all (l : list A) :
  Forall (fun y => isna (key y) = false) l ->
  notna_rows key l = l /\ na_rows key l = [].
Proof.
  unfold notna_rows, na_rows.
  induction 1 as [|x l Hx Hl [IH1 IH2]]; simpl; [auto|].
  rewrite Hx. simpl. now rewrite IH1, IH2.
Qed.

Lemma stable_sort_values_perm (l : list A) :
  Permutation (stable_sort_values key l) l.
Proof.
  unfold stable_sort_values.
  rewrite insertion_sort_perm. apply notna_na_perm.
Qed.

Lemma stable_sort_values_sorted (l : list A) :
  Forall (fun y => isna (key y) = false) l ->
  Sorted R (stable_sort_values key l).
Proof.
  intros Hl. unfold stable_sort_values.
  destruct (notna_rows_all Hl) as [E1 E2]. rewrite E1, E2, app_nil_r.
  now apply insertion_sort_sorted.
Qed.

End StableSortSpec.

Lemma StableSort_spec {F : Type} `{NumPy F} {order : NumPyOrder F} :
  @PandasSpec F _ StableSort.
Proof.
  split; intros A key l.
  - apply stable_sort_values_perm.
  - apply stable_sort_values_sorted.
Qed.

(** ** The order of the exact reals with NaN *)

Lemma ideal_leb_true (a b : R) :
  ideal_leb (Some a) (Some b) = true <-> (a <= b)%R.
Proof.
  unfold ideal_leb. destruct (Rle_dec a b); split; intros; auto; try easy.
Qed.

Lemma Ideal_order : NumPyOrder ideal.
Proof.
  split.
  - intros [a|] Hx; [|discriminate].
    change (ideal_leb (Some a) (Some a) = true).
    apply ideal_leb_true. lra.
  - intros [a|] [b|] [c|] Hab Hbc; try discriminate.
    change (ideal_leb (Some a) (Some c) = true).
    change (ideal_leb (Some a) (Some b) = true) in Hab.
    change (ideal_leb (Some b) (Some c) = true) in Hbc.
    rewrite ideal_leb_true in *. lra.
  - intros [a|] [b|] Hx Hy; try discriminate.
    change (ideal_leb (Some a) (Some b) = true
            \/ ideal_leb (Some b) (Some a) = true).
    rewrite !ideal_leb_true. lra.
  - intros [a|] y Hx; [discriminate|reflexivity].
  - intros [a|] [b|] Hy; try discriminate; reflexivity.
  - intros [a|] Hx; [|discriminate].
    change (ideal_eqb (Some a) (Some a) = true). unfold ideal_eqb.
    destruct (Req_dec_T a a); [reflexivity|contradiction].
  - reflexivity.
Qed.

(** ** The order of IEEE binary64 *)

Lemma SFcompare_refl (s : spec_float) :
  s <> S754_nan -> SFcompare s s = Some Eq.
Proof.
  destruct s as [b| b | | b m e]; simpl; intros Hs; try congruence.
  - now destruct b.
  - destruct b; rewrite Z.compare_refl, Pos.compare_cont_refl; reflexivity.
Qed.

Lemma SFcompare_nan_refl (s : spec_float) :
  SFcompare s s <> Some Eq -> s = S754_nan.
Proof.
  intros Hs. destruct s as [b| b | | b m e]; try reflexivity;
    exfalso; apply Hs; apply SFcompare_refl; discriminate.
Qed.

Lemma SFcompare_antisym (x y : spec_float) :
  SFcompare y x = option_map CompOpp (SFcompare x y).
Proof.
  destruct x as [bx| bx | | bx mx ex], y as [b_y| b_y | | b_y my ey];
    simpl; try reflexivity;
    try (destruct bx; reflexivity);
    try (destruct b_y; reflexivity);
    try (destruct bx, b_y; reflexivity).
  destruct bx, b_y; simpl; try reflexivity.
  - rewrite (Z.compare_antisym ex ey).
    destruct (ex ?= ey)%Z; simpl; try reflexivity.
    now rewrite (Pos.compare_cont_antisym mx my Eq).
  - rewrite (Z.compare_antisym ex ey).
    destruct (ex ?= ey)%Z; simpl; try reflexivity.
    now rewrite (Pos.compare_cont_antisym mx my Eq).
Qed.

Lemma SFleb_trans (x y z : spec_float) :
  SFleb x y = true -> SFleb y z = true -> SFleb x z = true.
Proof.
  unfold SFleb, SFcompare.
  destruct x as [sx|sx| |sx mx ex], y as [sy|sy| |sy my ey],
           z as [sz|sz| |sz mz ez];
    try (destruct sx); try (destruct sy); try (destruct sz);
    simpl; try reflexivity; try discriminate; auto;
    repeat match goal with
           | |- context [PosDef.Pos.compare_cont Eq ?p ?q] =>
             change (PosDef.Pos.compare_cont Eq p q) with (Pos.compare p q)
           end;
    destruct (Z.compare_spec ex ey), (Z.compare_spec ey ez),
             (Z.compare_spec ex ez);
    simpl; try reflexivity; try discriminate; try lia; subst;
    destruct (Pos.compare_spec mx my), (Pos.compare_spec my mz),
             (Pos.compare_spec mx mz);
    simpl; try reflexivity; try discriminate; try lia.
Qed.

Lemma is_nan_false (x : float) :
  PrimFloat.is_nan x = false -> Prim2SF x <> S754_nan.
Proof.
  unfold PrimFloat.is_nan. rewrite eqb_spec. unfold SFeqb.
  intros Hx Hn. rewrite Hn in Hx. simpl in Hx. discriminate.
Qed.

Lemma is_nan_true (x : float) :
  PrimFloat.is_nan x = true -> Prim2SF x = S754_nan.
Proof.
  unfold PrimFloat.is_nan. rewrite eqb_spec. unfold SFeqb.
  intros Hx. apply SFcompare_nan_refl. intros Hc. rewrite Hc in Hx.
  discriminate.
Qed.

Lemma Float64_order (libm : Libm) : @NumPyOrder float (Float64 libm).
Proof.
  split; cbn [fleb feqb isna of_int Float64].
  - intros x Hx. rewrite leb_spec. unfold SFleb.
    now rewrite (SFcompare_refl (is_nan_false x Hx)).
  - intros x y z. rewrite !leb_spec. apply SFleb_trans.
  - intros x y Hx Hy. rewrite !leb_spec. unfold SFleb.
    rewrite (SFcompare_antisym (Prim2SF x) (Prim2SF y)).
    destruct (SFcompare (Prim2SF x) (Prim2SF y)) as [[| |]|] eqn:Hc;
      simpl; auto.
    exfalso.
    apply is_nan_false in Hx. apply is_nan_false in Hy.
    destruct (Prim2SF x), (Prim2SF y); simpl in Hc; congruence.
  - intros x y Hx. rewrite leb_spec. unfold SFleb.
    now rewrite (is_nan_true x Hx).
  - intros x y Hy. rewrite leb_spec. unfold SFleb.
    rewrite (is_nan_true y Hy). now destruct (Prim2SF x).
  - intros x Hx. rewrite eqb_spec. unfold SFeqb.
    now rewrite (SFcompare_refl (is_nan_false x Hx)).
  - reflexivity.
Qed.

Lemma StableSort64_spec : @PandasSpec float Float64_table StableSort64.
Proof. apply (@StableSort_spec float Float64_table), Float64_order. Qed.



(** ** Object columns *)

Lemma isin_true (v : cell) (values : list string) :
  isin v values = true <-> exists s, v = Some s /\ In s values.
Proof.
  destruct v as [s|]; simpl.
  - rewrite existsb_exists. split.
    + intros [x [Hx Heq]]. apply String.eqb_eq in Heq. subst x.
      now exists s.
    + intros [x [Heq Hx]]. inversion Heq; subst x.
      exists s. split; [assumption|apply String.eqb_refl].
  - split; [discriminate|]. intros [s [Heq _]]. discriminate.
Qed.

Lemma In_dropna (s : string) (col : list cell) :
  In s (dropna col) <-> In (Some s) col.
Proof.
  unfold dropna. rewrite in_flat_map. split.
  - intros [c [Hc Hs]]. destruct c as [s'|]; simpl in Hs; [|contradiction].
    destruct Hs as [Hs|[]]. now subst s'.
  - intros Hs. exists (Some s). split; [assumption|now left].
Qed.

Lemma In_unique (s : string) (l : list string) :
  In s (unique l) <-> In s l.
Proof.
  induction l as [|x l IH]; simpl; [tauto|].
  rewrite filter_In, IH.
  destruct (String.eqb_spec x s) as [Heq|Hne]; simpl.
  - subst. tauto.
  - split.
    + intros [Hx|[Hin _]]; auto.
    + intros [Hx|Hin]; auto.
Qed.

Lemma NoDup_unique (l : list string) : NoDup (unique l).
Proof.
  induction l as [|x l IH]; simpl; constructor.
  - rewrite filter_In. intros [_ Hx].
    rewrite String.eqb_refl in Hx. discriminate.
  - now apply NoDup_filter.
Qed.

Lemma existsb_eqb_In (x : string) (l : list string) :
  existsb (String.eqb x) l = true <-> In x l.
Proof.
  rewrite existsb_exists. split.
  - intros [y [Hy Heq]]. apply String.eqb_eq in Heq. now subst.
  - intros Hx. exists x. split; [assumption|apply String.eqb_refl].
Qed.

(** ** app.py: what a search returns *)

Section AppRun.
Context {F : Type} `{NumPy F} `{Pandas F}.

Lemma app_search_button_run (w : world F (App.Station F)) (df_raw : ref)
    (f : frame F (App.Station F)) (sel : App.Selections) (lat lon rad : F) :
  nth_error (heap w) df_raw = Some f ->
  App.search_button df_raw sel lat lon rad w
  = Returned tt (after_search w (stations f) (App.distance_to lat lon)
                              (App.mask sel rad) lat lon rad).
Proof. intros Hf. unfold App.search_button. now apply run_search_steps. Qed.

Lemma app_script_run (w : world F (App.Station F)) (df_raw : ref)
    (f : frame F (App.Station F)) (picked : App.Selections) (lat lon rad : F) :
  nth_error (heap w) df_raw = Some f ->
  App.script df_raw picked lat lon rad w
  = Returned tt (after_search w (stations f) (App.distance_to lat lon)
                   (App.mask (App.sidebar (stations f) picked) rad)
                   lat lon rad).
Proof.
  intros Hf. unfold App.script, bind at 1, deref. rewrite Hf.
  now apply app_search_button_run.
Qed.

Lemma app_script_result (w : world F (App.Station F)) (df_raw : ref)
    (f : frame F (App.Station F)) (picked : App.Selections) (lat lon rad : F) :
  nth_error (heap w) df_raw = Some f ->
  result_of (App.script df_raw picked lat lon rad w)
  = Some (App.query (stations f) (App.sidebar (stations f) picked)
                    lat lon rad).
Proof.
  intros Hf. erewrite app_script_run by exact Hf.
  unfold result_of. now rewrite after_search_result.
Qed.

Lemma categorical_mask_fields (sel : App.Selections) (r : @App.Station F) :
  App.categorical_mask sel r = true <->
  forall fld, isin (App.field_value fld r) (App.accepted fld sel) = true.
Proof.
  unfold App.categorical_mask. rewrite !andb_true_iff. split.
  - intros [[[[Ho Hp] Ha] Hc] Hs] []; assumption.
  - intros Hall. repeat split.
    + apply (Hall App.Operator).
    + apply (Hall App.Place).
    + apply (Hall App.Access).
    + apply (Hall App.Connector).
    + apply (Hall App.Speed).
Qed.

Lemma expand_select_all (picked : list string) (col : list cell) :
  In App.ALL picked -> App.expand picked col = unique (dropna col).
Proof.
  intros Hall. unfold App.expand.
  now rewrite (proj2 (existsb_eqb_In App.ALL picked) Hall).
Qed.

Lemma expand_no_select_all (picked : list string) (col : list cell) :
  ~ In App.ALL picked -> App.expand picked col = picked.
Proof.
  intros Hall. unfold App.expand.
  destruct (existsb (String.eqb App.ALL) picked) eqn:E; [|reflexivity].
  apply existsb_eqb_In in E. contradiction.
Qed.

(** The column of a field, and what the user picked for it. *)
Lemma accepted_sidebar (fld : App.field) (rows : list (App.Station F))
    (picked : App.Selections) :
  App.accepted fld (App.sidebar rows picked)
  = App.expand (App.accepted fld picked) (map (App.field_value fld) rows).
Proof. destruct fld; reflexivity. Qed.

End AppRun.

(** ** ev_charger_locator.py: what a search returns *)

Section LocatorRun.
Context {F : Type} `{NumPy F} `{Pandas F}.

Lemma locator_search_run (w : world F (Locator.Charger F)) (df : ref)
    (f : frame F (Locator.Charger F)) (lat lng rad : F) :
  nth_error (heap w) df = Some f ->
  Locator.search df lat lng rad w
  = Returned tt (after_search w (stations f) (Locator.distance_to lat lng)
                              (fun r => (snd r <=? rad)%np) lat lng rad).
Proof. intros Hf. unfold Locator.search. now apply run_search_steps. Qed.

Lemma locator_search_result (w : world F (Locator.Charger F)) (df : ref)
    (f : frame F (Locator.Charger F)) (lat lng rad : F) :
  nth_error (heap w) df = Some f ->
  result_of (Locator.search df lat lng rad w)
  = Some (Locator.query (stations f) lat lng rad).
Proof.
  intros Hf. erewrite locator_search_run by exact Hf.
  unfold result_of. now rewrite after_search_result.
Qed.

Lemma locator_search_button_located (df : ref)
    (loc : Locator.user_location F) (lat lng rad : F) :
  Locator.located loc = Some (lat, lng) ->
  Locator.search_button df loc rad = Locator.search df lat lng rad.
Proof.
  destruct loc as [[[a b]|]|a b]; simpl; intros Hloc;
    inversion Hloc; subst; reflexivity.
Qed.

Lemma locator_button_result (w : world F (Locator.Charger F)) (df : ref)
    (f : frame F (Locator.Charger F)) (loc : Locator.user_location F)
    (lat lng rad : F) :
  Locator.located loc = Some (lat, lng) ->
  nth_error (heap w) df = Some f ->
  result_of (Locator.search_button df loc rad w)
  = Some (Locator.query (stations f) lat lng rad).
Proof.
  intros Hloc Hf. rewrite (locator_search_button_located df loc rad Hloc).
  now apply locator_search_result.
Qed.

End LocatorRun.

(* ================================================================= *)
(** * The claims *)

Section QueryIn.
Context {F : Type} `{NumPy F} `{Pandas F} {pandas_spec : PandasSpec F}.

Lemma app_query_In (rows : list (App.Station F)) (sel : App.Selections)
    (lat lon rad : F) (r : App.Station F) (d : F) :
  In (r, d) (App.query rows sel lat lon rad) <->
  In r rows /\ d = App.distance_to lat lon r
  /\ App.categorical_mask sel r = true /\ (d <=? rad)%np = true.
Proof.
  unfold App.query.
  etransitivity; [apply (searched_rows_In (App.distance_to lat lon)
                           (App.mask sel rad) rows r d)|].
  unfold App.mask. simpl fst. simpl snd. rewrite andb_true_iff. tauto.
Qed.

Lemma locator_query_In (rows : list (Locator.Charger F))
    (lat lng rad : F) (r : Locator.Charger F) (d : F) :
  In (r, d) (Locator.query rows lat lng rad) <->
  In r rows /\ d = Locator.distance_to lat lng r /\ (d <=? rad)%np = true.
Proof.
  unfold Locator.query.
  etransitivity; [apply (searched_rows_In (Locator.distance_to lat lng)
                           (fun x => (snd x <=? rad)%np) rows r d)|].
  simpl. tauto.
Qed.

End QueryIn.

(** Names the result of a run whose repository object is given by [Hf]. *)
Ltac ran Hf :=
  eexists; split;
  [ first [ apply app_script_result; exact Hf
          | eapply locator_button_result; [eassumption | exact Hf] ]
  | ].

Section Claims.
Context {F : Type} {numpy : NumPy F} {pandas : Pandas F}.
Context {order : NumPyOrder F} {pandas_spec : PandasSpec F}.

(** ** C1: the distance column is the haversine formula *)

(** C1.  For every station record and reference point, both applications
    compute the distance by the haversine formula of the specification
    (radians of the four coordinates, [dlat] and [dlon], [a], then
    [2 * 6371 * asin (sqrt a)]), the record's latitude and longitude
    taking the places of [lat1] and [lon1]; and every distance in a search
    result is that value for its record. *)
Theorem distance_is_haversine :
  (forall (lat lon : F) (r : App.Station F),
      App.distance_to lat lon r
      = spec_haversine (App.latitude r) (App.longitude r) lat lon)
  /\ (forall (lat lng : F) (r : Locator.Charger F),
      Locator.distance_to lat lng r
      = spec_haversine (Locator.latitude r) (Locator.longitude r) lat lng)
  /\ (forall (w : world F (App.Station F)) df_raw f picked lat lon rad,
      nth_error (heap w) df_raw = Some f ->
      exists res,
        result_of (App.script df_raw picked lat lon rad w) = Some res
        /\ Forall (fun x => snd x = spec_haversine (App.latitude (fst x))
                                      (App.longitude (fst x)) lat lon) res)
  /\ (forall (w : world F (Locator.Charger F)) df f loc lat lng rad,
      Locator.located loc = Some (lat, lng) ->
      nth_error (heap w) df = Some f ->
      exists res,
        result_of (Locator.search_button df loc rad w) = Some res
        /\ Forall (fun x => snd x = spec_haversine (Locator.latitude (fst x))
                                      (Locator.longitude (fst x)) lat lng) res).
Proof.
  split; [reflexivity|]. split; [reflexivity|]. split.
  - intros w df_raw f picked lat lon rad Hf.
    ran Hf.
    apply Forall_forall. intros [r d] Hin.
    apply searched_rows_In in Hin. destruct Hin as [_ [Hd _]].
    simpl. now subst d.
  - intros w df f loc lat lng rad Hloc Hf.
    ran Hf.
    apply Forall_forall. intros [r d] Hin.
    apply searched_rows_In in Hin. destruct Hin as [_ [Hd _]].
    simpl. now subst d.
Qed.

(** ** C2: the order of the result *)



(** ** C3: the categorical filters of app.py *)

(** C3.  A record of the repository appears in the result of app.py's
    search iff, for each of the five constrained fields, its value is a
    member of the accepted list (and its distance is within the radius);
    where the user picked "전체" the accepted list is the list of distinct
    non-null values of the column; no accepted list holds null, so a
    record with a null value in a constrained field is excluded. *)
Theorem categorical_filter_membership :
  forall (w : world F (App.Station F)) df_raw f picked lat lon rad,
    nth_error (heap w) df_raw = Some f ->
    exists res,
      result_of (App.script df_raw picked lat lon rad w) = Some res
      /\ (forall r d,
           In (r, d) res <->
           In r (stations f)
           /\ d = App.distance_to lat lon r
           /\ (forall fld, exists s,
                  App.field_value fld r = Some s
                  /\ In s (App.accepted fld
                             (App.sidebar (stations f) picked)))
           /\ (d <=? rad)%np = true)
      /\ (forall r,
           In r (stations f) ->
           (App.distance_to lat lon r <=? rad)%np = true ->
           (In (r, App.distance_to lat lon r) res <->
            forall fld, exists s,
                App.field_value fld r = Some s
                /\ In s (App.accepted fld
                           (App.sidebar (stations f) picked))))
      /\ (forall fld,
           In App.ALL (App.accepted fld picked) ->
           NoDup (App.accepted fld (App.sidebar (stations f) picked))
           /\ forall s,
               In s (App.accepted fld (App.sidebar (stations f) picked))
               <-> exists r, In r (stations f)
                             /\ App.field_value fld r = Some s)
      /\ (forall fld,
           ~ In App.ALL (App.accepted fld picked) ->
           App.accepted fld (App.sidebar (stations f) picked)
           = App.accepted fld picked)
      /\ (forall fld r d, In (r, d) res -> App.field_value fld r <> None).
Proof.
  intros w df_raw f picked lat lon rad Hf.
  assert (Hmem : forall r d,
    In (r, d) (App.query (stations f) (App.sidebar (stations f) picked)
                         lat lon rad) <->
    In r (stations f) /\ d = App.distance_to lat lon r
    /\ (forall fld, exists s,
           App.field_value fld r = Some s
           /\ In s (App.accepted fld (App.sidebar (stations f) picked)))
    /\ (d <=? rad)%np = true).
  { intros r d. rewrite app_query_In, categorical_mask_fields.
    split.
    - intros [Hin [Hd [Hc Hr]]]. repeat split; auto.
      intros fld. apply isin_true, Hc.
    - intros [Hin [Hd [Hc Hr]]]. repeat split; auto.
      intros fld. apply isin_true, Hc. }
  ran Hf. split; [exact Hmem|]. split; [|split; [|split]].
  - intros r Hin Hd. rewrite Hmem. tauto.
  - intros fld Hall. rewrite accepted_sidebar.
    rewrite (expand_select_all _ _ Hall). split; [apply NoDup_unique|].
    intros s. rewrite In_unique, In_dropna, in_map_iff.
    split; intros [r [H1 H2]]; exists r; tauto.
  - intros fld Hall. rewrite accepted_sidebar.
    now apply expand_no_select_all.
  - intros fld r d Hin. apply Hmem in Hin.
    destruct Hin as [_ [_ [Hc _]]]. destruct (Hc fld) as [s [Hs _]].
    congruence.
Qed.

(** ** C7: the radius filter *)

(** C7.  The radius filter keeps exactly the records whose computed
    distance is less than or equal to [radius_km]: among the records that
    pass the categorical tests (all records, in the API-backed
    application) a record is in the result iff its distance is [<=] the
    radius, and a record at distance exactly the radius is in it. *)
Theorem radius_filter_inclusive :
  (forall (w : world F (App.Station F)) df_raw f picked lat lon rad,
      nth_error (heap w) df_raw = Some f ->
      exists res,
        result_of (App.script df_raw picked lat lon rad w) = Some res
        /\ (forall r d, In (r, d) res -> (d <=? rad)%np = true)
        /\ (forall r,
             In r (stations f) ->
             App.categorical_mask (App.sidebar (stations f) picked) r = true ->
             (In (r, App.distance_to lat lon r) res
              <-> (App.distance_to lat lon r <=? rad)%np = true))
        /\ (forall r,
             In r (stations f) ->
             App.categorical_mask (App.sidebar (stations f) picked) r = true ->
             isna rad = false ->
             App.distance_to lat lon r = rad ->
             In (r, rad) res))
  /\ (forall (w : world F (Locator.Charger F)) df f loc lat lng rad,
      Locator.located loc = Some (lat, lng) ->
      nth_error (heap w) df = Some f ->
      exists res,
        result_of (Locator.search_button df loc rad w) = Some res
        /\ (forall r d, In (r, d) res -> (d <=? rad)%np = true)
        /\ (forall r,
             In r (stations f) ->
             (In (r, Locator.distance_to lat lng r) res
              <-> (Locator.distance_to lat lng r <=? rad)%np = true))
        /\ (forall r,
             In r (stations f) ->
             isna rad = false ->
             Locator.distance_to lat lng r = rad ->
             In (r, rad) res)).
Proof.
  split.
  - intros w df_raw f picked lat lon rad Hf. ran Hf.
    assert (Hiff : forall r, In r (stations f) ->
      App.categorical_mask (App.sidebar (stations f) picked) r = true ->
      (In (r, App.distance_to lat lon r)
          (App.query (stations f) (App.sidebar (stations f) picked)
                     lat lon rad)
       <-> (App.distance_to lat lon r <=? rad)%np = true)).
    { intros r Hin Hc. rewrite app_query_In. tauto. }
    split; [|split].
    + intros r d Hin. apply app_query_In in Hin. tauto.
    + exact Hiff.
    + intros r Hin Hc Hna Hd. rewrite <- Hd at 1. apply Hiff; auto.
      rewrite Hd. now apply fleb_refl.
  - intros w df f loc lat lng rad Hloc Hf. ran Hf.
    assert (Hiff : forall r, In r (stations f) ->
      (In (r, Locator.distance_to lat lng r)
          (Locator.query (stations f) lat lng rad)
       <-> (Locator.distance_to lat lng r <=? rad)%np = true)).
    { intros r Hin. rewrite locator_query_In. tauto. }
    split; [|split].
    + intros r d Hin. apply locator_query_In in Hin. tauto.
    + exact Hiff.
    + intros r Hin Hna Hd. rewrite <- Hd at 1. apply Hiff; auto.
      rewrite Hd. now apply fleb_refl.
Qed.

(** ** C9: stations in the result *)

Lemma NoDup_map_filter (A B : Type) (key : A -> B) (p : A -> bool)
    (l : list A) :
  NoDup (map key l) -> NoDup (map key (filter p l)).
Proof.
  induction l as [|x l IH]; simpl; intros Hnd; [constructor|].
  inversion Hnd as [|? ? Hx Hl]; subst.
  destruct (p x); simpl; [|now apply IH].
  constructor; [|now apply IH].
  intros Hin. apply Hx. apply in_map_iff in Hin.
  destruct Hin as [y [Hy Hin]]. apply filter_In in Hin.
  apply in_map_iff. exists y. tauto.
Qed.

Lemma app_query_stations (rows : list (App.Station F))
    (sel : App.Selections) (lat lon rad : F) :
  Permutation
    (map fst (App.query rows sel lat lon rad))
    (filter (fun r => App.mask sel rad (r, App.distance_to lat lon r)) rows).
Proof.
  apply (searched_rows_stations (App.distance_to lat lon)
                                (App.mask sel rad) rows).
Qed.

Lemma locator_query_stations (rows : list (Locator.Charger F))
    (lat lng rad : F) :
  Permutation
    (map fst (Locator.query rows lat lng rad))
    (filter (fun r => (Locator.distance_to lat lng r <=? rad)%np) rows).
Proof.
  apply (searched_rows_stations (Locator.distance_to lat lng)
                                (fun x => (snd x <=? rad)%np) rows).
Qed.

(** C9 (amended).  A search removes no duplicates: the stations of the
    result are the repository rows that pass the mask, each as many
    times as the repository holds it.  So a name and address pair occurs
    at most once in the result when it occurs at most once in the
    repository. *)
Theorem result_stations_follow_repository :
  (forall (w : world F (App.Station F)) df_raw f picked lat lon rad,
      nth_error (heap w) df_raw = Some f ->
      exists res,
        result_of (App.script df_raw picked lat lon rad w) = Some res
        /\ Permutation (map fst res)
             (filter (fun r => App.mask (App.sidebar (stations f) picked) rad
                                        (r, App.distance_to lat lon r))
                     (stations f))
        /\ (NoDup (map App.station_key (stations f)) ->
            NoDup (map App.station_key (map fst res))))
  /\ (forall (w : world F (Locator.Charger F)) df f loc lat lng rad,
      Locator.located loc = Some (lat, lng) ->
      nth_error (heap w) df = Some f ->
      exists res,
        result_of (Locator.search_button df loc rad w) = Some res
        /\ Permutation (map fst res)
             (filter (fun r => (Locator.distance_to lat lng r <=? rad)%np)
                     (stations f))
        /\ (NoDup (map Locator.station_key (stations f)) ->
            NoDup (map Locator.station_key (map fst res)))).
Proof.
  split.
  - intros w df_raw f picked lat lon rad Hf. ran Hf.
    split; [apply app_query_stations|].
    intros Hnd.
    eapply Permutation_NoDup.
    + apply Permutation_sym, Permutation_map, app_query_stations.
    + now apply NoDup_map_filter.
  - intros w df f loc lat lng rad Hloc Hf. ran Hf.
    split; [apply locator_query_stations|].
    intros Hnd.
    eapply Permutation_NoDup.
    + apply Permutation_sym, Permutation_map, locator_query_stations.
    + now apply NoDup_map_filter.
Qed.

(** ** C10: the API-backed search filters by radius only *)

(** C10.  In the API-backed application every repository record whose
    computed distance is [<=] the radius is in the result, whatever its
    operator, connector type, availability and status: two records at
    the same coordinates are both in the result or both out of it. *)
Theorem locator_filters_by_radius_only :
  forall (w : world F (Locator.Charger F)) df f loc lat lng rad,
    Locator.located loc = Some (lat, lng) ->
    nth_error (heap w) df = Some f ->
    exists res,
      result_of (Locator.search_button df loc rad w) = Some res
      /\ (forall r,
           In r (stations f) ->
           (Locator.distance_to lat lng r <=? rad)%np = true ->
           In (r, Locator.distance_to lat lng r) res)
      /\ (forall r r',
           In r (stations f) -> In r' (stations f) ->
           Locator.latitude r = Locator.latitude r' ->
           Locator.longitude r = Locator.longitude r' ->
           forall d, In (r, d) res <-> In (r', d) res).
Proof.
  intros w df f loc lat lng rad Hloc Hf. ran Hf. split.
  - intros r Hin Hd. apply locator_query_In. auto.
  - intros r r' Hr Hr' Hlat Hlon d.
    rewrite !locator_query_In. unfold Locator.distance_to.
    rewrite Hlat, Hlon. tauto.
Qed.

(** ** The search block checks nothing *)

Lemma sort_values_nil (A : Type) (key : A -> F) : sort_values key [] = [].
Proof. apply Permutation_nil, Permutation_sym, sort_values_perm. Qed.

Lemma filter_none (A : Type) (p : A -> bool) (l : list A) :
  (forall x, p x = false) -> filter p l = [].
Proof.
  intros Hp. induction l as [|x l IH]; simpl; [reflexivity|].
  now rewrite Hp.
Qed.

(** The block of the search button, in either file (app.py:107-125,
    ev_charger_locator.py:195-229), has no check of its parameters and
    no failing branch: with the repository frame in place it runs to
    its end for every reference point and radius and whatever the rows
    hold, and no run of it raises [InvalidParameter].  This is the
    block alone; what the page draws after it is [AppPage.column2] and
    [LocatorPage.column2]. *)
Theorem search_accepts_every_parameter :
  (forall (w : world F (App.Station F)) df_raw f picked lat lon rad,
      nth_error (heap w) df_raw = Some f ->
      exists w', App.script df_raw picked lat lon rad w = Returned tt w')
  /\ (forall (w : world F (App.Station F)) df_raw picked lat lon rad,
      App.script df_raw picked lat lon rad w <> Raised InvalidParameter)
  /\ (forall (w : world F (Locator.Charger F)) df f loc rad,
      nth_error (heap w) df = Some f ->
      exists w', Locator.search_button df loc rad w = Returned tt w')
  /\ (forall (w : world F (Locator.Charger F)) df loc rad,
      Locator.search_button df loc rad w <> Raised InvalidParameter).
Proof.
  split; [|split; [|split]].
  - intros w df_raw f picked lat lon rad Hf. eexists.
    apply app_script_run; exact Hf.
  - intros w df_raw picked lat lon rad.
    destruct (nth_error (heap w) df_raw) as [f|] eqn:Hf.
    + erewrite app_script_run by exact Hf. discriminate.
    + unfold App.script, bind at 1, deref. rewrite Hf. discriminate.
  - intros w df f [[[lat lng]|]|lat lng] rad Hf; simpl.
    + eexists. apply locator_search_run; exact Hf.
    + eexists. reflexivity.
    + eexists. apply locator_search_run; exact Hf.
  - intros w df loc rad.
    assert (Hs : forall lat lng,
               Locator.search df lat lng rad w <> Raised InvalidParameter).
    { intros lat lng.
      destruct (nth_error (heap w) df) as [f|] eqn:Hf.
      - erewrite locator_search_run by exact Hf. discriminate.
      - unfold Locator.search, bind at 1, DataFrame_copy, bind at 1, deref.
        rewrite Hf. discriminate. }
    destruct loc as [[[lat lng]|]|lat lng]; simpl; auto. discriminate.
Qed.

(** ** C8: a search is a function of the repository and the parameters *)

(** C8.  A search never mutates the repository: every object that
    existed before the run, the repository frame among them, is
    unchanged after it, and the distances live in a new annotated copy.
    The result is a function of the repository's rows and the
    parameters ([App.query], [Locator.query]), so the same parameters
    applied a second time yield the same result. *)
Theorem search_is_pure :
  (forall (w : world F (App.Station F)) df_raw f picked lat lon rad,
      nth_error (heap w) df_raw = Some f ->
      exists w',
        App.script df_raw picked lat lon rad w = Returned tt w'
        /\ (forall r, r < List.length (heap w) ->
                      nth_error (heap w') r = nth_error (heap w) r)
        /\ nth_error (heap w') df_raw = Some f
        /\ nth_error (heap w') (List.length (heap w))
           = Some (WithDist (map (fun r => (r, App.distance_to lat lon r))
                                 (stations f)))
        /\ result_rows w'
           = Some (App.query (stations f) (App.sidebar (stations f) picked)
                             lat lon rad)
        /\ exists w'',
            App.script df_raw picked lat lon rad w' = Returned tt w''
            /\ result_rows w'' = result_rows w'
            /\ nth_error (heap w'') df_raw = Some f)
  /\ (forall (w : world F (Locator.Charger F)) df f loc lat lng rad,
      Locator.located loc = Some (lat, lng) ->
      nth_error (heap w) df = Some f ->
      exists w',
        Locator.search_button df loc rad w = Returned tt w'
        /\ (forall r, r < List.length (heap w) ->
                      nth_error (heap w') r = nth_error (heap w) r)
        /\ nth_error (heap w') df = Some f
        /\ nth_error (heap w') (List.length (heap w))
           = Some (WithDist (map (fun r => (r, Locator.distance_to lat lng r))
                                 (stations f)))
        /\ result_rows w' = Some (Locator.query (stations f) lat lng rad)
        /\ exists w'',
            Locator.search_button df loc rad w' = Returned tt w''
            /\ result_rows w'' = result_rows w'
            /\ nth_error (heap w'') df = Some f).
Proof.
  assert (Hframe : forall (Row : Type) (w : world F Row) rows dist mask
                          lat lon rad r g,
             nth_error (heap w) r = Some g ->
             nth_error (heap (after_search w rows dist mask lat lon rad)) r
             = Some g).
  { intros Row w rows dist mask lat lon rad r g Hr.
    rewrite after_search_frame; [assumption|].
    apply nth_error_Some. congruence. }
  assert (Hcopy : forall (Row : Type) (w : world F Row) rows dist mask
                         lat lon rad,
             nth_error (heap (after_search w rows dist mask lat lon rad))
                       (List.length (heap w))
             = Some (WithDist (map (fun r => (r, dist r)) rows))).
  { intros. unfold after_search. cbn [heap].
    rewrite nth_error_app2 by lia. now rewrite Nat.sub_diag. }
  split.
  - intros w df_raw f picked lat lon rad Hf.
    eexists. split; [apply app_script_run; exact Hf|].
    split; [intros r Hr; apply after_search_frame; exact Hr|].
    split; [apply Hframe; exact Hf|].
    split; [apply Hcopy|].
    split; [apply after_search_result|].
    eexists. split; [apply app_script_run; apply Hframe; exact Hf|].
    split; [now rewrite !after_search_result|].
    apply Hframe. apply Hframe. exact Hf.
  - intros w df f loc lat lng rad Hloc Hf.
    rewrite (locator_search_button_located df loc rad Hloc).
    eexists. split; [apply locator_search_run; exact Hf|].
    split; [intros r Hr; apply after_search_frame; exact Hr|].
    split; [apply Hframe; exact Hf|].
    split; [apply Hcopy|].
    split; [apply after_search_result|].
    eexists. split; [apply locator_search_run; apply Hframe; exact Hf|].
    split; [now rewrite !after_search_result|].
    apply Hframe. apply Hframe. exact Hf.
Qed.

(** ** A larger radius loses no station *)

(** For a fixed reference point and fixed selections, every row of the
    result for a radius is in the result for any larger radius. *)
Lemma larger_radius_keeps_stations :
  (forall (rows : list (App.Station F)) sel lat lon rad rad' r d,
      (rad <=? rad')%np = true ->
      In (r, d) (App.query rows sel lat lon rad) ->
      In (r, d) (App.query rows sel lat lon rad'))
  /\ (forall (rows : list (Locator.Charger F)) lat lng rad rad' r d,
      (rad <=? rad')%np = true ->
      In (r, d) (Locator.query rows lat lng rad) ->
      In (r, d) (Locator.query rows lat lng rad')).
Proof.
  split.
  - intros rows sel lat lon rad rad' r d Hrad.
    rewrite !app_query_In. intros [Hin [Hd [Hc Hle]]].
    repeat split; auto. now apply fleb_trans with (y := rad).
  - intros rows lat lng rad rad' r d Hrad.
    rewrite !locator_query_In. intros [Hin [Hd Hle]].
    repeat split; auto. now apply fleb_trans with (y := rad).
Qed.

End Claims.

(** ** C6: ingestion *)

Section Ingestion.
Context {F : Type} {numpy : NumPy F} {order : NumPyOrder F}.

Lemma coordinate_no_text (py_float : string -> option F)
    (t : option string) :
  Locator.no_text t -> Locator.coordinate py_float t = Some (of_int 0).
Proof. intros [Ht|Ht]; subst; reflexivity. Qed.




End Ingestion.

(** C6 (a defect of the code).  A record without a valid longitude
    enters the repository.  The API path puts [0.0] for a missing
    coordinate and drops a record only when latitude and longitude are
    both zero, so of an item without coordinates and an item with a
    latitude only, the first is dropped and the second is kept, at
    longitude [0.0]; the comments of the source call such a zero an
    invalid coordinate that is filtered out. *)
Theorem record_without_longitude_enters :
  @Locator.fetch_ev_data_from_api float Float64_table float_of_text
     (Locator.Document "00"
        (Some [item_without_position; item_without_longitude]))
  = [ {| Locator.name := "S04";
         Locator.address := EmptyString;
         Locator.latitude := DEFAULT_LAT;
         Locator.longitude := 0%float;
         Locator.access := Locator.NO_INFO;
         Locator.operator := Locator.NO_INFO;
         Locator.connector_type := Locator.NO_INFO;
         Locator.status := Locator.NO_INFO |} ].
Proof. vm_compute. reflexivity. Qed.

(** ** C4: the argument of [sqrt] *)

Section ExactHaversine.
Local Open Scope R_scope.

Lemma ideal_half (x : R) :
  ideal_div (Some x) (Some (IZR 2)) = Some (x / 2).
Proof.
  unfold ideal_div. destruct (Req_dec_T 2 0) as [E|E]; [lra|reflexivity].
Qed.

Lemma ideal_haversine_a (lon1 lat1 lon2 lat2 : R) :
  haversine_a (Some lon1) (Some lat1) (Some lon2) (Some lat2)
  = Some (real_a lon1 lat1 lon2 lat2).
Proof.
  unfold haversine_a. cbn [np_radians np_sin np_cos fsub fadd fmul fdiv
                            fpow of_int Ideal lift1 lift2 option_map].
  rewrite !ideal_half. reflexivity.
Qed.

(** [sin^2 ((y - x) / 2) + cos x cos y = cos^2 ((x + y) / 2)]. *)
Lemma half_angle_sum (x y : R) :
  sin ((y - x) / 2) ^ 2 + cos x * cos y = cos ((x + y) / 2) ^ 2.
Proof.
  replace ((y - x) / 2) with (y / 2 - x / 2) by lra.
  replace ((x + y) / 2) with (x / 2 + y / 2) by lra.
  replace (cos x) with (cos (2 * (x / 2))) by (f_equal; lra).
  replace (cos y) with (cos (2 * (y / 2))) by (f_equal; lra).
  rewrite sin_minus, cos_plus, !cos_2a. ring.
Qed.

Lemma sin_sq_bounds (x : R) : 0 <= sin x ^ 2 <= 1.
Proof.
  pose proof (sin2_cos2 x) as Hs. unfold Rsqr in Hs.
  pose proof (pow2_ge_0 (sin x)). pose proof (pow2_ge_0 (cos x)).
  nra.
Qed.

Lemma cos_sq_bounds (x : R) : 0 <= cos x ^ 2 <= 1.
Proof.
  pose proof (sin2_cos2 x) as Hs. unfold Rsqr in Hs.
  pose proof (pow2_ge_0 (sin x)). pose proof (pow2_ge_0 (cos x)).
  nra.
Qed.

Lemma real_a_bounds (lon1 lat1 lon2 lat2 : R) :
  0 <= real_a lon1 lat1 lon2 lat2 <= 1.
Proof.
  unfold real_a.
  set (phi1 := lat1 * (PI / 180)). set (phi2 := lat2 * (PI / 180)).
  set (w := (lon2 * (PI / 180) - lon1 * (PI / 180)) / 2).
  pose proof (half_angle_sum phi1 phi2) as Hsum.
  pose proof (sin_sq_bounds ((phi2 - phi1) / 2)) as HA.
  pose proof (cos_sq_bounds ((phi1 + phi2) / 2)) as HB.
  pose proof (sin_sq_bounds w) as Ht.
  set (A := sin ((phi2 - phi1) / 2) ^ 2) in *.
  set (B := cos ((phi1 + phi2) / 2) ^ 2) in *.
  set (t := sin w ^ 2) in *.
  set (c := cos phi1 * cos phi2) in *.
  assert (Hc : c = B - A) by lra.
  rewrite Hc. nra.
Qed.

Lemma asin_nonneg (s : R) : 0 <= s <= 1 -> 0 <= asin s.
Proof.
  intros Hs. destruct (Rle_dec 0 (asin s)) as [Hle|Hlt]; [assumption|].
  exfalso. apply Rnot_le_lt in Hlt.
  pose proof (asin_bound s) as Hb. pose proof PI_RGT_0 as Hpi.
  assert (Hneg : sin (asin s) < 0) by (apply sin_lt_0_var; lra).
  rewrite sin_asin in Hneg by lra. lra.
Qed.

Lemma ideal_haversine_np (lon1 lat1 lon2 lat2 : R) :
  haversine_np (Some lon1) (Some lat1) (Some lon2) (Some lat2)
  = Some (IZR (2 * 6371)
          * asin (R_sqrt.sqrt (real_a lon1 lat1 lon2 lat2))).
Proof.
  unfold haversine_np. rewrite ideal_haversine_a.
  pose proof (real_a_bounds lon1 lat1 lon2 lat2) as [H0 H1].
  cbn [np_sqrt np_arcsin fmul of_int Ideal].
  unfold ideal_sqrt. destruct (Rle_dec 0 (real_a lon1 lat1 lon2 lat2));
    [|contradiction].
  assert (Hs0 : 0 <= R_sqrt.sqrt (real_a lon1 lat1 lon2 lat2))
    by apply sqrt_pos.
  assert (Hs1 : R_sqrt.sqrt (real_a lon1 lat1 lon2 lat2) <= 1).
  { rewrite <- sqrt_1. now apply sqrt_le_1_alt. }
  unfold ideal_arcsin.
  destruct (Rle_dec (-1) (R_sqrt.sqrt (real_a lon1 lat1 lon2 lat2)));
    [|lra].
  destruct (Rle_dec (R_sqrt.sqrt (real_a lon1 lat1 lon2 lat2)) 1);
    [|contradiction].
  reflexivity.
Qed.

(** The distance from a point to itself is zero, and the distance does
    not depend on which point is the reference. *)
Lemma ideal_haversine_self (lon lat : R) :
  haversine_np (Some lon) (Some lat) (Some lon) (Some lat) = Some 0.
Proof.
  rewrite ideal_haversine_np.
  assert (Ha : real_a lon lat lon lat = 0).
  { unfold real_a.
    replace ((lat * (PI / 180) - lat * (PI / 180)) / 2) with 0 by lra.
    replace ((lon * (PI / 180) - lon * (PI / 180)) / 2) with 0 by lra.
    rewrite sin_0. ring. }
  rewrite Ha, sqrt_0, asin_0. f_equal. ring.
Qed.

Lemma real_a_sym (lon1 lat1 lon2 lat2 : R) :
  real_a lon1 lat1 lon2 lat2 = real_a lon2 lat2 lon1 lat1.
Proof.
  unfold real_a.
  replace ((lat1 * (PI / 180) - lat2 * (PI / 180)) / 2)
    with (- ((lat2 * (PI / 180) - lat1 * (PI / 180)) / 2)) by lra.
  replace ((lon1 * (PI / 180) - lon2 * (PI / 180)) / 2)
    with (- ((lon2 * (PI / 180) - lon1 * (PI / 180)) / 2)) by lra.
  rewrite !sin_neg. ring.
Qed.

Lemma ideal_haversine_sym (lon1 lat1 lon2 lat2 : R) :
  haversine_np (Some lon1) (Some lat1) (Some lon2) (Some lat2)
  = haversine_np (Some lon2) (Some lat2) (Some lon1) (Some lat1).
Proof. now rewrite !ideal_haversine_np, real_a_sym. Qed.

Lemma ideal_clip01 (a : R) :
  0 <= a <= 1 -> clip01 (Some a) = Some a.
Proof.
  intros Ha. unfold clip01. cbn [fltb of_int Ideal]. unfold ideal_ltb.
  destruct (Rlt_dec a 0); [lra|]. destruct (Rlt_dec 1 a); [lra|reflexivity].
Qed.

End ExactHaversine.

(** C4 (amended).  In exact real arithmetic the value [a] handed to
    [sqrt] lies in [0, 1] for all coordinates, so that the clamp the
    function does not have would change nothing there: the function
    returns a real distance between [0] and [6371 * PI] km, never NaN,
    and it is the distance the clamped formula gives. *)
Theorem exact_haversine_needs_no_clamp :
  forall lon1 lat1 lon2 lat2 : R,
    exists a d : R,
      haversine_a (Some lon1) (Some lat1) (Some lon2) (Some lat2) = Some a
      /\ (0 <= a <= 1)%R
      /\ haversine_np (Some lon1) (Some lat1) (Some lon2) (Some lat2)
         = Some d
      /\ (0 <= d <= 6371 * PI)%R
      /\ spec_haversine_clamped (Some lat1) (Some lon1)
                                (Some lat2) (Some lon2) = Some d.
Proof.
  intros lon1 lat1 lon2 lat2.
  exists (real_a lon1 lat1 lon2 lat2).
  eexists. split; [apply ideal_haversine_a|].
  pose proof (real_a_bounds lon1 lat1 lon2 lat2) as Ha.
  split; [exact Ha|]. split; [apply ideal_haversine_np|].
  split;
    [|unfold spec_haversine_clamped;
      rewrite ideal_haversine_a, (ideal_clip01 Ha), <- ideal_haversine_a;
      apply ideal_haversine_np].
  assert (Hs : (0 <= R_sqrt.sqrt (real_a lon1 lat1 lon2 lat2) <= 1)%R).
  { split; [apply sqrt_pos|].
    rewrite <- sqrt_1. apply sqrt_le_1_alt. tauto. }
  pose proof (asin_nonneg Hs) as H0.
  pose proof (asin_bound (R_sqrt.sqrt (real_a lon1 lat1 lon2 lat2))) as Hb.
  replace (IZR (2 * 6371)) with 12742%R by (simpl; lra).
  nra.
Qed.

(* ================================================================= *)
(** * Further properties of the searches *)

(** ** The sidebar *)

Section Sidebar.
Context {F : Type} {numpy : NumPy F} {pandas : Pandas F}.
Context {pandas_spec : PandasSpec F}.

(** With "전체" in every multiselect the sidebar imposes one condition
    only: the search returns the stations within the radius none of
    whose five filtered columns is empty, and silently leaves out a
    station with an empty cell in any of them, however near. *)
Theorem select_all_keeps_labelled_stations :
  forall (rows : list (App.Station F)) (picked : App.Selections)
         (lat lon radius_km : F) (r : App.Station F) (d : F),
    (forall fld, In App.ALL (App.accepted fld picked)) ->
    (In (r, d) (App.query rows (App.sidebar rows picked) lat lon radius_km)
     <-> In r rows /\ d = App.distance_to lat lon r
         /\ (forall fld, App.field_value fld r <> None)
         /\ (d <=? radius_km)%np = true).
Proof.
  intros rows picked lat lon rad r d Hall.
  rewrite app_query_In, categorical_mask_fields.
  split.
  - intros (Hin & Hd & Hm & Hr). repeat split; try assumption.
    intros fld Hnone. specialize (Hm fld). rewrite Hnone in Hm. discriminate.
  - intros (Hin & Hd & Hm & Hr). repeat split; try assumption.
    intros fld. rewrite accepted_sidebar, expand_select_all by apply Hall.
    apply isin_true. specialize (Hm fld).
    destruct (App.field_value fld r) as [s|] eqn:E; [|contradiction].
    exists s. split; [reflexivity|].
    apply In_unique, In_dropna. rewrite <- E. now apply in_map.
Qed.

(** A multiselect left empty, without "전체", accepts nothing: the
    search returns no station at all. *)
Theorem empty_selection_returns_nothing :
  forall (rows : list (App.Station F)) (picked : App.Selections)
         (lat lon radius_km : F) (fld : App.field),
    App.accepted fld picked = [] ->
    App.query rows (App.sidebar rows picked) lat lon radius_km = [].
Proof.
  intros rows picked lat lon rad fld Hfld.
  unfold App.query. rewrite filter_none; [apply sort_values_nil|].
  intros [r d]. unfold App.mask. simpl fst.
  destruct (App.categorical_mask (App.sidebar rows picked) r) eqn:E;
    [|reflexivity].
  exfalso. rewrite categorical_mask_fields in E. specialize (E fld).
  rewrite accepted_sidebar, Hfld in E. unfold App.expand in E. simpl in E.
  destruct (App.field_value fld r); discriminate.
Qed.

End Sidebar.

(** ** The API's items *)

Section Items.
Context {F : Type} {numpy : NumPy F}.
Variable py_float : string -> option F.

Lemma parse_items_app (l1 l2 : list Locator.Item) :
  Locator.parse_items py_float (l1 ++ l2)
  = Locator.parse_items py_float l1 ++ Locator.parse_items py_float l2.
Proof. unfold Locator.parse_items. apply flat_map_app. Qed.

(** An item one of whose coordinates [float] cannot read is skipped,
    and the items before and after it are loaded as if it were not
    there. *)
Theorem unreadable_item_is_skipped :
  forall (before after : list Locator.Item) (it : Locator.Item),
    Locator.coordinate py_float (Locator.lat it) = None
    \/ Locator.coordinate py_float (Locator.longi it) = None ->
    Locator.fetch_ev_data_from_api py_float
      (Locator.Document "00" (Some (before ++ it :: after)))
    = Locator.fetch_ev_data_from_api py_float
        (Locator.Document "00" (Some (before ++ after))).
Proof.
  intros before after it Hbad. simpl.
  rewrite !parse_items_app. f_equal. f_equal.
  change (it :: after) with ([it] ++ after). rewrite parse_items_app.
  assert (Hit : Locator.parse_items py_float [it] = []).
  { unfold Locator.parse_items, Locator.parse_item. simpl.
    destruct Hbad as [Hb|Hb]; rewrite Hb; [reflexivity|].
    now destruct (Locator.coordinate py_float (Locator.lat it)). }
  now rewrite Hit.
Qed.

(** An item with one coordinate missing and the other one read as a
    number other than zero is kept, with [0.0] for the missing
    coordinate. *)
Theorem half_located_item_is_kept :
  forall (items : list Locator.Item) (it : Locator.Item) (x : F),
    In it items ->
    Locator.no_text (Locator.lat it) ->
    Locator.coordinate py_float (Locator.longi it) = Some x ->
    (x ==? of_int 0)%np = false ->
    exists c,
      In c (Locator.fetch_ev_data_from_api py_float
              (Locator.Document "00" (Some items)))
      /\ Locator.name c = Locator.findtext (Locator.csNm it) EmptyString
      /\ Locator.latitude c = of_int 0
      /\ Locator.longitude c = x.
Proof.
  intros items it x Hin Hlat Hlon Hx.
  eexists. split; [|repeat split].
  simpl. apply filter_In. split.
  - unfold Locator.parse_items. apply in_flat_map. exists it.
    split; [assumption|].
    unfold Locator.parse_item.
    rewrite (coordinate_no_text py_float Hlat), Hlon. now left.
  - unfold Locator.has_position, fneqb. simpl. rewrite Hx. simpl.
    apply orb_true_r.
  - reflexivity.
  - reflexivity.
  - reflexivity.
Qed.

End Items.

(** ** Exact arithmetic: a charger with a NaN coordinate *)

Section ExactSearch.
Context {pandas : Pandas ideal} {pandas_spec : PandasSpec ideal}.
Local Open Scope R_scope.

(** Evaluates a distance one of whose arguments is NaN. *)
Ltac now_nan :=
  unfold haversine_np, haversine_a;
  cbn [np_radians np_sin np_cos np_sqrt np_arcsin fsub fadd fmul fdiv
       fpow of_int Ideal lift1 lift2 option_map];
  rewrite ?ideal_half;
  cbn [lift1 lift2 option_map ideal_div ideal_sqrt ideal_arcsin].

(** A distance that is a number has four numbers behind it. *)
Lemma ideal_haversine_some (lon1 lat1 lon2 lat2 : ideal) (d : R) :
  haversine_np lon1 lat1 lon2 lat2 = Some d ->
  lon1 <> None /\ lat1 <> None /\ lon2 <> None /\ lat2 <> None.
Proof.
  destruct lon1 as [lon1|], lat1 as [lat1|], lon2 as [lon2|],
           lat2 as [lat2|];
    try (now_nan; discriminate).
  intros _. repeat split; discriminate.
Qed.

Lemma ideal_within (lon1 lat1 lon2 lat2 rad : ideal) :
  (haversine_np lon1 lat1 lon2 lat2 <=? rad)%np = true ->
  lon1 <> None /\ lat1 <> None /\ lon2 <> None /\ lat2 <> None.
Proof.
  cbn [fleb Ideal]. unfold ideal_leb.
  destruct (haversine_np lon1 lat1 lon2 lat2) as [d|] eqn:Ed;
    [|discriminate].
  intros _. now apply ideal_haversine_some with d.
Qed.

(** The API can deliver a charger with a NaN coordinate ([float] reads
    the text [nan]), and ingestion keeps it.  In exact arithmetic such
    a charger is in no result of the locator's search, whatever the
    position and the radius: its distance is NaN, and the mask compares
    with [<=].  A result that is not empty can therefore always be
    drawn: none of its rows and neither coordinate of the position is
    NaN, so [folium] raises nothing in the run that shows it. *)
Theorem nan_charger_is_never_found :
  forall (w : world ideal (Locator.Charger ideal)) (df : ref)
         (f : frame ideal (Locator.Charger ideal))
         (loc : Locator.user_location ideal) (lat lng rad : ideal),
    Locator.located loc = Some (lat, lng) ->
    nth_error (heap w) df = Some f ->
    exists res,
      result_of (Locator.search_button df loc rad w) = Some res
      /\ Forall (fun row => Locator.latitude (fst row) <> None
                            /\ Locator.longitude (fst row) <> None) res
      /\ (res <> [] -> LocatorPage.drawable lat lng res = true).
Proof.
  intros w df f loc lat lng rad Hloc Hf.
  exists (Locator.query (stations f) lat lng rad).
  split; [now apply locator_button_result|].
  assert (Hall : Forall (fun row : Locator.Charger ideal * ideal =>
                           (Locator.longitude (fst row) <> None
                            /\ Locator.latitude (fst row) <> None)
                           /\ lng <> None /\ lat <> None)
                        (Locator.query (stations f) lat lng rad)).
  { apply Forall_forall. intros [c d] Hin.
    apply locator_query_In in Hin. destruct Hin as (_ & Hd & Hle).
    subst d. unfold Locator.distance_to in Hle.
    apply ideal_within in Hle. cbn [fst]. tauto. }
  split.
  - eapply Forall_impl; [|exact Hall]. cbn beta. tauto.
  - intros Hne. unfold LocatorPage.drawable. apply andb_true_iff. split.
    + destruct (Locator.query (stations f) lat lng rad) as [|row q];
        [contradiction|].
      inversion Hall as [|? ? (_ & Hlng & Hlat) _]; subst.
      destruct lat, lng; try contradiction; reflexivity.
    + apply forallb_forall. intros row Hrow.
      rewrite Forall_forall in Hall.
      destruct (Hall row Hrow) as ((Hlon & Hlat) & _).
      destruct (Locator.latitude (fst row)),
               (Locator.longitude (fst row)); try contradiction;
        reflexivity.
Qed.

End ExactSearch.

(* ================================================================= *)
(** * The pages *)

(** ** Steps of a run *)

Section PageSteps.
Context {S O : Type}.
Variable R : S -> S -> Prop.
Hypothesis R_refl : forall s, R s s.
Hypothesis R_trans : forall s1 s2 s3, R s1 s2 -> R s2 s3 -> R s1 s3.

Lemma preserves_ret (A : Type) (a : A) : preserves R (page_ret (O := O) a).
Proof. intros s out s' Hs. inversion Hs. apply R_refl. Qed.

Lemma preserves_write (o : O) : preserves R (emit o).
Proof. intros s out s' Hs. inversion Hs. apply R_refl. Qed.

Lemma preserves_stop (A : Type) : preserves R (st_stop (O := O) (A := A)).
Proof. intros s out s' Hs. inversion Hs. apply R_refl. Qed.

Lemma preserves_rerun (A : Type) : preserves R (st_rerun (O := O) (A := A)).
Proof. intros s out s' Hs. inversion Hs. apply R_refl. Qed.

Lemma preserves_raise (A : Type) (e : exn) :
  preserves R (page_raise (S := S) (O := O) (A := A) e).
Proof. intros s out s' Hs. discriminate. Qed.

Lemma preserves_bind (A B : Type) (m : Page S O A) (k : A -> Page S O B) :
  preserves R m -> (forall a, preserves R (k a)) ->
  preserves R (page_bind m k).
Proof.
  intros Hm Hk s out s' Hs. unfold page_bind in Hs.
  destruct (m s out) as [a s1 out1|s1 out1|s1 out1|e] eqn:Em.
  - apply R_trans with s1.
    + apply (Hm s out). now rewrite Em.
    + now apply (Hk a s1 out1).
  - apply (Hm s out). now rewrite Em.
  - apply (Hm s out). now rewrite Em.
  - discriminate.
Qed.

End PageSteps.

Lemma page_bind_continues (S O A B : Type) (m : Page S O A)
    (k : A -> Page S O B) (s s1 : S) (out out1 : list O) (a : A) :
  m s out = Continues a s1 out1 -> page_bind m k s out = k a s1 out1.
Proof. intros Hm. unfold page_bind. now rewrite Hm. Qed.

Lemma page_bind_reruns (S O A B : Type) (m : Page S O A)
    (k : A -> Page S O B) (s s1 : S) (out out1 : list O) :
  m s out = Reruns s1 out1 -> page_bind m k s out = Reruns s1 out1.
Proof. intros Hm. unfold page_bind. now rewrite Hm. Qed.

Lemma page_bind_stops (S O A B : Type) (m : Page S O A)
    (k : A -> Page S O B) (s s1 : S) (out out1 : list O) :
  m s out = Stops s1 out1 -> page_bind m k s out = Stops s1 out1.
Proof. intros Hm. unfold page_bind. now rewrite Hm. Qed.

Lemma page_bind_crashes (S O A B : Type) (m : Page S O A)
    (k : A -> Page S O B) (s : S) (out : list O) (e : exn) :
  m s out = Crashes e -> page_bind m k s out = Crashes e.
Proof. intros Hm. unfold page_bind. now rewrite Hm. Qed.

Lemma validate_location_run (F : Type) `{NumPy F} (S O : Type)
    (location : F * F) (s : S) (out : list O) :
  validate_location location s out
  = if isna (fst location) || isna (snd location)
    then Crashes ValueError else Continues tt s out.
Proof.
  unfold validate_location.
  now destruct (isna (fst location) || isna (snd location)).
Qed.

(** ** app.py *)

Section AppPageRun.
Context {F : Type} {numpy : NumPy F} {pandas : Pandas F}.
Variables (default_lat default_lng : F).
Variable geocode : string -> option (F * F).
Variables (py_str format_2f format_6f : F -> string).

Local Abbreviation run :=
  (AppPage.run default_lat default_lng geocode py_str format_2f format_6f).
Local Abbreviation get_center := (AppPage.get_center default_lat default_lng).
Local Abbreviation folium_map := (AppPage.folium_map py_str format_2f).
Local Abbreviation same_search := (@AppPage.same_search F).

Lemma same_search_refl (s : AppPage.app_state) : same_search s s.
Proof. repeat split. Qed.

Lemma same_search_trans (s1 s2 s3 : AppPage.app_state) :
  same_search s1 s2 -> same_search s2 s3 -> same_search s1 s3.
Proof.
  unfold AppPage.same_search. intros (A1 & B1 & C1 & D1) (A2 & B2 & C2 & D2).
  repeat split; congruence.
Qed.

Lemma preserves_lift (A : Type) (m : M F (App.Station F) A) :
  (forall w a w', m w = Returned a w' ->
     heap w' = heap w /\ searched (session w') = searched (session w)
     /\ results (session w') = results (session w)
     /\ radius (session w') = radius (session w)) ->
  preserves same_search (AppPage.lift (F := F) m).
Proof.
  intros Hm s out s' Hs. unfold AppPage.lift in Hs.
  destruct (m (AppPage.app_world s)) as [a w'|e] eqn:Em; [|discriminate].
  inversion Hs; subst s'. apply (Hm _ _ _ Em).
Qed.

Local Ltac kept :=
  apply preserves_lift; intros w a w' Hw;
  first [ inversion Hw; subst; cbn; now repeat split
        | idtac ].

Lemma preserves_session_get :
  preserves same_search (AppPage.lift (F := F) session_get).
Proof. kept. Qed.

Lemma preserves_set_center (lat lon : option F) :
  preserves same_search (AppPage.lift (F := F) (set_center lat lon)).
Proof. kept. Qed.

Lemma preserves_deref (r : ref) :
  preserves same_search (AppPage.lift (F := F) (deref r)).
Proof.
  kept. unfold deref in Hw.
  destruct (nth_error (heap w) r); inversion Hw; subst. now repeat split.
Qed.

Lemma results_frame_world (w w' : world F (App.Station F))
    (f : frame F (App.Station F)) :
  AppPage.results_frame w = Returned f w' -> w' = w.
Proof.
  unfold AppPage.results_frame, bind, session_get, deref, ret.
  destruct (results (session w)) as [r|]; [|now inversion 1].
  destruct (nth_error (heap w) r); now inversion 1.
Qed.

Lemma iterrows_world (f : frame F (App.Station F))
    (w w' : world F (App.Station F)) (rows : list (App.Station F * F)) :
  AppPage.iterrows f w = Returned rows w' ->
  w' = w /\ forall w0, AppPage.iterrows f w0 = Returned rows w0.
Proof.
  unfold AppPage.iterrows, ret, raise.
  destruct f as [[|x l]|l]; inversion 1; subst; now split.
Qed.

(** The stored rows are read in two steps: the frame, then its rows. *)
Lemma results_rows_steps (w w' : world F (App.Station F))
    (rows : list (App.Station F * F)) :
  AppPage.results_rows w = Returned rows w' ->
  w' = w
  /\ exists f, AppPage.results_frame w = Returned f w
               /\ forall w0, AppPage.iterrows f w0 = Returned rows w0.
Proof.
  unfold AppPage.results_rows, bind at 1.
  destruct (AppPage.results_frame w) as [f w1|e] eqn:Ef; [|discriminate].
  pose proof (results_frame_world _ Ef). subst w1.
  intros Hrows. destruct (iterrows_world _ _ Hrows) as [Hw Hall].
  split; [exact Hw|]. exists f. split; [reflexivity|exact Hall].
Qed.


Lemma preserves_results_frame :
  preserves same_search (AppPage.lift (F := F) AppPage.results_frame).
Proof.
  kept. apply results_frame_world in Hw. subst. now repeat split.
Qed.

Lemma preserves_iterrows (f : frame F (App.Station F)) :
  preserves same_search (AppPage.lift (F := F) (AppPage.iterrows f)).
Proof.
  kept. apply iterrows_world in Hw. destruct Hw as [Hw _]. subst.
  now repeat split.
Qed.

Lemma preserves_validate_location (location : F * F) :
  preserves same_search
    (validate_location (S := AppPage.app_state)
       (O := @AppPage.element F) location).
Proof.
  unfold validate_location.
  destruct (isna (fst location) || isna (snd location)).
  - apply preserves_raise.
  - apply preserves_ret. apply same_search_refl.
Qed.

Lemma preserves_set_last_clicked (c : F * F) :
  preserves same_search (AppPage.set_last_clicked c).
Proof. intros s out s' Hs. inversion Hs. now repeat split. Qed.

Local Ltac step :=
  lazymatch goal with
  | |- preserves _ (page_bind _ _) =>
      apply preserves_bind; [apply same_search_trans | | intros ?]
  | |- preserves _ (page_ret _) =>
      apply preserves_ret; apply same_search_refl
  | |- preserves _ (emit _) =>
      apply preserves_write; apply same_search_refl
  | |- preserves _ st_rerun =>
      apply preserves_rerun; apply same_search_refl
  | |- preserves _ (validate_location _) => apply preserves_validate_location
  | |- preserves _ (AppPage.lift session_get) => apply preserves_session_get
  | |- preserves _ (AppPage.lift (set_center _ _)) =>
      apply preserves_set_center
  | |- preserves _ (AppPage.lift (deref _)) => apply preserves_deref
  | |- preserves _ (AppPage.lift AppPage.results_frame) =>
      apply preserves_results_frame
  | |- preserves _ (AppPage.lift (AppPage.iterrows _)) =>
      apply preserves_iterrows
  | |- preserves _ (AppPage.set_last_clicked _) =>
      apply preserves_set_last_clicked
  end.

Lemma preserves_location_setting (wd : AppPage.Widgets) :
  preserves same_search
    (AppPage.location_setting default_lat default_lng geocode wd).
Proof.
  unfold AppPage.location_setting, AppPage.address_to_coords.
  destruct (AppPage.mode wd).
  - destruct (AppPage.address_search wd);
      [destruct (geocode (AppPage.address_in wd))|]; repeat step.
  - repeat step.
Qed.

Lemma preserves_map_click (wd : AppPage.Widgets) :
  preserves same_search (AppPage.map_click format_6f wd).
Proof.
  unfold AppPage.map_click. destruct (AppPage.clicked wd); repeat step.
Qed.

Lemma preserves_add_markers (lat lon : F)
    (df : list (App.Station F * F)) :
  preserves same_search (AppPage.add_markers py_str format_2f lat lon df).
Proof.
  induction df as [|r rest IH]; cbn [AppPage.add_markers].
  - step.
  - step; [step|]. step; [exact IH|]. step.
Qed.

Lemma preserves_column2 (wd : AppPage.Widgets) :
  preserves same_search
    (AppPage.column2 default_lat default_lng py_str format_2f format_6f wd).
Proof.
  unfold AppPage.column2, AppPage.get_center. step. step. cbn beta iota.
  step; [step|]. step; [step|]. step; [step|].
  step; [apply preserves_add_markers|]. step; [step|].
  step; [step|]. apply preserves_map_click.
Qed.

Lemma preserves_script (df_raw : ref) (wd : AppPage.Widgets) :
  AppPage.station_search wd = false ->
  preserves same_search
    (AppPage.script default_lat default_lng geocode py_str format_2f
       format_6f df_raw wd).
Proof.
  intros Hsearch. unfold AppPage.script. rewrite Hsearch.
  repeat step.
  - apply preserves_location_setting.
  - apply preserves_column2.
Qed.

(** Without the search button a run leaves the objects and the stored
    search alone, whatever else happens in it: an address lookup, new
    coordinates, a click on the map.  Only the centre moves. *)
Theorem results_change_only_on_search :
  forall (df_raw : ref) (wd : AppPage.Widgets) (s s' : AppPage.app_state),
    AppPage.station_search wd = false ->
    state_after (run df_raw wd s) = Some s' ->
    AppPage.same_search s s'
    /\ result_rows (AppPage.app_world s') = result_rows (AppPage.app_world s).
Proof.
  intros df_raw wd s s' Hsearch Hs.
  assert (Hsame : same_search s s')
    by exact (@preserves_script df_raw wd Hsearch s [] s' Hs).
  split; [assumption|].
  destruct Hsame as (Hh & _ & Hr & _).
  unfold result_rows. now rewrite Hh, Hr.
Qed.

Lemma lift_returned (A : Type) (m : M F (App.Station F) A)
    (s : AppPage.app_state) (out : list (@AppPage.element F)) (a : A)
    (w : world F (App.Station F)) :
  m (AppPage.app_world s) = Returned a w ->
  AppPage.lift m s out
  = Continues a {| AppPage.app_world := w;
                   AppPage.last_clicked := AppPage.last_clicked s |} out.
Proof. intros Hm. unfold AppPage.lift. now rewrite Hm. Qed.

(** The markers are drawn when every row has its coordinates. *)
Lemma add_markers_run (lat lon : F) (df : list (App.Station F * F))
    (s : AppPage.app_state) (out : list (@AppPage.element F)) :
  AppPage.add_markers py_str format_2f lat lon df s out
  = if forallb (fun r => App.has_coordinates (fst r)) df
    then Continues (map (AppPage.station_marker py_str format_2f lat lon) df)
                   s out
    else Crashes ValueError.
Proof.
  induction df as [|r rest IH]; cbn [AppPage.add_markers forallb map].
  - reflexivity.
  - assert (Hc : App.has_coordinates (fst r)
                 = negb (isna (App.latitude (fst r))
                         || isna (App.longitude (fst r))))
      by (unfold App.has_coordinates;
          now destruct (isna (App.latitude (fst r))),
                       (isna (App.longitude (fst r)))).
    rewrite Hc. unfold page_bind at 1, validate_location. cbn [fst snd].
    destruct (isna (App.latitude (fst r)) || isna (App.longitude (fst r)));
      cbn [negb andb]; [reflexivity|].
    unfold page_ret at 1. unfold page_bind at 1. rewrite IH.
    now destruct (forallb (fun r0 => App.has_coordinates (fst r0)) rest).
Qed.

(** The right column, from the rows the session holds: the map of these
    rows around the stored centre and then the click, or the
    [ValueError] of [folium]. *)
Lemma column2_run (wd : AppPage.Widgets) (s : AppPage.app_state)
    (out : list (@AppPage.element F)) (rows : list (App.Station F * F)) :
  AppPage.results_rows (AppPage.app_world s)
  = Returned rows (AppPage.app_world s) ->
  AppPage.column2 default_lat default_lng py_str format_2f format_6f wd s out
  = if AppPage.drawable (fst (get_center (session (AppPage.app_world s))))
                        (snd (get_center (session (AppPage.app_world s))))
                        rows
    then AppPage.map_click format_6f wd
           {| AppPage.app_world := AppPage.app_world s;
              AppPage.last_clicked := AppPage.last_clicked s |}
           (out ++ [AppPage.st_folium
                      (folium_map
                         (fst (get_center (session (AppPage.app_world s))))
                         (snd (get_center (session (AppPage.app_world s))))
                         rows)])
    else Crashes ValueError.
Proof.
  intros Hrows. apply results_rows_steps in Hrows.
  destruct Hrows as (_ & f & Hf & Hiter).
  unfold AppPage.column2.
  erewrite page_bind_continues by (apply lift_returned; reflexivity).
  cbn [AppPage.app_world AppPage.last_clicked].
  unfold AppPage.get_center. cbn [fst snd].
  erewrite page_bind_continues by (apply lift_returned; exact Hf).
  cbn [AppPage.app_world AppPage.last_clicked].
  unfold AppPage.drawable.
  unfold page_bind at 1, validate_location at 1. cbn [fst snd].
  match goal with
  | |- context [isna ?a || isna ?b] => destruct (isna a || isna b) eqn:Ec
  end; [reflexivity|].
  unfold page_ret at 1.
  erewrite page_bind_continues by (apply lift_returned; apply Hiter).
  cbn [AppPage.app_world AppPage.last_clicked negb andb].
  unfold page_bind at 1. rewrite add_markers_run.
  destruct (forallb (fun r => App.has_coordinates (fst r)) rows);
    [|reflexivity].
  unfold page_bind at 1, validate_location at 1. cbn [fst snd].
  rewrite Ec. unfold page_ret at 1.
  unfold page_bind at 1, emit. reflexivity.
Qed.


Lemma results_rows_after_search (w : world F (App.Station F))
    (rows : list (App.Station F)) (dist : App.Station F -> F)
    (mask : App.Station F * F -> bool) (lat lon rad : F) :
  AppPage.results_rows (after_search w rows dist mask lat lon rad)
  = Returned (sort_values snd (filter mask (map (fun r => (r, dist r)) rows)))
             (after_search w rows dist mask lat lon rad).
Proof.
  unfold AppPage.results_rows, bind at 1, AppPage.results_frame, bind at 1,
    session_get, deref.
  unfold after_search at 1 2 3. cbn [session results heap].
  rewrite nth_error_app2 by lia.
  replace (List.length (heap w) + 2 - List.length (heap w)) with 2 by lia.
  reflexivity.
Qed.

(** A run up to the location block. *)
Lemma run_to_location (df_raw : ref) (f : frame F (App.Station F))
    (wd : AppPage.Widgets) (s : AppPage.app_state) :
  nth_error (heap (AppPage.app_world s)) df_raw = Some f ->
  run df_raw wd s
  = page_bind (AppPage.location_setting default_lat default_lng geocode wd)
      (fun p =>
         page_bind
           (if AppPage.station_search wd
            then AppPage.lift
                   (App.search_button df_raw
                      (App.sidebar (stations f) (AppPage.picked wd))
                      (fst p) (snd p) (AppPage.radius_km wd))
            else page_ret tt)
           (fun _ =>
              AppPage.column2 default_lat default_lng py_str format_2f
                format_6f wd))
      {| AppPage.app_world := AppPage.app_world s;
         AppPage.last_clicked := AppPage.last_clicked s |}
      AppPage.headings.
Proof.
  intros Hf. unfold AppPage.run, AppPage.script.
  erewrite page_bind_continues by reflexivity.
  erewrite page_bind_continues
    by (apply lift_returned; unfold deref; rewrite Hf; reflexivity).
  erewrite page_bind_continues by reflexivity.
  erewrite page_bind_continues by reflexivity.
  reflexivity.
Qed.

(** A run gets to the right column once the location block has left
    [lat] and [lon]: after the search when the button is pressed, at
    once when it is not. *)
Lemma search_reaches_column2 (df_raw : ref) (f : frame F (App.Station F))
    (wd : AppPage.Widgets) (s s0 : AppPage.app_state)
    (out0 : list (@AppPage.element F)) (lat lon : F) :
  nth_error (heap (AppPage.app_world s)) df_raw = Some f ->
  AppPage.location_setting default_lat default_lng geocode wd
    {| AppPage.app_world := AppPage.app_world s;
       AppPage.last_clicked := AppPage.last_clicked s |} AppPage.headings
  = Continues (lat, lon) s0 out0 ->
  heap (AppPage.app_world s0) = heap (AppPage.app_world s) ->
  AppPage.station_search wd = true ->
  run df_raw wd s
  = AppPage.column2 default_lat default_lng py_str format_2f format_6f wd
      {| AppPage.app_world :=
           after_search (AppPage.app_world s0) (stations f)
             (App.distance_to lat lon)
             (App.mask (App.sidebar (stations f) (AppPage.picked wd))
                       (AppPage.radius_km wd))
             lat lon (AppPage.radius_km wd);
         AppPage.last_clicked := AppPage.last_clicked s0 |} out0.
Proof.
  intros Hf Hloc Hheap Hsearch.
  rewrite (@run_to_location df_raw f wd s Hf).
  erewrite page_bind_continues by exact Hloc.
  rewrite Hsearch. cbn [fst snd].
  assert (Hf0 : nth_error (heap (AppPage.app_world s0)) df_raw = Some f)
    by now rewrite Hheap.
  erewrite page_bind_continues
    by (apply lift_returned; apply app_search_button_run; exact Hf0).
  reflexivity.
Qed.

Lemma idle_reaches_column2 (df_raw : ref) (f : frame F (App.Station F))
    (wd : AppPage.Widgets) (s s0 : AppPage.app_state)
    (out0 : list (@AppPage.element F)) (p : F * F) :
  nth_error (heap (AppPage.app_world s)) df_raw = Some f ->
  AppPage.location_setting default_lat default_lng geocode wd
    {| AppPage.app_world := AppPage.app_world s;
       AppPage.last_clicked := AppPage.last_clicked s |} AppPage.headings
  = Continues p s0 out0 ->
  AppPage.station_search wd = false ->
  run df_raw wd s
  = AppPage.column2 default_lat default_lng py_str format_2f format_6f wd
      s0 out0.
Proof.
  intros Hf Hloc Hsearch.
  rewrite (@run_to_location df_raw f wd s Hf).
  erewrite page_bind_continues by exact Hloc.
  rewrite Hsearch.
  erewrite page_bind_continues by reflexivity.
  reflexivity.
Qed.

(** What a run draws once the location block has left [lat] and [lon]
    and the search button is pressed. *)
Lemma search_from_location (df_raw : ref) (f : frame F (App.Station F))
    (wd : AppPage.Widgets) (s s0 : AppPage.app_state)
    (out0 : list (@AppPage.element F)) (lat lon : F) :
  nth_error (heap (AppPage.app_world s)) df_raw = Some f ->
  AppPage.location_setting default_lat default_lng geocode wd
    {| AppPage.app_world := AppPage.app_world s;
       AppPage.last_clicked := AppPage.last_clicked s |} AppPage.headings
  = Continues (lat, lon) s0 out0 ->
  heap (AppPage.app_world s0) = heap (AppPage.app_world s) ->
  AppPage.station_search wd = true ->
  let q := App.query (stations f) (App.sidebar (stations f) (AppPage.picked wd))
                     lat lon (AppPage.radius_km wd) in
  let w1 := after_search (AppPage.app_world s0) (stations f)
              (App.distance_to lat lon)
              (App.mask (App.sidebar (stations f) (AppPage.picked wd))
                        (AppPage.radius_km wd))
              lat lon (AppPage.radius_km wd) in
  run df_raw wd s
  = if AppPage.drawable lat lon q
    then AppPage.map_click format_6f wd
           {| AppPage.app_world := w1;
              AppPage.last_clicked := AppPage.last_clicked s0 |}
           (out0 ++ [AppPage.st_folium (folium_map lat lon q)])
    else Crashes ValueError.
Proof.
  intros Hf Hloc Hheap Hsearch q w1.
  rewrite (@search_reaches_column2 df_raw f wd s s0 out0 lat lon
             Hf Hloc Hheap Hsearch).
  fold w1.
  rewrite (@column2_run wd _ out0 q)
    by (cbn [AppPage.app_world]; apply results_rows_after_search).
  reflexivity.
Qed.

Lemma maps_app (out1 out2 : list (@AppPage.element F)) :
  AppPage.maps (out1 ++ out2) = AppPage.maps out1 ++ AppPage.maps out2.
Proof. apply flat_map_app. Qed.

(** A click moves the centre, and writes no map. *)
Lemma map_click_run (wd : AppPage.Widgets) (s : AppPage.app_state)
    (out : list (@AppPage.element F)) :
  exists s' note,
    AppPage.map_click format_6f wd s out = Continues tt s' (out ++ note)
    /\ same_search s s'
    /\ AppPage.maps note = []
    /\ get_center (session (AppPage.app_world s'))
       = match AppPage.clicked wd with
         | Some c => c
         | None => get_center (session (AppPage.app_world s))
         end.
Proof.
  unfold AppPage.map_click. destruct (AppPage.clicked wd) as [[la ln]|].
  - eexists. eexists. split; [reflexivity|].
    cbn. repeat split.
  - exists s, []. rewrite app_nil_r. repeat split.
Qed.

(** The location block, when it does not restart the run. *)
Lemma location_setting_stays (wd : AppPage.Widgets) (s : AppPage.app_state)
    (out : list (@AppPage.element F)) :
  AppPage.mode wd = AppPage.AddressEntry ->
  AppPage.address_search wd = false
  \/ geocode (AppPage.address_in wd) = None ->
  exists note,
    AppPage.location_setting default_lat default_lng geocode wd
      {| AppPage.app_world := AppPage.app_world s;
         AppPage.last_clicked := AppPage.last_clicked s |} out
    = Continues (get_center (session (AppPage.app_world s)))
        {| AppPage.app_world := AppPage.app_world s;
           AppPage.last_clicked := AppPage.last_clicked s |} (out ++ note)
    /\ AppPage.maps note = []
    /\ (AppPage.address_search wd = true ->
        note = [AppPage.st_error "주소를 찾을 수 없습니다."]).
Proof.
  intros Hmode Hstay. unfold AppPage.location_setting. rewrite Hmode.
  destruct (AppPage.address_search wd) eqn:Eb.
  - destruct Hstay as [Hs|Hs]; [discriminate|].
    unfold AppPage.address_to_coords. rewrite Hs.
    eexists. split; [reflexivity|]. split; [reflexivity|]. reflexivity.
  - exists []. rewrite app_nil_r. split; [reflexivity|].
    split; [reflexivity|discriminate].
Qed.

Lemma location_setting_direct (wd : AppPage.Widgets) (s : AppPage.app_state)
    (out : list (@AppPage.element F)) :
  AppPage.mode wd = AppPage.CoordinateEntry ->
  AppPage.location_setting default_lat default_lng geocode wd s out
  = Continues (AppPage.lat_input wd, AppPage.lon_input wd)
      {| AppPage.app_world :=
           {| heap := heap (AppPage.app_world s);
              session :=
                {| searched := searched (session (AppPage.app_world s));
                   results := results (session (AppPage.app_world s));
                   center_lat := Some (AppPage.lat_input wd);
                   center_lon := Some (AppPage.lon_input wd);
                   radius := radius (session (AppPage.app_world s)) |} |};
         AppPage.last_clicked := AppPage.last_clicked s |} out.
Proof.
  intros Hmode. unfold AppPage.location_setting. now rewrite Hmode.
Qed.


(** A run with the search button pressed, in which the location block
    does not restart the page, stores the result of the query around
    the reference point.  When the reference point and every row of the
    result have their coordinates the run draws one map: centred on that
    point, with one marker for each row of the result, in the result's
    order, and with the route links starting from that point.  When a
    coordinate is NaN, [folium] raises [ValueError] and nothing is
    shown. *)
Theorem search_run_draws_results :
  forall (df_raw : ref) (f : frame F (App.Station F))
         (wd : AppPage.Widgets) (s : AppPage.app_state) (lat lon : F),
    nth_error (heap (AppPage.app_world s)) df_raw = Some f ->
    AppPage.station_search wd = true ->
    (AppPage.mode wd = AppPage.CoordinateEntry
     /\ (lat, lon) = (AppPage.lat_input wd, AppPage.lon_input wd))
    \/ (AppPage.mode wd = AppPage.AddressEntry
        /\ (AppPage.address_search wd = false
            \/ geocode (AppPage.address_in wd) = None)
        /\ (lat, lon) = get_center (session (AppPage.app_world s))) ->
    let q := App.query (stations f)
               (App.sidebar (stations f) (AppPage.picked wd))
               lat lon (AppPage.radius_km wd) in
    if AppPage.drawable lat lon q
    then exists s' out,
           run df_raw wd s = Continues tt s' out
           /\ result_rows (AppPage.app_world s') = Some q
           /\ AppPage.maps out = [folium_map lat lon q]
    else run df_raw wd s = Crashes ValueError.
Proof.
  intros df_raw f wd s lat lon Hf Hsearch Hloc q.
  assert (Hrun : exists s0 out0,
    run df_raw wd s
    = (if AppPage.drawable lat lon q
       then AppPage.map_click format_6f wd s0
              (out0 ++ [AppPage.st_folium (folium_map lat lon q)])
       else Crashes ValueError)
    /\ result_rows (AppPage.app_world s0) = Some q
    /\ AppPage.maps out0 = []).
  { destruct Hloc as [[Hmode Hp]|[Hmode [Hstay Hp]]].
    - inversion Hp; subst lat lon.
      eexists. exists AppPage.headings. split; [|split; [|reflexivity]].
      + eapply search_from_location; try eassumption.
        * apply location_setting_direct. exact Hmode.
        * reflexivity.
      + cbn [AppPage.app_world]. apply after_search_result.
    - destruct (@location_setting_stays wd s AppPage.headings Hmode Hstay)
        as (note & Hl & Hnote & _).
      rewrite <- Hp in Hl.
      eexists. exists (AppPage.headings ++ note). split; [|split].
      + eapply search_from_location; try eassumption. reflexivity.
      + cbn [AppPage.app_world]. apply after_search_result.
      + rewrite maps_app, Hnote. reflexivity. }
  destruct Hrun as (s0 & out0 & Hrun & Hq & Hout0).
  destruct (AppPage.drawable lat lon q); [|exact Hrun].
  destruct (map_click_run wd s0
              (out0 ++ [AppPage.st_folium (folium_map lat lon q)]))
    as (s' & note & Hclick & Hsame & Hnote & _).
  exists s', ((out0 ++ [AppPage.st_folium (folium_map lat lon q)]) ++ note).
  split; [now rewrite Hrun|]. split.
  - destruct Hsame as (Hh & _ & Hr & _).
    unfold result_rows in *. now rewrite Hh, Hr.
  - rewrite !maps_app, Hout0, Hnote. reflexivity.
Qed.

(** What a run draws once the location block has left its point and the
    search button is not pressed. *)
Lemma draw_from_location (df_raw : ref) (f : frame F (App.Station F))
    (wd : AppPage.Widgets) (s s0 : AppPage.app_state)
    (out0 : list (@AppPage.element F)) (p : F * F)
    (rows : list (App.Station F * F)) :
  nth_error (heap (AppPage.app_world s)) df_raw = Some f ->
  AppPage.location_setting default_lat default_lng geocode wd
    {| AppPage.app_world := AppPage.app_world s;
       AppPage.last_clicked := AppPage.last_clicked s |} AppPage.headings
  = Continues p s0 out0 ->
  AppPage.station_search wd = false ->
  AppPage.results_rows (AppPage.app_world s0)
  = Returned rows (AppPage.app_world s0) ->
  run df_raw wd s
  = if AppPage.drawable (fst (get_center (session (AppPage.app_world s0))))
                        (snd (get_center (session (AppPage.app_world s0))))
                        rows
    then AppPage.map_click format_6f wd
           {| AppPage.app_world := AppPage.app_world s0;
              AppPage.last_clicked := AppPage.last_clicked s0 |}
           (out0 ++ [AppPage.st_folium
                       (folium_map
                          (fst (get_center (session (AppPage.app_world s0))))
                          (snd (get_center (session (AppPage.app_world s0))))
                          rows)])
    else Crashes ValueError.
Proof.
  intros Hf Hloc Hsearch Hrows.
  rewrite (@idle_reaches_column2 df_raw f wd s s0 out0 p Hf Hloc Hsearch).
  now apply column2_run.
Qed.


(** An address lookup.  When the address is found the run stores it as
    the centre and restarts at once: no search runs and no map is drawn
    in that run.  When it is not found the run reports it and goes on
    with the centre it had: it draws the stored rows around that centre,
    or stops on the [ValueError] of [folium] when one of the coordinates
    to draw is NaN. *)
Theorem address_lookup_moves_centre_only :
  forall (df_raw : ref) (f : frame F (App.Station F))
         (wd : AppPage.Widgets) (s : AppPage.app_state)
         (rows : list (App.Station F * F)),
    nth_error (heap (AppPage.app_world s)) df_raw = Some f ->
    AppPage.results_rows (AppPage.app_world s)
    = Returned rows (AppPage.app_world s) ->
    AppPage.mode wd = AppPage.AddressEntry ->
    AppPage.address_search wd = true ->
    match geocode (AppPage.address_in wd) with
    | Some loc =>
        exists s' out,
          run df_raw wd s = Reruns s' out
          /\ center_lat (session (AppPage.app_world s')) = Some (fst loc)
          /\ center_lon (session (AppPage.app_world s')) = Some (snd loc)
          /\ AppPage.same_search s s'
          /\ AppPage.maps out = []
    | None =>
        AppPage.station_search wd = false ->
        if AppPage.drawable
             (fst (get_center (session (AppPage.app_world s))))
             (snd (get_center (session (AppPage.app_world s)))) rows
        then
          exists s' note,
            run df_raw wd s
            = Continues tt s'
                (AppPage.headings
                 ++ [ AppPage.st_error "주소를 찾을 수 없습니다.";
                      AppPage.st_folium
                     (folium_map
                        (fst (get_center (session (AppPage.app_world s))))
                        (snd (get_center (session (AppPage.app_world s))))
                        rows) ] ++ note)
            /\ AppPage.maps note = []
            /\ AppPage.same_search s s'
            /\ (AppPage.clicked wd = None ->
                AppPage.app_world s' = AppPage.app_world s)
        else run df_raw wd s = Crashes ValueError
    end.
Proof.
  intros df_raw f wd s rows Hf Hrows Hmode Hbutton.
  destruct (geocode (AppPage.address_in wd)) as [loc|] eqn:Eg.
  - eexists. eexists. split.
    + rewrite (@run_to_location df_raw f wd s Hf).
      unfold page_bind at 1, AppPage.location_setting.
      rewrite Hmode, Hbutton. unfold AppPage.address_to_coords.
      rewrite Eg. reflexivity.
    + cbn. repeat split.
  - intros Hsearch.
    destruct (@location_setting_stays wd s AppPage.headings Hmode (or_intror Eg))
      as (note0 & Hl & _ & Hnote0).
    rewrite (Hnote0 Hbutton) in Hl.
    rewrite (@draw_from_location df_raw f wd s _ _ _ rows Hf Hl Hsearch Hrows).
    cbn [AppPage.app_world AppPage.last_clicked].
    destruct (AppPage.drawable
                (fst (get_center (session (AppPage.app_world s))))
                (snd (get_center (session (AppPage.app_world s)))) rows);
      [|reflexivity].
    match goal with
    | |- context [AppPage.map_click _ _ ?s0 ?o] =>
        destruct (map_click_run wd s0 o)
          as (s' & note & Hclick & Hsame & Hnote & _)
    end.
    exists s', note. split; [exact Hclick|]. split; [exact Hnote|].
    split; [exact Hsame|].
    intros Hc. revert Hclick. unfold AppPage.map_click. rewrite Hc.
    unfold page_ret. intros Hclick. inversion Hclick. reflexivity.
Qed.




End AppPageRun.

(** ** ev_charger_locator.py *)

Section LocatorPageRun.
Context {F : Type} {numpy : NumPy F} {pandas : Pandas F}.
Variable py_float : string -> option F.
Variable float_error : string -> string.
Variable first_1000 : string -> string.
Variables (default_lat default_lng default_radius : F).
Variables (py_str format_1f format_2f : F -> string).
Variable geocode : string -> LocatorPage.geocoded (F := F).

Local Abbreviation run :=
  (LocatorPage.run py_float float_error first_1000
                   default_lat default_lng default_radius
                   py_str format_1f format_2f geocode).
Local Abbreviation column1 := (LocatorPage.column1 py_str geocode).
Local Abbreviation column2 := (LocatorPage.column2 format_1f format_2f).
Local Abbreviation fetch := (Locator.fetch_ev_data_from_api py_float).
Local Abbreviation written_and_rows :=
  (LocatorPage.fetch_ev_data_from_api py_float float_error first_1000).
Local Abbreviation opening :=
  (LocatorPage.opening py_float float_error first_1000).
Local Abbreviation loaded :=
  (LocatorPage.loaded py_float float_error first_1000).
Local Abbreviation opened :=
  (LocatorPage.opened default_lat default_lng default_radius).
Local Abbreviation frame_of inp :=
  (fetch (LocatorPage.response_of (LocatorPage.api_call inp))).
Local Abbreviation shown := (LocatorPage.shown format_1f format_2f).
Local Abbreviation found_note := (LocatorPage.found_note py_str).

(** The rows the loop collects are those of [Locator.parse_items]. *)
Lemma for_each_item_rows (items : list Locator.Item) :
  snd (LocatorPage.for_each_item py_float float_error items)
  = Locator.parse_items py_float items.
Proof.
  induction items as [|it rest IH]; [reflexivity|].
  cbn [LocatorPage.for_each_item]. unfold LocatorPage.item_row.
  unfold Locator.parse_items in *. cbn [flat_map].
  destruct (LocatorPage.for_each_item py_float float_error rest)
    as [warnings data].
  cbn [snd] in IH. rewrite <- IH.
  now destruct (Locator.parse_item py_float it).
Qed.

(** The function with its messages returns the frame of
    [Locator.fetch_ev_data_from_api]. *)
Lemma fetch_frame (c : LocatorPage.call) :
  snd (written_and_rows c) = fetch (LocatorPage.response_of c).
Proof.
  destruct c as [e r|e text|e|text code msg [items|]]; try reflexivity.
  - cbn [LocatorPage.fetch_ev_data_from_api LocatorPage.response_of
         Locator.fetch_ev_data_from_api].
    destruct (String.eqb code "00"); cbn [negb]; [|reflexivity].
    rewrite <- for_each_item_rows.
    destruct (LocatorPage.for_each_item py_float float_error items)
      as [warnings [|row data]]; reflexivity.
  - cbn [LocatorPage.fetch_ev_data_from_api LocatorPage.response_of
         Locator.fetch_ev_data_from_api].
    now destruct (String.eqb code "00").
Qed.

(** A run with a key and a frame that is not empty gets to the
    columns. *)
Lemma run_opened (inp : LocatorPage.Inputs) (s : LocatorPage.locator_state)
    (k : string) :
  LocatorPage.st_secrets inp = LocatorPage.Secret k ->
  k <> EmptyString ->
  frame_of inp <> [] ->
  run inp s
  = page_bind (column1 (List.length (LocatorPage.objects s)) inp)
              (fun _ => column2)
              (opened (frame_of inp) s) (loaded inp).
Proof.
  intros Hkey Hk Hdf. unfold LocatorPage.run, LocatorPage.script.
  erewrite page_bind_continues by reflexivity.
  erewrite page_bind_continues by reflexivity.
  rewrite Hkey. unfold LocatorPage.service_key.
  destruct k as [|a k]; [contradiction|].
  unfold page_bind at 1, page_ret.
  erewrite page_bind_continues by reflexivity.
  unfold page_bind at 1, LocatorPage.st_cache_data.
  rewrite fetch_frame.
  unfold page_bind at 1, LocatorPage.new_frame.
  unfold empty. cbn [stations].
  destruct (frame_of inp) as [|c df] eqn:Edf; [contradiction|].
  unfold page_bind at 1, page_ret.
  unfold page_bind at 1, LocatorPage.initialise, LocatorPage.opened.
  cbn [LocatorPage.keys LocatorPage.objects].
  destruct (LocatorPage.keys s); reflexivity.
Qed.

(** The opened state holds the fetched frame where the run put it, and
    has its keys. *)
Lemma opened_frame (df : list (Locator.Charger F))
    (s : LocatorPage.locator_state) :
  nth_error (LocatorPage.objects (opened df s))
            (List.length (LocatorPage.objects s)) = Some (Plain df).
Proof.
  unfold LocatorPage.opened. destruct (LocatorPage.keys s);
    cbn [LocatorPage.objects].
  - apply nth_error_app_new.
  - rewrite nth_error_app1 by (rewrite length_app; simpl; lia).
    apply nth_error_app_new.
Qed.

Lemma opened_keys (df : list (Locator.Charger F))
    (s : LocatorPage.locator_state) :
  exists k, LocatorPage.keys (opened df s) = Some k
            /\ (forall k0, LocatorPage.keys s = Some k0 -> k = k0)
            /\ (LocatorPage.keys s = None ->
                k = {| searched := false;
                       results := Some (List.length (LocatorPage.objects s) + 1);
                       center_lat := Some default_lat;
                       center_lon := Some default_lng;
                       radius := Some default_radius |}
                /\ nth_error (LocatorPage.objects (opened df s))
                             (List.length (LocatorPage.objects s) + 1)
                   = Some (Plain [])).
Proof.
  unfold LocatorPage.opened. destruct (LocatorPage.keys s) as [k0|].
  - exists k0. split; [reflexivity|]. split; [now inversion 1|discriminate].
  - eexists. split; [reflexivity|]. split; [discriminate|].
    intros _. cbn [LocatorPage.objects]. rewrite length_app. cbn [List.length].
    split; [reflexivity|].
    replace (List.length (LocatorPage.objects s) + 1)
      with (List.length (LocatorPage.objects s ++ [Plain df]))
      by (rewrite length_app; reflexivity).
    apply nth_error_app_new.
Qed.

Lemma locator_lift_returned (A : Type) (m : M F (Locator.Charger F) A)
    (s : LocatorPage.locator_state) (out : list (@LocatorPage.element F))
    (k : session_state F) (a : A) (w : world F (Locator.Charger F)) :
  LocatorPage.keys s = Some k ->
  m {| heap := LocatorPage.objects s; session := k |} = Returned a w ->
  LocatorPage.lift m s out
  = Continues a {| LocatorPage.objects := heap w;
                   LocatorPage.keys := Some (session w) |} out.
Proof. intros Hk Hm. unfold LocatorPage.lift. now rewrite Hk, Hm. Qed.

(** The right column, by what the session holds. *)
Lemma column2_not_searched (s : LocatorPage.locator_state)
    (out : list (@LocatorPage.element F)) (k : session_state F) :
  LocatorPage.keys s = Some k -> searched k = false ->
  column2 s out
  = Continues tt s (out ++ [LocatorPage.st_info LocatorPage.HOW_TO_SEARCH]).
Proof.
  intros Hk Hs. unfold LocatorPage.column2, page_bind at 1,
    LocatorPage.get_searched. now rewrite Hk, Hs.
Qed.

(** The markers are drawn when every row has its coordinates. *)
Lemma locator_add_markers_run (rows : list (Locator.Charger F * F))
    (s : LocatorPage.locator_state) (out : list (@LocatorPage.element F)) :
  LocatorPage.add_markers format_2f rows s out
  = if forallb (fun row => negb (isna (Locator.latitude (fst row))
                                 || isna (Locator.longitude (fst row)))) rows
    then Continues (map (LocatorPage.charger_marker format_2f) rows) s out
    else Crashes ValueError.
Proof.
  induction rows as [|row rest IH];
    cbn [LocatorPage.add_markers forallb map]; [reflexivity|].
  unfold page_bind at 1. rewrite validate_location_run. cbn [fst snd].
  destruct (isna (Locator.latitude (fst row))
            || isna (Locator.longitude (fst row)));
    cbn [negb andb]; [reflexivity|].
  unfold page_bind at 1. rewrite IH.
  now destruct (forallb _ rest).
Qed.

Lemma column2_searched (s : LocatorPage.locator_state)
    (out : list (@LocatorPage.element F)) (k : session_state F)
    (r : ref) (rows : list (Locator.Charger F * F)) (lat lng rad : F) :
  LocatorPage.keys s = Some k -> searched k = true ->
  results k = Some r -> center_lat k = Some lat -> center_lon k = Some lng ->
  radius k = Some rad ->
  nth_error (LocatorPage.objects s) r = Some (WithDist rows) ->
  column2 s out
  = match rows with
    | [] =>
        Continues tt {| LocatorPage.objects := LocatorPage.objects s;
                        LocatorPage.keys := Some k |}
          (out ++ [LocatorPage.st_warning LocatorPage.NOTHING_NEARBY])
    | _ :: _ =>
        if LocatorPage.drawable lat lng rows
        then Continues tt {| LocatorPage.objects := LocatorPage.objects s;
                             LocatorPage.keys := Some k |}
               (out ++ shown lat lng rad rows)
        else Crashes ValueError
    end.
Proof.
  intros Hk Hs Hr Hlat Hlng Hrad Hf.
  unfold LocatorPage.column2, page_bind at 1, LocatorPage.get_searched.
  rewrite Hk, Hs.
  erewrite page_bind_continues
    by (eapply locator_lift_returned; [exact Hk|reflexivity]).
  cbn [heap session]. rewrite Hr. unfold LocatorPage.getitem.
  unfold page_bind at 1, page_ret.
  erewrite page_bind_continues
    by (eapply locator_lift_returned;
        [reflexivity | unfold deref; cbn [heap LocatorPage.objects];
                       rewrite Hf; reflexivity]).
  cbn [heap session]. unfold empty. cbn [stations].
  destruct rows as [|row rows]; [reflexivity|].
  cbn [map negb]. unfold LocatorPage.show_results.
  erewrite page_bind_continues
    by (eapply locator_lift_returned; reflexivity).
  cbn [heap session]. rewrite Hlat, Hlng, Hrad. unfold LocatorPage.getitem.
  do 3 (unfold page_bind at 1, page_ret at 1).
  unfold page_bind at 1, emit at 1.
  unfold LocatorPage.drawable.
  unfold page_bind at 1. rewrite validate_location_run. cbn [fst snd].
  destruct (isna lat || isna lng) eqn:Ec; cbn [negb andb]; [reflexivity|].
  unfold page_bind at 1. rewrite validate_location_run. cbn [fst snd].
  rewrite Ec.
  unfold page_bind at 1. rewrite validate_location_run. cbn [fst snd].
  rewrite Ec.
  unfold page_bind at 1, LocatorPage.iterrows, page_ret at 1.
  unfold page_bind at 1. rewrite locator_add_markers_run.
  destruct (forallb _ (row :: rows)); [|reflexivity].
  unfold page_bind, emit, LocatorPage.shown, LocatorPage.results_map.
  cbn [stations]. rewrite length_map, <- !app_assoc. reflexivity.
Qed.

Lemma column1_idle (df : ref) (inp : LocatorPage.Inputs)
    (s : LocatorPage.locator_state) (out : list (@LocatorPage.element F)) :
  LocatorPage.search_pressed inp = false ->
  LocatorPage.clear_cache_pressed inp = false ->
  column1 df inp s out
  = Continues tt s
      (out ++ [LocatorPage.st_subheader LocatorPage.SETTINGS_HEADING]).
Proof.
  intros Hs Hc. unfold LocatorPage.column1. now rewrite Hs, Hc.
Qed.

(** The left column when the search button finds its coordinates. *)
Lemma column1_search (df : ref) (inp : LocatorPage.Inputs)
    (s : LocatorPage.locator_state) (out : list (@LocatorPage.element F))
    (k : session_state F)
    (f : frame F (Locator.Charger F)) (lat lng : F) :
  LocatorPage.keys s = Some k ->
  nth_error (LocatorPage.objects s) df = Some f ->
  LocatorPage.search_pressed inp = true ->
  (LocatorPage.option_radio inp = LocatorPage.CoordinateEntry
   /\ (lat, lng) = (LocatorPage.lat_input inp, LocatorPage.lng_input inp))
  \/ (LocatorPage.option_radio inp = LocatorPage.AddressEntry
      /\ geocode (LocatorPage.address_input inp)
         = LocatorPage.Location lat lng) ->
  let w := after_search {| heap := LocatorPage.objects s; session := k |}
             (stations f) (Locator.distance_to lat lng)
             (fun r => (snd r <=? LocatorPage.radius_slider inp)%np)
             lat lng (LocatorPage.radius_slider inp) in
  page_bind (column1 df inp) (fun _ => column2) s out
  = Reruns {| LocatorPage.objects := heap w;
              LocatorPage.keys := Some (session w) |}
      ((out ++ [LocatorPage.st_subheader LocatorPage.SETTINGS_HEADING])
       ++ found_note inp lat lng).
Proof.
  intros Hk Hf Hsearch Hloc w.
  unfold LocatorPage.column1. rewrite Hsearch. unfold LocatorPage.found_note.
  destruct Hloc as [[Hopt Hp]|[Hopt Hg]].
  - inversion Hp; subst lat lng. rewrite Hopt.
    apply page_bind_reruns.
    erewrite page_bind_continues by reflexivity.
    apply page_bind_reruns.
    erewrite page_bind_continues by reflexivity.
    erewrite page_bind_continues
      by (eapply locator_lift_returned;
          [exact Hk | apply locator_search_run; exact Hf]).
    rewrite app_nil_r. reflexivity.
  - rewrite Hopt. unfold LocatorPage.get_coordinates. rewrite Hg.
    apply page_bind_reruns.
    erewrite page_bind_continues by reflexivity.
    apply page_bind_reruns.
    erewrite page_bind_continues by reflexivity.
    erewrite page_bind_continues
      by (eapply locator_lift_returned;
          [exact Hk | apply locator_search_run; exact Hf]).
    reflexivity.
Qed.

(** A run in which no button is pressed shows the right column under
    what every run writes first. *)
Lemma idle_opened (inp : LocatorPage.Inputs)
    (s : LocatorPage.locator_state) (k : string) :
  LocatorPage.st_secrets inp = LocatorPage.Secret k ->
  k <> EmptyString ->
  frame_of inp <> [] ->
  LocatorPage.search_pressed inp = false ->
  LocatorPage.clear_cache_pressed inp = false ->
  run inp s = column2 (opened (frame_of inp) s) (opening inp).
Proof.
  intros Hkey Hk Hdf Hs Hc.
  rewrite (@run_opened inp s k Hkey Hk Hdf).
  erewrite page_bind_continues by (now apply column1_idle).
  unfold LocatorPage.opening. now rewrite <- ?app_assoc.
Qed.

Lemma released_opened (inp : LocatorPage.Inputs)
    (s : LocatorPage.locator_state) (k : string) :
  LocatorPage.st_secrets inp = LocatorPage.Secret k ->
  k <> EmptyString ->
  frame_of inp <> [] ->
  run (LocatorPage.released inp) s
  = column2 (opened (frame_of inp) s) (opening inp).
Proof.
  intros Hkey Hk Hdf.
  now apply (@idle_opened (LocatorPage.released inp) s k).
Qed.

Lemma query_nil_iff {pandas_spec : PandasSpec F}
    (rows : list (Locator.Charger F)) (lat lng rad : F) :
  Locator.query rows lat lng rad = [] <->
  (forall r, In r rows ->
     (Locator.distance_to lat lng r <=? rad)%np = false).
Proof.
  split.
  - intros Hq r Hr.
    destruct (Locator.distance_to lat lng r <=? rad)%np eqn:E;
      [|reflexivity].
    assert (Hin : In (r, Locator.distance_to lat lng r)
                     (Locator.query rows lat lng rad))
      by (apply locator_query_In; auto).
    rewrite Hq in Hin. contradiction.
  - intros Hall.
    destruct (Locator.query rows lat lng rad) as [|[r d] q] eqn:Eq;
      [reflexivity|].
    assert (Hin : In (r, d) (Locator.query rows lat lng rad))
      by (rewrite Eq; now left).
    apply locator_query_In in Hin. destruct Hin as (Hr & Hd & Hle).
    subst d. rewrite (Hall r Hr) in Hle. discriminate.
Qed.

(** A search that finds its coordinates restarts the page, and the run
    that follows shows what the search stored, under the headings, the
    messages of [fetch_ev_data_from_api] and the heading of the left
    column.  When no charger of the frame is within the radius that is
    the warning.  Otherwise it is a heading with the radius and the
    number of chargers, a map centred on the user's position with the
    circle of the radius (in metres) and one marker for each row of the
    result, the heading of the list, and the table of the same rows in
    the same order; when a coordinate to draw is NaN, [folium] raises
    [ValueError] instead. *)
Theorem search_shows_chargers_in_reach :
  forall {pandas_spec : PandasSpec F}
         (inp : LocatorPage.Inputs) (s : LocatorPage.locator_state)
         (k : string) (lat lng : F),
    LocatorPage.st_secrets inp = LocatorPage.Secret k ->
    k <> EmptyString ->
    frame_of inp <> [] ->
    LocatorPage.search_pressed inp = true ->
    (LocatorPage.option_radio inp = LocatorPage.CoordinateEntry
     /\ (lat, lng) = (LocatorPage.lat_input inp, LocatorPage.lng_input inp))
    \/ (LocatorPage.option_radio inp = LocatorPage.AddressEntry
        /\ geocode (LocatorPage.address_input inp)
           = LocatorPage.Location lat lng) ->
    let df := frame_of inp in
    let rad := LocatorPage.radius_slider inp in
    let q := Locator.query df lat lng rad in
    exists s1,
      run inp s = Reruns s1 (opening inp ++ found_note inp lat lng)
      /\ (q = [] <-> forall r, In r df ->
                       (Locator.distance_to lat lng r <=? rad)%np = false)
      /\ match q with
         | [] =>
             exists s2,
               run (LocatorPage.released inp) s1
               = Continues tt s2
                   (opening inp
                    ++ [LocatorPage.st_warning LocatorPage.NOTHING_NEARBY])
         | _ :: _ =>
             if LocatorPage.drawable lat lng q
             then exists s2,
                    run (LocatorPage.released inp) s1
                    = Continues tt s2 (opening inp ++ shown lat lng rad q)
             else run (LocatorPage.released inp) s1 = Crashes ValueError
         end.
Proof.
  intros pandas_spec inp s k lat lng Hkey Hk Hdf Hsearch Hloc df rad q.
  destruct (opened_keys df s) as (k0 & Hk0 & _).
  pose proof (@column1_search (List.length (LocatorPage.objects s)) inp
                (opened df s) (loaded inp)
                k0 (Plain df) lat lng Hk0 (opened_frame df s)
                Hsearch Hloc) as Hrun1.
  cbn zeta in Hrun1. cbn [stations] in Hrun1.
  match type of Hrun1 with
  | _ = Reruns ?st _ => set (s1 := st) in *
  end.
  exists s1.
  assert (Hrun2 : run (LocatorPage.released inp) s1
                  = column2 (opened df s1) (opening inp))
    by (now apply released_opened with k).
  assert (Hq : nth_error (LocatorPage.objects (opened df s1))
                 (List.length (LocatorPage.objects (opened df s)) + 2)
               = Some (WithDist q)).
  { unfold LocatorPage.opened at 1. subst s1.
    cbn [LocatorPage.keys LocatorPage.objects].
    unfold after_search. cbn [heap].
    rewrite nth_error_app1 by (rewrite !length_app; simpl; lia).
    rewrite nth_error_app2 by lia.
    replace (List.length (LocatorPage.objects (opened df s)) + 2
             - List.length (LocatorPage.objects (opened df s))) with 2 by lia.
    reflexivity. }
  pose proof (@column2_searched (opened df s1) (opening inp)
              (session (after_search
                 {| heap := LocatorPage.objects (opened df s);
                    session := k0 |} df (Locator.distance_to lat lng)
                 (fun r => (snd r <=? rad)%np) lat lng rad))
              (List.length (LocatorPage.objects (opened df s)) + 2)
              q lat lng rad eq_refl eq_refl eq_refl eq_refl eq_refl eq_refl
              Hq) as Hcol2.
  rewrite <- Hrun2 in Hcol2.
  split; [|split].
  - rewrite (@run_opened inp s k Hkey Hk Hdf).
    etransitivity; [exact Hrun1|].
    unfold LocatorPage.opening. now rewrite <- ?app_assoc.
  - apply query_nil_iff.
  - destruct q as [|row q'].
    + eexists. exact Hcol2.
    + destruct (LocatorPage.drawable lat lng (row :: q'));
        [eexists|]; exact Hcol2.
Qed.

(** An address the geocoder cannot place stops the run after the
    error message, with no map, table or hint.  The session keeps the
    frame of the last search but is marked as not searched, so that the
    run that follows shows the hint and not the earlier results. *)
Theorem failed_lookup_hides_results :
  forall (inp : LocatorPage.Inputs) (s : LocatorPage.locator_state)
         (k : string),
    LocatorPage.st_secrets inp = LocatorPage.Secret k ->
    k <> EmptyString ->
    frame_of inp <> [] ->
    LocatorPage.search_pressed inp = true ->
    LocatorPage.option_radio inp = LocatorPage.AddressEntry ->
    (forall lat lng, geocode (LocatorPage.address_input inp)
                     <> LocatorPage.Location lat lng) ->
    exists s1 body s2,
      run inp s = Stops s1 (opening inp ++ [LocatorPage.st_error body])
      /\ (forall k0, LocatorPage.keys s = Some k0 ->
            LocatorPage.keys s1
            = Some {| searched := false; results := results k0;
                      center_lat := center_lat k0;
                      center_lon := center_lon k0;
                      radius := radius k0 |})
      /\ run (LocatorPage.released inp) s1
         = Continues tt s2
             (opening inp ++ [LocatorPage.st_info LocatorPage.HOW_TO_SEARCH]).
Proof.
  intros inp s k Hkey Hk Hdf Hsearch Hopt Hgeo.
  set (df := frame_of inp) in *.
  destruct (opened_keys df s) as (k0 & Hk0 & Hsame & _).
  set (k1 := {| searched := false; results := results k0;
                center_lat := center_lat k0; center_lon := center_lon k0;
                radius := radius k0 |}).
  set (s1 := {| LocatorPage.objects := LocatorPage.objects (opened df s);
                LocatorPage.keys := Some k1 |}).
  assert (Hrun1 : exists body,
            run inp s
            = Stops s1 (opening inp ++ [LocatorPage.st_error body])).
  { rewrite (@run_opened inp s k Hkey Hk Hdf). fold df.
    unfold LocatorPage.column1, LocatorPage.opening.
    rewrite Hsearch, Hopt.
    unfold LocatorPage.get_coordinates.
    destruct (geocode (LocatorPage.address_input inp)) as [lat lng| |e].
    - exfalso. now apply (Hgeo lat lng).
    - eexists. apply page_bind_stops.
      erewrite page_bind_continues by reflexivity.
      apply page_bind_stops.
      erewrite page_bind_continues by reflexivity.
      erewrite page_bind_continues
        by (eapply locator_lift_returned; [exact Hk0|reflexivity]).
      unfold st_stop. cbn [Locator.located heap session].
      rewrite <- ?app_assoc. reflexivity.
    - eexists. apply page_bind_stops.
      erewrite page_bind_continues by reflexivity.
      apply page_bind_stops.
      erewrite page_bind_continues by reflexivity.
      erewrite page_bind_continues
        by (eapply locator_lift_returned; [exact Hk0|reflexivity]).
      unfold st_stop. cbn [Locator.located heap session].
      rewrite <- ?app_assoc. reflexivity. }
  destruct Hrun1 as (body & Hrun1).
  exists s1, body. eexists. split; [exact Hrun1|]. split.
  - intros k' Hk'. rewrite <- (Hsame k' Hk'). reflexivity.
  - rewrite (@released_opened inp s1 k Hkey Hk Hdf).
    now apply column2_not_searched with k1.
Qed.

(** The reset button forgets the session and restarts the page.  The
    run that follows, whatever its call of [fetch_ev_data_from_api]
    meets as long as it brings chargers, starts from the first values
    (not searched, an empty frame, Seoul City Hall, 1 km) and shows the
    hint, whatever the session held before.  A first visit is such a
    run. *)
Theorem reset_returns_to_first_values :
  forall (inp inp' : LocatorPage.Inputs) (s : LocatorPage.locator_state)
         (k k' : string),
    LocatorPage.st_secrets inp = LocatorPage.Secret k ->
    k <> EmptyString ->
    frame_of inp <> [] ->
    LocatorPage.search_pressed inp = false ->
    LocatorPage.clear_cache_pressed inp = true ->
    LocatorPage.st_secrets inp' = LocatorPage.Secret k' ->
    k' <> EmptyString ->
    frame_of inp' <> [] ->
    LocatorPage.search_pressed inp' = false ->
    LocatorPage.clear_cache_pressed inp' = false ->
    exists s1 s2 r,
      run inp s
      = Reruns s1 (opening inp
                   ++ [LocatorPage.st_success LocatorPage.RESET_DONE])
      /\ LocatorPage.keys s1 = None
      /\ run inp' s1
         = Continues tt s2
             (opening inp' ++ [LocatorPage.st_info LocatorPage.HOW_TO_SEARCH])
      /\ LocatorPage.keys s2
         = Some {| searched := false; results := Some r;
                   center_lat := Some default_lat;
                   center_lon := Some default_lng;
                   radius := Some default_radius |}
      /\ nth_error (LocatorPage.objects s2) r = Some (Plain []).
Proof.
  intros inp inp' s k k' Hkey Hk Hdf Hsearch Hclear
         Hkey' Hk' Hdf' Hsearch' Hclear'.
  set (s1 := {| LocatorPage.objects :=
                  LocatorPage.objects (opened (frame_of inp) s);
                LocatorPage.keys := None |}).
  destruct (opened_keys (frame_of inp') s1) as (k2 & Hk2 & _ & Hfirst).
  destruct (Hfirst eq_refl) as (Ek2 & Hempty).
  exists s1, (opened (frame_of inp') s1). eexists.
  split; [|split; [reflexivity|split; [|split]]].
  - rewrite (@run_opened inp s k Hkey Hk Hdf).
    apply page_bind_reruns. unfold LocatorPage.column1, LocatorPage.opening.
    rewrite Hsearch, Hclear.
    erewrite page_bind_continues by reflexivity.
    erewrite page_bind_continues by reflexivity.
    unfold page_bind, LocatorPage.session_clear, emit, st_rerun.
    rewrite <- ?app_assoc. reflexivity.
  - rewrite (@idle_opened inp' s1 k' Hkey' Hk' Hdf' Hsearch' Hclear').
    apply column2_not_searched with k2; [exact Hk2|].
    now rewrite Ek2.
  - rewrite Hk2, Ek2. reflexivity.
  - exact Hempty.
Qed.

(** Without a key the page stops under its headings after one error
    message.  Without a single charger from the API it stops after the
    spinner, the messages of [fetch_ev_data_from_api] and the warning
    that refers to them.  In both cases the session is not touched and neither button
    is looked at. *)
Theorem page_needs_key_and_data :
  forall (inp : LocatorPage.Inputs) (s : LocatorPage.locator_state),
    match LocatorPage.st_secrets inp with
    | LocatorPage.Secret (String a k) =>
        frame_of inp = [] ->
        exists s1,
          run inp s
          = Stops s1
              (loaded inp ++ [LocatorPage.st_warning LocatorPage.NO_DATA])
          /\ LocatorPage.keys s1 = LocatorPage.keys s
    | _ =>
        exists body,
          run inp s
          = Stops s (LocatorPage.headings ++ [LocatorPage.st_error body])
    end.
Proof.
  intros inp s. unfold LocatorPage.run, LocatorPage.script.
  destruct (LocatorPage.st_secrets inp) as [| |[|a k]];
    try (eexists; reflexivity).
  intros Hdf.
  erewrite page_bind_continues by reflexivity.
  erewrite page_bind_continues by reflexivity.
  unfold LocatorPage.service_key.
  unfold page_bind at 1, page_ret.
  erewrite page_bind_continues by reflexivity.
  unfold page_bind at 1, LocatorPage.st_cache_data.
  rewrite fetch_frame, Hdf.
  eexists. split.
  - unfold page_bind, LocatorPage.new_frame, emit, st_stop, empty.
    cbn [stations]. rewrite <- ?app_assoc. reflexivity.
  - reflexivity.
Qed.

End LocatorPageRun.

(** ** kepco_api_app.py *)

Lemma for_each_writes (items : list Kepco.Item)
    (out : list Kepco.element) :
  Kepco.for_each items tt out
  = Continues tt tt
      (out ++ flat_map
                (fun item =>
                   [ Kepco.st_write "---";
                     Kepco.st_write
                       (fstring [ "**충전소명:** ";
                                  Kepco.show (Kepco.cpName item) ]%string);
                     Kepco.st_write
                       (fstring [ "**주소:** ";
                                  Kepco.show (Kepco.addr item) ]%string);
                     Kepco.st_write
                       (fstring [ "**충전기 상태:** ";
                                  Kepco.show (Kepco.cpStat item) ]%string);
                     Kepco.st_write
                       (fstring [ "**충전 방식:** ";
                                  Kepco.show (Kepco.chargeTp item) ]%string) ])
                items).
Proof.
  revert out. induction items as [|item rest IH]; intros out.
  - simpl. now rewrite app_nil_r.
  - cbn [Kepco.for_each flat_map]. unfold page_bind at 1.
    unfold Kepco.write_item, page_bind, emit. rewrite IH.
    now rewrite <- !app_assoc.
Qed.

(** What the lookup shows.  When [requests.get] itself fails, the
    handler writes the error and then reads [response], which was never
    bound: the run ends in a [NameError].  A response with items is
    shown item by item, five lines each and in the response's order,
    between the heading and the XML; an absent element reads N/A and an
    empty one None. *)
Theorem lookup_outcomes :
  (forall e, Kepco.run true (Kepco.GetRaises e) = Crashes NameError)
  /\ (forall text item rest,
        Kepco.run true
          (Kepco.Response text (Kepco.Root (Some (item :: rest))))
        = Continues tt tt
            ([Kepco.st_subheader "API 호출 결과:"]
             ++ flat_map
                  (fun item =>
                     [ Kepco.st_write "---";
                       Kepco.st_write
                         (fstring [ "**충전소명:** ";
                                    Kepco.show (Kepco.cpName item) ]%string);
                       Kepco.st_write
                         (fstring [ "**주소:** ";
                                    Kepco.show (Kepco.addr item) ]%string);
                       Kepco.st_write
                         (fstring [ "**충전기 상태:** ";
                                    Kepco.show (Kepco.cpStat item) ]%string);
                       Kepco.st_write
                         (fstring [ "**충전 방식:** ";
                                    Kepco.show (Kepco.chargeTp item) ]%string) ])
                  (item :: rest)
             ++ [Kepco.st_code text])).
Proof.
  split.
  - intros e. reflexivity.
  - intros text item rest. unfold Kepco.run, Kepco.lookup.
    unfold page_bind at 1, emit at 1.
    unfold page_bind at 1. rewrite for_each_writes.
    unfold emit. now rewrite <- !app_assoc.
Qed.

(** ** The spreadsheet's coordinate columns *)

Section CombinedColumn.
Context {F : Type} {numpy : NumPy F}.
Variable split_latlon : list cell -> option (list (F * F)).

Lemma set_coordinates_twice (r : App.SheetRow F) (c c' : F * F) :
  App.set_coordinates (App.set_coordinates r c') c = App.set_coordinates r c.
Proof. reflexivity. Qed.

(** When the sheet has the combined column 위도경도, [load_data] takes
    every coordinate from it: whatever the columns 위도 and 경도 hold
    is overwritten before any row is dropped. *)
Theorem combined_column_overrides :
  forall (rows : list (App.SheetRow F)) (g : App.SheetRow F -> F * F),
    App.load_data split_latlon
      {| App.has_latlon := true;
         App.sheet_rows := map (fun r => App.set_coordinates r (g r)) rows |}
    = App.load_data split_latlon
        {| App.has_latlon := true; App.sheet_rows := rows |}.
Proof.
  intros rows g. unfold App.load_data. cbn [App.has_latlon App.sheet_rows].
  rewrite map_map. cbn [App.set_coordinates App.s_latlon].
  destruct (split_latlon (map (fun x => App.s_latlon x) rows)) as [cs|];
    [|reflexivity].
  rewrite length_map.
  destruct (List.length cs =? List.length rows); [|reflexivity].
  cbn [option_map]. do 3 f_equal.
  revert cs. induction rows as [|r rows IH]; intros [|c cs];
    try reflexivity.
  cbn [map combine fst snd]. now rewrite IH.
Qed.

End CombinedColumn.

(** ** Exact arithmetic: longitudes *)

Section Longitudes.
Local Open Scope R_scope.

Lemma sin_sq_half_turns (x : R) (n : nat) :
  sin (x + INR n * PI) ^ 2 = sin x ^ 2.
Proof.
  induction n as [|n IH].
  - replace (x + INR 0 * PI) with x by (simpl; lra). reflexivity.
  - rewrite S_INR.
    replace (x + (INR n + 1) * PI) with ((x + INR n * PI) + PI) by lra.
    rewrite neg_sin. rewrite <- IH. ring.
Qed.

Lemma sin_sq_half_turns_Z (x : R) (k : Z) :
  sin (x + IZR k * PI) ^ 2 = sin x ^ 2.
Proof.
  destruct (Z_le_gt_dec 0 k) as [Hk|Hk].
  - rewrite <- (Z2Nat.id k Hk), <- INR_IZR_INZ. apply sin_sq_half_turns.
  - rewrite <- (sin_sq_half_turns (x + IZR k * PI) (Z.to_nat (- k))).
    rewrite INR_IZR_INZ, Z2Nat.id by lia. rewrite opp_IZR.
    f_equal. f_equal. lra.
Qed.

(** In exact arithmetic the distance depends on the longitudes through
    their difference taken modulo 360 degrees only: moving both points
    by the same angle about the axis, or writing a longitude with whole
    turns added, gives the same distance. *)
Theorem ideal_haversine_longitude_shift :
  forall (lon1 lat1 lon2 lat2 delta : R) (k1 k2 : Z),
    haversine_np (Some (lon1 + delta + 360 * IZR k1)) (Some lat1)
                 (Some (lon2 + delta + 360 * IZR k2)) (Some lat2)
    = haversine_np (Some lon1) (Some lat1) (Some lon2) (Some lat2).
Proof.
  intros lon1 lat1 lon2 lat2 delta k1 k2.
  rewrite !ideal_haversine_np. do 4 f_equal.
  unfold real_a. do 2 f_equal.
  replace (((lon2 + delta + 360 * IZR k2) * (PI / 180)
            - (lon1 + delta + 360 * IZR k1) * (PI / 180)) / 2)
    with ((lon2 * (PI / 180) - lon1 * (PI / 180)) / 2
          + IZR (k2 - k1) * PI)
    by (rewrite minus_IZR; field).
  apply sin_sq_half_turns_Z.
Qed.

End Longitudes.

(** ** Witnesses and counterexamples *)

(** The distances of a run over the spreadsheet repository are the
    formula's. *)
Lemma distance_is_haversine_witness :
  exists res,
    result_of (@App.script float Float64_table StableSort64 0 pick_all
                 DEFAULT_LAT DEFAULT_LNG 2%float sheet_world) = Some res
    /\ Forall (fun x => snd x
                 = @spec_haversine float Float64_table
                     (App.latitude (fst x)) (App.longitude (fst x))
                     DEFAULT_LAT DEFAULT_LNG) res.
Proof.
  destruct (distance_is_haversine (numpy := Float64_table)
              (pandas := StableSort64) (pandas_spec := StableSort64_spec))
    as [_ [_ [Happ _]]].
  apply (Happ sheet_world 0 (Plain sheet_stations)). reflexivity.
Defined.



(** With "전체" everywhere, the accepted place types are the distinct
    non-null ones, and the station without a place type is not in the
    result. *)
Lemma categorical_filter_membership_witness :
  exists res,
    result_of (@App.script float Float64_table StableSort64 0 pick_all
                 DEFAULT_LAT DEFAULT_LNG 2%float sheet_world) = Some res
    /\ (forall fld r d, In (r, d) res -> App.field_value fld r <> None)
    /\ (forall s,
         In s (App.accepted App.Place (App.sidebar sheet_stations pick_all))
         <-> exists r, In r sheet_stations
                       /\ App.field_value App.Place r = Some s).
Proof.
  destruct (categorical_filter_membership (numpy := Float64_table)
              (pandas := StableSort64) (pandas_spec := StableSort64_spec)
              sheet_world 0 (f := Plain sheet_stations) pick_all
              DEFAULT_LAT DEFAULT_LNG 2%float eq_refl)
    as [res [Hres [_ [_ [Hall [_ Hnull]]]]]].
  exists res. split; [exact Hres|]. split; [exact Hnull|].
  apply (Hall App.Place). now left.
Defined.

(** A charger at distance 0 is within radius 0. *)
Lemma radius_filter_inclusive_witness :
  exists res,
    result_of (@Locator.search_button float Float64_table StableSort64 0
                 (Locator.DirectInput DEFAULT_LAT DEFAULT_LNG) 0%float
                 api_world) = Some res
    /\ In (charger_at_city_hall "S07", 0%float) res.
Proof.
  destruct (radius_filter_inclusive (numpy := Float64_table)
              (pandas := StableSort64) (order := Float64_order libm_table)
              (pandas_spec := StableSort64_spec))
    as [_ Hloc].
  destruct (Hloc api_world 0 (Plain api_chargers)
                 (Locator.DirectInput DEFAULT_LAT DEFAULT_LNG)
                 DEFAULT_LAT DEFAULT_LNG 0%float eq_refl eq_refl)
    as [res [Hres [_ [_ Hedge]]]].
  exists res. split; [exact Hres|].
  apply Hedge.
  - simpl. tauto.
  - reflexivity.
  - vm_compute. reflexivity.
Defined.

(** The stations of a result over the API repository, whose names are
    distinct, are distinct. *)
Lemma result_stations_follow_repository_witness :
  exists res,
    result_of (@Locator.search_button float Float64_table StableSort64 0
                 (Locator.DirectInput DEFAULT_LAT DEFAULT_LNG) 1%float
                 api_world) = Some res
    /\ NoDup (map Locator.station_key (map fst res)).
Proof.
  destruct (result_stations_follow_repository (numpy := Float64_table)
              (pandas := StableSort64) (pandas_spec := StableSort64_spec))
    as [_ Hloc].
  destruct (Hloc api_world 0 (Plain api_chargers)
                 (Locator.DirectInput DEFAULT_LAT DEFAULT_LNG)
                 DEFAULT_LAT DEFAULT_LNG 1%float eq_refl eq_refl)
    as [res [Hres [_ Hnd]]].
  exists res. split; [exact Hres|].
  apply Hnd. vm_compute.
  repeat (constructor; [simpl; intuition discriminate|]). constructor.
Defined.

(** C9, as stated, fails: the two chargers of one station are two rows
    of the repository and two rows of the result (the third row is the
    station of the specification's scenario, at 1.0255 km). *)
Lemma station_listed_twice :
  option_map (map (fun x => (App.station_key (fst x), snd x)))
    (result_of (@App.script float Float64_table StableSort64 0 pick_all
                  DEFAULT_LAT DEFAULT_LNG 2%float sheet_world))
  = Some [ ((Some "Seoul Plaza", Some "110 Sejong-daero"), 0);
           ((Some "Seoul Plaza", Some "110 Sejong-daero"), 0);
           ((Some "CityHallCharger", Some "40 Eulji-ro"),
            0x1.06861fed2292cp+0)
         ]%string%float.
Proof. vm_compute. reflexivity. Qed.

(** Chargers within the radius are in the result whatever their other
    fields say. *)
Lemma locator_filters_by_radius_only_witness :
  exists res,
    result_of (@Locator.search_button float Float64_table StableSort64 0
                 (Locator.DirectInput DEFAULT_LAT DEFAULT_LNG) 1%float
                 api_world) = Some res
    /\ In (charger_at_city_hall "S18", 0%float) res.
Proof.
  destruct (locator_filters_by_radius_only (numpy := Float64_table)
              (pandas := StableSort64) (pandas_spec := StableSort64_spec)
              api_world 0 (f := Plain api_chargers)
              (Locator.DirectInput DEFAULT_LAT DEFAULT_LNG)
              (lat := DEFAULT_LAT) (lng := DEFAULT_LNG) 1%float
              eq_refl eq_refl)
    as [res [Hres [Hin _]]].
  exists res. split; [exact Hres|].
  apply (Hin (charger_at_city_hall "S18")).
  - simpl. tauto.
  - vm_compute. reflexivity.
Defined.

(** The search of the scenario, at the default radius of the slider:
    both blocks run to their end. *)
Lemma search_accepts_every_parameter_witness :
  (exists w',
      @App.script float Float64_table StableSort64 0 pick_all
        DEFAULT_LAT DEFAULT_LNG 1%float sheet_world = Returned tt w')
  /\ (exists w',
        @Locator.search_button float Float64_table StableSort64 0
          (Locator.DirectInput DEFAULT_LAT DEFAULT_LNG) 1%float api_world
        = Returned tt w').
Proof.
  destruct (@search_accepts_every_parameter float Float64_table StableSort64)
    as (Happ & _ & Hloc & _).
  split.
  - apply (Happ sheet_world 0 (Plain sheet_stations)). reflexivity.
  - apply (Hloc api_world 0 (Plain api_chargers)). reflexivity.
Defined.

(** A run over the spreadsheet repository leaves the repository frame
    as it was. *)
Lemma search_is_pure_witness :
  exists w',
    @App.script float Float64_table StableSort64 0 pick_all
      DEFAULT_LAT DEFAULT_LNG 2%float sheet_world = Returned tt w'
    /\ nth_error (heap w') 0 = Some (Plain sheet_stations)
    /\ exists w'',
        @App.script float Float64_table StableSort64 0 pick_all
          DEFAULT_LAT DEFAULT_LNG 2%float w' = Returned tt w''
        /\ result_rows w'' = result_rows w'.
Proof.
  destruct (search_is_pure (numpy := Float64_table)
              (pandas := StableSort64))
    as [Happ _].
  destruct (Happ sheet_world 0 (Plain sheet_stations) pick_all
                 DEFAULT_LAT DEFAULT_LNG 2%float eq_refl)
    as [w' [Hrun [_ [Hraw [_ [_ [w'' [Hrun' [Hsame _]]]]]]]]].
  exists w'. split; [exact Hrun|]. split; [exact Hraw|].
  exists w''. split; [exact Hrun'|exact Hsame].
Defined.


(** C4, as stated, fails in binary64, with [sin] and [cos] correctly
    rounded.  For a record at 89.9N 180E and a reference point at 90.1N
    0E the value handed to [sqrt] is -2^-71, whose [sqrt] is NaN: the
    function returns NaN, where the clamped formula returns 0.  For a
    record at 8N 0E and a reference point at 8S 180E that value is
    1 + 2^-52, above 1. *)
Lemma unclamped_sqrt_returns_nan :
  @haversine_a float Float64_polar 180%float 89.9%float 0%float 90.1%float
  = (-0x1p-71)%float
  /\ PrimFloat.is_nan (PrimFloat.sqrt (-0x1p-71)) = true
  /\ PrimFloat.is_nan
       (@haversine_np float Float64_polar 180%float 89.9%float 0%float
                      90.1%float) = true
  /\ @spec_haversine_clamped float Float64_polar 89.9%float 180%float
       90.1%float 0%float = 0%float
  /\ @haversine_a float Float64_table 0%float 8%float 180%float (-8)%float
     = 0x1.0000000000001p+0%float.
Proof. repeat split; vm_compute; reflexivity. Qed.

(** The scenarios of the specification: the station at (37.5651,
    126.9895) is 1.0255 km from (37.5665, 126.9780); it is in the result
    for a radius of 2.0 km and not for 0.5 km. *)
Example city_hall_scenario :
  @App.distance_to float Float64_table DEFAULT_LAT DEFAULT_LNG
     city_hall_charger = 0x1.06861fed2292cp+0%float
  /\ option_map (map (fun x => App.name (fst x)))
       (result_of (@App.script float Float64_table StableSort64 0 pick_all
                     DEFAULT_LAT DEFAULT_LNG 2%float sheet_world))
     = Some [Some "Seoul Plaza"; Some "Seoul Plaza";
             Some "CityHallCharger"]%string
  /\ option_map (map (fun x => App.name (fst x)))
       (result_of (@App.script float Float64_table StableSort64 0 pick_all
                     DEFAULT_LAT DEFAULT_LNG 0.5%float sheet_world))
     = Some [Some "Seoul Plaza"; Some "Seoul Plaza"]%string.
Proof. repeat split; vm_compute; reflexivity. Qed.

(** A charger found within 1 km is found within 2 km. *)
Lemma larger_radius_keeps_stations_witness :
  In (charger_at_city_hall "S01", 0%float)
     (@Locator.query float Float64_table StableSort64 api_chargers
        DEFAULT_LAT DEFAULT_LNG 2%float).
Proof.
  destruct (larger_radius_keeps_stations (numpy := Float64_table)
              (pandas := StableSort64) (order := Float64_order libm_table)
              (pandas_spec := StableSort64_spec))
    as [_ Hloc].
  apply (Hloc api_chargers DEFAULT_LAT DEFAULT_LNG 1%float 2%float).
  - vm_compute. reflexivity.
  - apply (locator_query_In (pandas_spec := StableSort64_spec)).
    split; [simpl; tauto|]. split; vm_compute; reflexivity.
Defined.


(** With "전체" everywhere, a charger of Seoul Plaza is in the result of
    the query around the plaza. *)
Lemma select_all_keeps_labelled_stations_witness :
  In (plaza "AC" "slow", 0%float)
     (@App.query float Float64_table StableSort64 sheet_stations
        (App.sidebar sheet_stations pick_all) DEFAULT_LAT DEFAULT_LNG 2%float).
Proof.
  apply (select_all_keeps_labelled_stations (numpy := Float64_table)
           (pandas := StableSort64) (pandas_spec := StableSort64_spec)
           sheet_stations pick_all DEFAULT_LAT DEFAULT_LNG 2%float
           (plaza "AC" "slow") 0%float).
  - intros []; simpl; auto.
  - split; [simpl; tauto|]. split; [vm_compute; reflexivity|].
    split; [intros []; discriminate|vm_compute; reflexivity].
Defined.

(** With no place type picked the result is empty. *)
Lemma empty_selection_returns_nothing_witness :
  @App.query float Float64_table StableSort64 sheet_stations
     (App.sidebar sheet_stations pick_no_place) DEFAULT_LAT DEFAULT_LNG
     2%float = [].
Proof.
  apply (empty_selection_returns_nothing (numpy := Float64_table)
           (pandas := StableSort64) (pandas_spec := StableSort64_spec)
           sheet_stations pick_no_place DEFAULT_LAT DEFAULT_LNG 2%float
           App.Place).
  reflexivity.
Defined.

(** The item whose latitude is not a number leaves no trace. *)
Lemma unreadable_item_is_skipped_witness :
  @Locator.fetch_ev_data_from_api float Float64_table float_of_text
     (Locator.Document "00"
        (Some ([item_with_position] ++ item_unreadable :: [])))
  = @Locator.fetch_ev_data_from_api float Float64_table float_of_text
      (Locator.Document "00" (Some ([item_with_position] ++ []))).
Proof.
  apply (unreadable_item_is_skipped (numpy := Float64_table) float_of_text
           [item_with_position] [] item_unreadable).
  left. reflexivity.
Defined.

(** The item without latitude is loaded at latitude 0. *)
Lemma half_located_item_is_kept_witness :
  exists c,
    In c (@Locator.fetch_ev_data_from_api float Float64_table float_of_text
            (Locator.Document "00" (Some [item_half_located])))
    /\ Locator.name c = "S03"%string
    /\ Locator.latitude c = 0%float
    /\ Locator.longitude c = DEFAULT_LNG.
Proof.
  apply (half_located_item_is_kept (numpy := Float64_table) float_of_text
           [item_half_located] item_half_located (x := DEFAULT_LNG)).
  - now left.
  - now left.
  - reflexivity.
  - vm_compute. reflexivity.
Defined.

(** A charger whose latitude is NaN passes the filter of ingestion; a
    frame with it and a charger at 37N 127E, searched from that
    point. *)
Lemma nan_charger_is_never_found_witness :
  @Locator.has_position ideal Ideal nan_charger = true
  /\ exists res,
    result_of (@Locator.search_button ideal Ideal StableSort 0
                 (Locator.DirectInput (Some 37%R) (Some 127%R))
                 (Some 1%R) exact_world) = Some res
    /\ Forall (fun row => Locator.latitude (fst row) <> None
                          /\ Locator.longitude (fst row) <> None) res
    /\ (res <> [] ->
        @LocatorPage.drawable ideal Ideal (Some 37%R) (Some 127%R) res
        = true).
Proof.
  split; [reflexivity|].
  apply (@nan_charger_is_never_found StableSort
           (StableSort_spec (order := Ideal_order))
           exact_world 0 (Plain [nan_charger; exact_charger])
           (Locator.DirectInput (Some 37%R) (Some 127%R))
           (Some 37%R) (Some 127%R) (Some 1%R));
    reflexivity.
Defined.

(** A click after a search moves the centre and leaves the stored
    search alone. *)
Lemma results_change_only_on_search_witness :
  exists s',
    state_after
      (app_run 0 (app_widgets AppPage.AddressEntry false false
                              (Some (37.5700%float, 126.9800%float)))
               after_search_and_click) = Some s'
    /\ (AppPage.same_search after_search_and_click s'
        /\ result_rows (AppPage.app_world s')
           = result_rows (AppPage.app_world after_search_and_click))
    /\ result_rows (AppPage.app_world after_search_and_click)
       = Some (@App.query float Float64_table StableSort64 sheet_stations
                 (App.sidebar sheet_stations pick_all)
                 DEFAULT_LAT DEFAULT_LNG 2%float)
    /\ AppPage.get_center DEFAULT_LAT DEFAULT_LNG (session (AppPage.app_world s'))
       = (37.5700%float, 126.9800%float).
Proof.
  eexists. split; [reflexivity|]. split; [|split; reflexivity].
  apply (@results_change_only_on_search float Float64_table StableSort64
           DEFAULT_LAT DEFAULT_LNG
           geocode_city_hall number_text number_text number_text 0
           (app_widgets AppPage.AddressEntry false false
                        (Some (37.5700%float, 126.9800%float)))
           after_search_and_click); reflexivity.
Defined.

(** A search by coordinates around the plaza draws its result. *)
Lemma search_run_draws_results_witness :
  exists s' out,
    app_run 0 (app_widgets AppPage.CoordinateEntry false true None)
            sheet_page = Continues tt s' out
    /\ result_rows (AppPage.app_world s')
       = Some (@App.query float Float64_table StableSort64 sheet_stations
                 (App.sidebar sheet_stations pick_all)
                 DEFAULT_LAT DEFAULT_LNG 2%float)
    /\ AppPage.maps out
       = [ AppPage.folium_map number_text number_text DEFAULT_LAT DEFAULT_LNG
             (@App.query float Float64_table StableSort64 sheet_stations
                (App.sidebar sheet_stations pick_all)
                DEFAULT_LAT DEFAULT_LNG 2%float) ].
Proof.
  apply (@search_run_draws_results float Float64_table StableSort64
           DEFAULT_LAT DEFAULT_LNG geocode_city_hall
           number_text number_text number_text 0 (Plain sheet_stations)
           (app_widgets AppPage.CoordinateEntry false true None)
           sheet_page DEFAULT_LAT DEFAULT_LNG).
  - reflexivity.
  - reflexivity.
  - left. split; reflexivity.
Defined.

(** The address of the City Hall is found: the run restarts with the
    centre on it. *)
Lemma address_lookup_moves_centre_only_witness :
  exists s' out,
    app_run 0 (app_widgets AppPage.AddressEntry true false None) sheet_page
    = Reruns s' out
    /\ center_lat (session (AppPage.app_world s')) = Some DEFAULT_LAT
    /\ center_lon (session (AppPage.app_world s')) = Some DEFAULT_LNG
    /\ AppPage.same_search sheet_page s'
    /\ AppPage.maps out = [].
Proof.
  apply (@address_lookup_moves_centre_only float Float64_table StableSort64
           DEFAULT_LAT DEFAULT_LNG geocode_city_hall
           number_text number_text number_text 0 (Plain sheet_stations)
           (app_widgets AppPage.AddressEntry true false None)
           sheet_page []); reflexivity.
Defined.


(** The first visit with a search by coordinates: the page restarts and
    then shows the one charger of the frame, which is at the user's
    position, under the headings and the messages of the fetch (one
    item is unreadable, one charger is loaded). *)
Lemma search_shows_chargers_in_reach_witness :
  map (fun row => (Locator.name (fst row), snd row)) near_city_hall
  = [("S01"%string, 0%float)]
  /\ locator_opening coordinate_search
     = [ LocatorPage.st_title "🔌 한국전력 전기차 충전소 위치 탐색기";
         LocatorPage.st_markdown
           "내 위치 주변의 한국전력 전기차 충전소를 찾아보세요!";
         LocatorPage.st_spinner
           "충전소 데이터 불러오는 중... 잠시만 기다려 주세요.";
         LocatorPage.st_write
           ["📡 한국전력공사 전기차 충전소 데이터를 불러오는 중..."%string];
         LocatorPage.st_warning
           "데이터 파싱 중 오류 발생: could not convert string to float: 'n/a' - 일부 충전소 데이터가 누락될 수 있습니다.";
         LocatorPage.st_success
           "✅ 총 1개의 충전소 데이터를 성공적으로 불러왔습니다.";
         LocatorPage.st_subheader "📍 위치 및 반경 설정" ]
  /\ exists s1,
       locator_run coordinate_search first_visit
       = Reruns s1 (locator_opening coordinate_search)
       /\ exists s2,
            locator_run (LocatorPage.released coordinate_search) s1
            = Continues tt s2
                (locator_opening coordinate_search
                 ++ @LocatorPage.shown float Float64_table number_text number_text
                      DEFAULT_LAT DEFAULT_LNG 1%float near_city_hall).
Proof.
  split; [reflexivity|]. split; [reflexivity|].
  destruct (@search_shows_chargers_in_reach float Float64_table StableSort64
              float_of_text float_complaint (fun text => text)
              DEFAULT_LAT DEFAULT_LNG 1%float
              number_text number_text number_text nowhere StableSort64_spec
              coordinate_search first_visit "key"%string
              DEFAULT_LAT DEFAULT_LNG)
    as (s1 & H1 & _ & H3).
  - reflexivity.
  - discriminate.
  - discriminate.
  - reflexivity.
  - left. split; reflexivity.
  - exists s1. split.
    + etransitivity; [exact H1|]. apply f_equal. apply app_nil_r.
    + exact H3.
Defined.

(** An address the geocoder does not know stops the first visit, and
    the next run shows the hint. *)
Lemma failed_lookup_hides_results_witness :
  exists s1 body s2,
    locator_run address_search first_visit
    = Stops s1 (locator_opening address_search
                ++ [LocatorPage.st_error body])
    /\ locator_run (LocatorPage.released address_search) s1
       = Continues tt s2
           (locator_opening address_search
            ++ [LocatorPage.st_info LocatorPage.HOW_TO_SEARCH]).
Proof.
  destruct (@failed_lookup_hides_results float Float64_table StableSort64
              float_of_text float_complaint (fun text => text)
              DEFAULT_LAT DEFAULT_LNG 1%float
              number_text number_text number_text nowhere
              address_search first_visit "key"%string)
    as (s1 & body & s2 & H1 & _ & H3).
  - reflexivity.
  - discriminate.
  - discriminate.
  - reflexivity.
  - reflexivity.
  - intros lat lng. discriminate.
  - exists s1, body, s2. split; assumption.
Defined.

(** The reset button on the first visit, and a visit after it. *)
Lemma reset_returns_to_first_values_witness :
  exists s1 s2 r,
    locator_run reset_pressed first_visit
    = Reruns s1 (locator_opening reset_pressed
                 ++ [LocatorPage.st_success LocatorPage.RESET_DONE])
    /\ LocatorPage.keys s1 = None
    /\ locator_run no_button s1
       = Continues tt s2
           (locator_opening no_button
            ++ [LocatorPage.st_info LocatorPage.HOW_TO_SEARCH])
    /\ LocatorPage.keys s2
       = Some {| searched := false; results := Some r;
                 center_lat := Some DEFAULT_LAT;
                 center_lon := Some DEFAULT_LNG;
                 radius := Some 1%float |}
    /\ nth_error (LocatorPage.objects s2) r = Some (Plain []).
Proof.
  apply (@reset_returns_to_first_values float Float64_table StableSort64
           float_of_text float_complaint (fun text => text)
           DEFAULT_LAT DEFAULT_LNG 1%float
           number_text number_text number_text nowhere
           reset_pressed no_button first_visit "key"%string "key"%string);
    try reflexivity; discriminate.
Defined.

(** A request that times out: the first visit stops after the three
    messages of the failed request and the warning, although the search
    button is pressed. *)
Lemma page_needs_key_and_data_witness :
  exists s1,
    locator_run timed_out first_visit
    = Stops s1
        [ LocatorPage.st_title "🔌 한국전력 전기차 충전소 위치 탐색기";
          LocatorPage.st_markdown
            "내 위치 주변의 한국전력 전기차 충전소를 찾아보세요!";
          LocatorPage.st_spinner
            "충전소 데이터 불러오는 중... 잠시만 기다려 주세요.";
          LocatorPage.st_write
            ["📡 한국전력공사 전기차 충전소 데이터를 불러오는 중..."%string];
          LocatorPage.st_error
            "❌ API 호출 중 네트워크 또는 HTTP 오류 발생: timed out";
          LocatorPage.st_write
            [ "API 요청 URL:"%string;
              "http://openapi.kepco.co.kr/service/EvInfoServiceV2/getEvSearchList"%string ];
          LocatorPage.st_code "응답 없음";
          LocatorPage.st_warning LocatorPage.NO_DATA ]
    /\ LocatorPage.keys s1 = None.
Proof.
  apply (@page_needs_key_and_data float Float64_table StableSort64
           float_of_text float_complaint (fun text => text)
           DEFAULT_LAT DEFAULT_LNG 1%float
           number_text number_text number_text nowhere
           timed_out first_visit).
  reflexivity.
Defined.
